(** * University backend: departments, syllabi and logout

    A shallow embedding of the domain logic of the Django backend
    (academics/models.py, academics/views.py, courses/models.py,
    courses/serializers.py, accounts/views.py) together with the
    properties its specification states about it.

    Tables are lists of rows.  Every operation takes the table it runs
    against and returns its outcome together with the table afterwards;
    an operation that raises leaves the table as it was (the manager
    wraps its work in [transaction.atomic()], the others write only as
    their last step). *)

From Stdlib Require Import String Ascii ZArith NArith List Bool Lia Sorted Permutation.
Import ListNotations.
Local Open Scope string_scope.
Local Open Scope Z_scope.

(** ** Outcomes *)

Inductive Error : Type :=
| ValueError (msg : string)
| ValidationError (errors : list string)
| IntegrityError (constraint : string)
| DoesNotExist.

Inductive result (A : Type) : Type :=
| Ok (a : A)
| Err (e : Error).

Arguments Ok {A} a.
Arguments Err {A} e.

Definition is_ok {A : Type} (r : result A) : bool :=
  match r with Ok _ => true | Err _ => false end.

(** ** The Python builtins the models rely on *)

Module Py.

Definition code (c : ascii) : Z := Z.of_N (N_of_ascii c).

Definition is_digit (c : ascii) : bool := (48 <=? code c) && (code c <=? 57).

Definition is_alpha (c : ascii) : bool :=
  ((65 <=? code c) && (code c <=? 90)) || ((97 <=? code c) && (code c <=? 122)).

(** [\s] of a [str] pattern, on the code points below 256. *)
Definition is_space (c : ascii) : bool :=
  ((9 <=? code c) && (code c <=? 13)) || ((28 <=? code c) && (code c <=? 32))
  || (code c =? 133) || (code c =? 160).

Fixpoint all_chars (p : ascii -> bool) (s : string) : bool :=
  match s with
  | EmptyString => true
  | String c s' => p c && all_chars p s'
  end.

Definition len (s : string) : Z := Z.of_nat (String.length s).

Fixpoint parse_digits (s : string) (acc : Z) : option Z :=
  match s with
  | EmptyString => Some acc
  | String c s' =>
      if is_digit c then parse_digits s' (10 * acc + (code c - 48)) else None
  end.

(** [int(s)] on a string of decimal digits; [None] stands for the
    [ValueError] Python raises on anything else an id column can hold
    once the [^\d{4}$] validator has run. *)
Definition int (s : string) : option Z :=
  match s with
  | EmptyString => None
  | _ => parse_digits s 0
  end.

Definition digit_char (d : Z) : ascii := ascii_of_N (Z.to_N (48 + d)).

Fixpoint str_digits (fuel : nat) (n : Z) (acc : string) : string :=
  match fuel with
  | O => acc
  | S fuel' =>
      let acc' := String (digit_char (n mod 10)) acc in
      if n <? 10 then acc' else str_digits fuel' (n / 10) acc'
  end.

(** [str(n)] for [0 <= n]. *)
Definition str (n : Z) : string :=
  str_digits (S (Z.to_nat (Z.log2 n))) n "".

Fixpoint zeros (k : nat) (s : string) : string :=
  match k with
  | O => s
  | S k' => String "0" (zeros k' s)
  end.

Definition zfill (width : nat) (s : string) : string :=
  zeros (width - String.length s) s.

(** [f"{n:04d}"]: sign first, then zeros up to a total width of four. *)
Definition format_04d (n : Z) : string :=
  if n <? 0 then String "-" (zfill 3 (str (- n))) else zfill 4 (str n).

End Py.

(** ** academics/models.py, academics/views.py, academics/serializers.py *)

Module Academics.

Inductive Faculty : Type :=
| INFORMATION_COMPUTING
| ENGINEERING_TECHNOLOGY
| INTERDISCIPLINARY_RESEARCH
| LIFE_SCIENCES
| LIBERAL_ARTS_MEDIA
| MANAGEMENT_STUDIES
| SCIENCES
| CCSD.

Definition Faculty_value (f : Faculty) : string :=
  match f with
  | INFORMATION_COMPUTING => "I&C"
  | ENGINEERING_TECHNOLOGY => "E&T"
  | INTERDISCIPLINARY_RESEARCH => "I&R"
  | LIFE_SCIENCES => "LS"
  | LIBERAL_ARTS_MEDIA => "LAMS"
  | MANAGEMENT_STUDIES => "MS"
  | SCIENCES => "SC"
  | CCSD => "CCSD"
  end.

Definition Faculty_members : list Faculty :=
  [INFORMATION_COMPUTING; ENGINEERING_TECHNOLOGY; INTERDISCIPLINARY_RESEARCH;
   LIFE_SCIENCES; LIBERAL_ARTS_MEDIA; MANAGEMENT_STUDIES; SCIENCES; CCSD].

(** The stored value of every pair [Faculty.choices()] returns. *)
Definition Faculty_choices : list string := map Faculty_value Faculty_members.

(** The columns of a department the operations below read or write.
    The audit columns are stamped by the framework and are not
    editable, so validation never looks at them. *)
Record Department : Type := mkDepartment {
  id : string;
  name : string;
  faculty : string;
  is_deleted : bool
}.

Definition Table : Type := list Department.

(** A model instance in memory: its columns, Django's [_state.adding]
    and whether the attribute [_id_set_by_manager] is present. *)
Record Instance : Type := mkInstance {
  row : Department;
  adding : bool;
  id_set_by_manager : bool
}.

(** [Department(...)]: a fresh instance *)
Definition construct (d : Department) : Instance :=
  {| row := d; adding := true; id_set_by_manager := false |}.

(** An instance loaded by a query. *)
Definition from_db (d : Department) : Instance :=
  {| row := d; adding := false; id_set_by_manager := false |}.

(** [self.pk] is falsy on the empty string. *)
Definition pk_truthy (d : Department) : bool := negb (id d =? "")%string.

Definition set_is_deleted (v : bool) (d : Department) : Department :=
  {| id := id d; name := name d; faculty := faculty d; is_deleted := v |}.

Definition set_name_faculty (n f : string) (d : Department) : Department :=
  {| id := id d; name := n; faculty := f; is_deleted := is_deleted d |}.

(** *** Queries *)

Definition has_pk (pk : string) (d : Department) : bool := (id d =? pk)%string.

Definition get (pk : string) (t : Table) : option Department :=
  find (has_pk pk) t.

Definition exists_pk (pk : string) (t : Table) : bool := existsb (has_pk pk) t.

(** [filter(is_deleted=v)] *)
Definition filter_is_deleted (v : bool) (t : Table) : Table :=
  filter (fun d => Bool.eqb (is_deleted d) v) t.

(** [order_by('-id').first()]: the row whose id is greatest in the
    order of the column, which is the order of strings. *)
Fixpoint first_by_id_desc (t : Table) : option Department :=
  match t with
  | [] => None
  | d :: t' =>
      match first_by_id_desc t' with
      | None => Some d
      | Some m => if (id d <? id m)%string then Some m else Some d
      end
  end.

Fixpoint insert_by_id (d : Department) (t : Table) : Table :=
  match t with
  | [] => [d]
  | e :: t' => if (id d <=? id e)%string then d :: e :: t' else e :: insert_by_id d t'
  end.

(** [order_by('id')] *)
Definition order_by_id (t : Table) : Table := fold_right insert_by_id [] t.

(** *** Validation: [full_clean] *)

(** [^\d{4}$], searched: four digits, then the end or a final newline. *)
Definition id_regex (s : string) : bool :=
  match s with
  | String a (String b (String c (String d rest))) =>
      Py.is_digit a && Py.is_digit b && Py.is_digit c && Py.is_digit d
      && ((rest =? "")%string || (rest =? String "010" "")%string)
  | _ => false
  end.

Definition name_char (c : ascii) : bool :=
  Py.is_alpha c || Py.is_space c || (Py.code c =? 38).

(** [^[a-zA-Z\s&]+$] *)
Definition name_regex (s : string) : bool :=
  negb (s =? "")%string && Py.all_chars name_char s.

(** The id column is not editable: only its validators run, and not on
    an empty value. *)
Definition clean_id (s : string) : bool :=
  (s =? "")%string || (id_regex s && (Py.len s <=? 4)).

Definition clean_name (s : string) : bool :=
  negb (s =? "")%string && name_regex s && (Py.len s <=? 50).

Definition clean_faculty (s : string) : bool :=
  negb (s =? "")%string && existsb (String.eqb s) Faculty_choices && (Py.len s <=? 4).

(** The names of the fields [clean_fields] rejects. *)
Definition clean_fields (d : Department) : list string :=
  ((if clean_id (id d) then [] else ["id"])
   ++ (if clean_name (name d) then [] else ["name"])
   ++ (if clean_faculty (faculty d) then [] else ["faculty"]))%list.

(** [Department.clean] *)
Definition clean (d : Department) : result (list string) :=
  if pk_truthy d then
    match Py.int (id d) with
    | None => Err (ValueError "invalid literal for int() with base 10")
    | Some n =>
        if (id d =? Py.format_04d n)%string then Ok []
        else Ok ["ID must remain a four-digit padded string"]
    end
  else Ok [].

Definition mentions (field : string) (errors : list string) : bool :=
  existsb (String.eqb field) errors.

(** The primary key is checked against every stored row, deleted or
    not, when the instance is being added. *)
Definition validate_unique (i : Instance) (t : Table) : list string :=
  if adding i && exists_pk (id (row i)) t then ["id"] else [].

Definition same_pair (d e : Department) : bool :=
  (name e =? name d)%string && (faculty e =? faculty d)%string.

(** A stored active row with the pair of [d]; [skip_own] leaves the
    row with the key of [d] out. *)
Definition pair_taken (skip_own : bool) (d : Department) (t : Table) : bool :=
  existsb (fun e => same_pair d e && negb (is_deleted e)
                    && negb (skip_own && has_pk (id d) e)) t.

(** The constraint [unique_active_name_faculty]. *)
Definition validate_constraints (i : Instance) (t : Table) : list string :=
  if negb (is_deleted (row i)) && pair_taken (negb (adding i)) (row i) t
  then ["unique_active_name_faculty"] else [].

Definition full_clean (i : Instance) (t : Table) : result unit :=
  let field_errors := clean_fields (row i) in
  match clean (row i) with
  | Err e => Err e
  | Ok clean_errors =>
      let unique_errors :=
        if mentions "id" field_errors then [] else validate_unique i t in
      let constraint_errors :=
        if mentions "name" field_errors || mentions "faculty" field_errors
        then [] else validate_constraints i t in
      match (field_errors ++ clean_errors ++ unique_errors ++ constraint_errors)%list with
      | [] => Ok tt
      | errors => Err (ValidationError errors)
      end
  end.

(** *** The database writes *)

Definition insert (d : Department) (t : Table) : result unit * Table :=
  if exists_pk (id d) t then (Err (IntegrityError "PRIMARY KEY"), t)
  else if negb (is_deleted d) && pair_taken false d t
  then (Err (IntegrityError "unique_active_name_faculty"), t)
  else (Ok tt, (t ++ [d])%list).

Definition update (d : Department) (t : Table) : result unit * Table :=
  if negb (is_deleted d) && pair_taken true d t
  then (Err (IntegrityError "unique_active_name_faculty"), t)
  else (Ok tt, map (fun e => if has_pk (id d) e then d else e) t).

(** *** [Department.save] and the [pre_save] signal *)

Definition department_pre_save (i : Instance) : Instance :=
  if negb (pk_truthy (row i))
  then {| row := row i; adding := adding i; id_set_by_manager := true |}
  else i.

(** [Model.save]: the signal, then an UPDATE of the row with this key
    unless an insert is forced, and an INSERT when nothing was
    updated. *)
Definition save_base (force_insert : bool) (i : Instance) (t : Table)
  : result Instance * Table :=
  let i1 := department_pre_save i in
  let written :=
    if negb force_insert && exists_pk (id (row i1)) t
    then update (row i1) t else insert (row i1) t in
  match written with
  | (Ok _, t') =>
      (Ok {| row := row i1; adding := false;
             id_set_by_manager := id_set_by_manager i1 |}, t')
  | (Err e, _) => (Err e, t)
  end.

Definition save (force_insert : bool) (i : Instance) (t : Table)
  : result Instance * Table :=
  if negb (pk_truthy (row i)) && negb (id_set_by_manager i) then
    (Err (ValueError "Use Department.objects.create_department() to create departments"), t)
  else
    match full_clean i t with
    | Err e => (Err e, t)
    | Ok _ => save_base force_insert i t
    end.

(** [Department.delete] *)
Definition delete (soft : bool) (i : Instance) (t : Table) : result unit * Table :=
  if soft then
    match save false {| row := set_is_deleted true (row i); adding := adding i;
                        id_set_by_manager := id_set_by_manager i |} t with
    | (Ok _, t') => (Ok tt, t')
    | (Err e, t') => (Err e, t')
    end
  else (Ok tt, filter (fun e => negb (has_pk (id (row i)) e)) t).

(** *** [DepartmentManager] *)

Definition INITIAL_ID : Z := 1000.
Definition MAX_ID : Z := 9999.

(** [self.create(...)] *)
Definition create (d : Department) (t : Table) : result Department * Table :=
  match save true (construct d) t with
  | (Ok i, t') => (Ok (row i), t')
  | (Err e, t') => (Err e, t')
  end.

(** The id the manager computes before it checks the bound. *)
Definition next_id (t : Table) : result Z :=
  match first_by_id_desc (filter_is_deleted false t) with
  | None => Ok INITIAL_ID
  | Some last_dept =>
      match Py.int (id last_dept) with
      | Some n => Ok (n + 1)
      | None => Err (ValueError "invalid literal for int() with base 10")
      end
  end.

(** Of the columns modelled here [extra_fields] can carry [is_deleted];
    without it the column takes its default, [False]. *)
Definition extra_is_deleted (extra_fields : option bool) : bool :=
  match extra_fields with
  | Some v => v
  | None => false
  end.

Definition create_department (name faculty : string) (extra_fields : option bool)
  (t : Table) : result Department * Table :=
  match next_id t with
  | Err e => (Err e, t)
  | Ok next_id =>
      if next_id >? MAX_ID then
        (Err (ValueError "Department ID cannot exceed 9999"), t)
      else
        let dept_id := Py.format_04d next_id in
        create {| id := dept_id; name := name; faculty := faculty;
                  is_deleted := extra_is_deleted extra_fields |} t
  end.

(** *** [DepartmentViewSet] *)

Record User : Type := mkUser {
  is_authenticated : bool;
  is_staff : bool
}.

Definition queryset (t : Table) : Table := order_by_id t.

Definition get_queryset (user : User) (t : Table) : Table :=
  if is_authenticated user && is_staff user then queryset t
  else filter_is_deleted false (queryset t).

Definition perform_destroy (instance : Department) (t : Table) : result unit * Table :=
  delete true (from_db instance) t.

(** *** [DepartmentSerializer] *)

Definition serializer_create (name faculty : string) (t : Table)
  : result Department * Table :=
  match create_department name faculty None t with
  | (Err (ValueError msg), t') => (Err (ValidationError [msg]), t')
  | r => r
  end.

Definition serializer_update (instance : Department) (name faculty : string) (t : Table)
  : result Department * Table :=
  match save false (from_db (set_name_faculty name faculty instance)) t with
  | (Ok i, t') => (Ok (row i), t')
  | (Err e, t') => (Err e, t')
  end.

(** *** The writes the application performs

    Departments are created through the manager (serializer, admin
    add form, import), changed through [save] on an instance loaded
    by its key (serializer update, admin change form, which also
    edits the deletion flag) and destroyed through the default,
    soft, [delete]. *)
Inductive Op : Type :=
| OpCreate (name faculty : string)
| OpUpdate (pk name faculty : string)
| OpAdminChange (pk name faculty : string) (is_deleted : bool)
| OpDestroy (pk : string).

(** The table after the operation and the id it allocated, if any. *)
Definition run_op (o : Op) (t : Table) : option string * Table :=
  match o with
  | OpCreate n f =>
      match create_department n f None t with
      | (Ok d, t') => (Some (id d), t')
      | (Err _, t') => (None, t')
      end
  | OpUpdate pk n f =>
      match get pk t with
      | Some d => (None, snd (serializer_update d n f t))
      | None => (None, t)
      end
  | OpAdminChange pk n f del =>
      match get pk t with
      | Some d =>
          (None, snd (save false (from_db (set_is_deleted del (set_name_faculty n f d))) t))
      | None => (None, t)
      end
  | OpDestroy pk =>
      match get pk t with
      | Some d => (None, snd (perform_destroy d t))
      | None => (None, t)
      end
  end.

(** The ids allocated along a run, oldest first, and the final table. *)
Fixpoint run (ops : list Op) (t : Table) : list string * Table :=
  match ops with
  | [] => ([], t)
  | o :: ops' =>
      let (a, t1) := run_op o t in
      let (ids, t2) := run ops' t1 in
      (match a with Some i => i :: ids | None => ids end, t2)
  end.

Definition reachable (t : Table) : Prop :=
  exists ops, snd (run ops []) = t.

End Academics.

(** ** courses/models.py, courses/serializers.py, courses/views.py *)

Module Courses.

Module Course.
Record t : Type := mk {
  course_code : string;
  course_name : string;
  discipline : string;
  is_deleted : bool
}.
End Course.

Module Syllabus.
(** [id] is [None] until the first save gives the row its number. *)
Record t : Type := mk {
  id : option Z;
  course : string;
  course_name : string;
  syllabus_file : string;
  version : string;
  description : option string;
  is_deleted : bool
}.

Definition with_id (k : Z) (s : t) : t :=
  {| id := Some k; course := course s; course_name := course_name s;
     syllabus_file := syllabus_file s; version := version s;
     description := description s; is_deleted := is_deleted s |}.

Definition with_course_name (n : string) (s : t) : t :=
  {| id := id s; course := course s; course_name := n;
     syllabus_file := syllabus_file s; version := version s;
     description := description s; is_deleted := is_deleted s |}.

Definition has_id (k : Z) (s : t) : bool :=
  match id s with Some j => j =? k | None => false end.
End Syllabus.

(** The two tables and the counter behind the automatic key. *)
Record DB : Type := mkDB {
  courses : list Course.t;
  syllabi : list Syllabus.t;
  next_syllabus_id : Z
}.

Definition get_course (code : string) (db : DB) : option Course.t :=
  find (fun c => (Course.course_code c =? code)%string) (courses db).

Definition get_syllabus (k : Z) (db : DB) : option Syllabus.t :=
  find (Syllabus.has_id k) (syllabi db).

(** [unique_together = ('course', 'version')]: another stored row with
    the pair of [s]. *)
Definition pair_taken (s : Syllabus.t) (rows : list Syllabus.t) : bool :=
  existsb (fun r => (Syllabus.course r =? Syllabus.course s)%string
                    && (Syllabus.version r =? Syllabus.version s)%string
                    && negb (match Syllabus.id s with
                             | Some k => Syllabus.has_id k r
                             | None => false
                             end)) rows.

Definition with_syllabi (rows : list Syllabus.t) (db : DB) : DB :=
  {| courses := courses db; syllabi := rows; next_syllabus_id := next_syllabus_id db |}.

(** [nextval] of the key sequence; it is not undone by a failed INSERT. *)
Definition advance (db : DB) : DB :=
  {| courses := courses db; syllabi := syllabi db;
     next_syllabus_id := next_syllabus_id db + 1 |}.

Definition insert (s : Syllabus.t) (db : DB) : result Syllabus.t * DB :=
  if match Syllabus.id s with
     | Some k => existsb (Syllabus.has_id k) (syllabi db)
     | None => false
     end
  then (Err (IntegrityError "PRIMARY KEY"), db)
  else if pair_taken s (syllabi db) then (Err (IntegrityError "unique_together"), db)
  else (Ok s, with_syllabi (syllabi db ++ [s])%list db).

(** [Model.save] of a syllabus: UPDATE the row with this key, INSERT
    when there is none; a fresh instance takes the next key. *)
Definition save_base (s : Syllabus.t) (db : DB) : result Syllabus.t * DB :=
  match Syllabus.id s with
  | Some k =>
      if existsb (Syllabus.has_id k) (syllabi db) then
        if pair_taken s (syllabi db) then (Err (IntegrityError "unique_together"), db)
        else (Ok s, with_syllabi
                      (map (fun r => if Syllabus.has_id k r then s else r) (syllabi db)) db)
      else insert s db
  | None => insert (Syllabus.with_id (next_syllabus_id db) s) (advance db)
  end.

(** [Syllabus.save]: [self.course] is read from the course table. *)
Definition save (s : Syllabus.t) (db : DB) : result Syllabus.t * DB :=
  match get_course (Syllabus.course s) db with
  | None => (Err DoesNotExist, db)
  | Some c => save_base (Syllabus.with_course_name (Course.course_name c) s) db
  end.

(** [Course.save] on a course loaded by its code and given a new name. *)
Definition rename_course (code new_name : string) (db : DB) : DB :=
  {| courses :=
       map (fun c => if (Course.course_code c =? code)%string
                     then {| Course.course_code := Course.course_code c;
                             Course.course_name := new_name;
                             Course.discipline := Course.discipline c;
                             Course.is_deleted := Course.is_deleted c |}
                     else c) (courses db);
     syllabi := syllabi db;
     next_syllabus_id := next_syllabus_id db |}.

(** The fields [SyllabusSerializer] returns that are columns of the row. *)
Record Representation : Type := mkRepresentation {
  r_id : option Z;
  r_course : string;
  r_course_name : string;
  r_syllabus_file : string;
  r_description : option string;
  r_version : string;
  r_is_deleted : bool
}.

Definition to_representation (s : Syllabus.t) : Representation :=
  {| r_id := Syllabus.id s; r_course := Syllabus.course s;
     r_course_name := Syllabus.course_name s;
     r_syllabus_file := Syllabus.syllabus_file s;
     r_description := Syllabus.description s;
     r_version := Syllabus.version s;
     r_is_deleted := Syllabus.is_deleted s |}.

(** [SyllabusViewSet.get_queryset] *)
Definition get_queryset (user : Academics.User) (db : DB) : list Syllabus.t :=
  if Academics.is_authenticated user && Academics.is_staff user then syllabi db
  else filter (fun s => negb (Syllabus.is_deleted s)) (syllabi db).

(** [retrieve]: the row with this key in the caller's queryset, serialized. *)
Definition retrieve (user : Academics.User) (k : Z) (db : DB) : option Representation :=
  option_map to_representation (find (Syllabus.has_id k) (get_queryset user db)).

End Courses.

(** ** accounts/views.py: [LogoutView] *)

Module Accounts.

(** A computation that returns or raises. *)
Inductive exc (A : Type) : Type :=
| Return (a : A)
| Raise (e : string).

Arguments Return {A} a.
Arguments Raise {A} e.

(** What [request.data.get("refresh")] can hold. *)
Inductive Value : Type :=
| PyNone
| PyStr (s : string)
| PyOther (truthy : bool).

Definition truthy (v : Value) : bool :=
  match v with
  | PyNone => false
  | PyStr s => negb (s =? "")%string
  | PyOther b => b
  end.

(** [request.data]: reading it may raise (a body that does not parse),
    it may be [None], and otherwise [get] is called on it, which a
    body that is not a mapping does not have. *)
Inductive Data : Type :=
| DataRaises (e : string)
| DataNone
| DataNotMapping
| DataMapping (refresh : Value).

Record Request : Type := mkRequest {
  data : Data;
  REMOTE_ADDR : string
}.

(** The token backend: which strings verify, whether the blacklist
    table can be written, and the tokens blacklisted so far. *)
Record World : Type := mkWorld {
  verifies : string -> bool;
  blacklist_writable : bool;
  blacklisted : list string;
  log : list string
}.

Record Response : Type := mkResponse {
  message : string;
  status : Z
}.

Definition logger (line : string) (w : World) : World :=
  {| verifies := verifies w; blacklist_writable := blacklist_writable w;
     blacklisted := blacklisted w; log := (log w ++ [line])%list |}.

(** [RefreshToken(refresh_token)]: [TokenError] unless the token
    verifies and is not blacklisted. *)
Definition RefreshToken (v : Value) (w : World) : exc string :=
  match v with
  | PyStr s =>
      if verifies w s && negb (existsb (String.eqb s) (blacklisted w))
      then Return s else Raise "TokenError"
  | _ => Raise "TokenError"
  end.

(** [token.blacklist()] *)
Definition blacklist (token : string) (w : World) : exc unit * World :=
  if blacklist_writable w then
    (Return tt,
     {| verifies := verifies w; blacklist_writable := blacklist_writable w;
        blacklisted := token :: blacklisted w; log := log w |})
  else (Raise "OperationalError", w).

(** The body of the [try] block of [LogoutView.post]. *)
Definition post_try (request : Request) (w : World) : exc Response * World :=
  match data request with
  | DataRaises e => (Raise e, w)
  | DataNotMapping => (Raise "AttributeError", w)
  | d =>
      let refresh_token :=
        match d with DataMapping v => v | _ => PyNone end in
      if truthy refresh_token then
        match RefreshToken refresh_token w with
        | Raise e => (Raise e, w)
        | Return token =>
            match blacklist token w with
            | (Raise e, w1) => (Raise e, w1)
            | (Return _, w1) =>
                (Return {| message := "Logged out successfully"; status := 200 |},
                 logger "Refresh token blacklisted" w1)
            end
        end
      else
        (Return {| message := "Logged out successfully"; status := 200 |},
         logger "Logout request without refresh token" w)
  end.

(** [LogoutView.post]: [try] the body, [except Exception] answer the same. *)
Definition post (request : Request) (w : World) : Response * World :=
  match post_try request w with
  | (Return response, w1) => (response, w1)
  | (Raise e, w1) =>
      ({| message := "Logged out successfully"; status := 200 |},
       logger "Logout error" w1)
  end.

End Accounts.

Import Academics.

(** ** Vocabulary of the statements *)

(** The validators of the id column: [^\d{4}$] and [max_length=4]. *)
Definition four_digits (s : string) : bool := id_regex s && (Py.len s <=? 4).

(** A four-digit id whose number lies between 1000 and 9999. *)
Definition id_in_range (s : string) : bool :=
  four_digits s
  && match Py.int s with
     | Some n => (INITIAL_ID <=? n) && (n <=? MAX_ID)
     | None => false
     end.

Definition ids_valid (t : Table) : Prop :=
  Forall (fun d => four_digits (id d) = true) t.

(** The numbers of the ids of the active rows, and their maximum. *)
Definition active_numbers (t : Table) : list Z :=
  flat_map (fun d => match Py.int (id d) with Some n => [n] | None => [] end)
           (filter_is_deleted false t).

Fixpoint max_list (l : list Z) : option Z :=
  match l with
  | [] => None
  | n :: l' =>
      match max_list l' with
      | None => Some n
      | Some m => Some (Z.max n m)
      end
  end.

Definition max_active_id (t : Table) : option Z := max_list (active_numbers t).

(** The row a numeric [max] over the ids selects, read the way
    [first_by_id_desc] reads the table. *)
Definition number (d : Department) : Z :=
  match Py.int (id d) with Some n => n | None => 0 end.

Fixpoint numeric_max (t : Table) : option Department :=
  match t with
  | [] => None
  | d :: t' =>
      match numeric_max t' with
      | None => Some d
      | Some m => if number d <? number m then Some m else Some d
      end
  end.

(** What an UPDATE of the row with the key of [d] leaves in the table. *)
Definition replace_row (d : Department) (t : Table) : Table :=
  map (fun e => if has_pk (id d) e then d else e) t.

(** The rows [full_clean] accepts. *)
Definition row_valid (d : Department) : bool :=
  four_digits (id d) && clean_name (name d) && clean_faculty (faculty d).

Definition four (a b c d : Z) : string :=
  String (Py.digit_char a) (String (Py.digit_char b)
    (String (Py.digit_char c) (String (Py.digit_char d) ""))).

Definition num4 (a b c d : Z) : Z := 1000 * a + 100 * b + 10 * c + d.

Definition digit (a : Z) : Prop := 0 <= a <= 9.

Definition digits10 : list Z := [0; 1; 2; 3; 4; 5; 6; 7; 8; 9].

(** The id the [k]-th successful creation receives on an empty table. *)
Definition nth_id (k : nat) : string := Py.format_04d (INITIAL_ID + Z.of_nat k).

Definition creations (requests : list (string * string)) : list Op :=
  map (fun r => OpCreate (fst r) (snd r)) requests.

Definition string_lt (a b : string) : Prop := (a ?= b)%string = Lt.

Definition cs : Department :=
  {| id := "1000"; name := "Computer Science"; faculty := "I&C"; is_deleted := false |}.

Definition staff : User := {| is_authenticated := true; is_staff := true |}.
Definition anonymous : User := {| is_authenticated := false; is_staff := false |}.

(** The rows the application stores: an id in range and valid fields. *)
Definition stored_ok (d : Department) : bool :=
  id_in_range (id d) && clean_name (name d) && clean_faculty (faculty d).

Definition table_ok (t : Table) : Prop := Forall (fun d => stored_ok d = true) t.

Definition six_requests : list Op :=
  [OpCreate "Computer Science" "I&C"; OpCreate "Physics" "SC";
   OpCreate "Chemistry" "SC"; OpCreate "Botany" "LS";
   OpCreate "Music" "LAMS"; OpCreate "Finance" "MS"].

(** Department 1000 soft-deleted, departments 1001 to 1005 active. *)
Definition gap_table : Table := snd (run (six_requests ++ [OpDestroy "1000"])%list []).

Definition direct : Department :=
  {| id := "0001"; name := "Physics"; faculty := "SC"; is_deleted := false |}.

(** A course table with one course, and a first syllabus for it. *)
Definition intro_course : Courses.Course.t :=
  {| Courses.Course.course_code := "CSE-101-V1";
     Courses.Course.course_name := "Introduction to Programming";
     Courses.Course.discipline := "1000";
     Courses.Course.is_deleted := false |}.

Definition one_course : Courses.DB :=
  {| Courses.courses := [intro_course]; Courses.syllabi := [];
     Courses.next_syllabus_id := 1 |}.

Definition first_syllabus : Courses.Syllabus.t :=
  {| Courses.Syllabus.id := None;
     Courses.Syllabus.course := "CSE-101-V1";
     Courses.Syllabus.course_name := "";
     Courses.Syllabus.syllabus_file := "syllabi/2025/01/01/cse101.pdf";
     Courses.Syllabus.version := "1.0";
     Courses.Syllabus.description := None;
     Courses.Syllabus.is_deleted := false |}.

Definition stored_syllabus : Courses.Syllabus.t :=
  Courses.Syllabus.with_course_name "Introduction to Programming"
    (Courses.Syllabus.with_id 1 first_syllabus).

Definition one_syllabus : Courses.DB :=
  {| Courses.courses := [intro_course]; Courses.syllabi := [stored_syllabus];
     Courses.next_syllabus_id := 2 |}.

Definition renamed : Courses.DB :=
  Courses.rename_course "CSE-101-V1" "Programming I" one_syllabus.

Definition logged_out : Accounts.Response :=
  {| Accounts.message := "Logged out successfully"; Accounts.status := 200 |}.

(** ** More Python builtins: [str.lower], [str.rfind], [os.path.splitext] *)

Module PyStr.

(** [str.lower] on the code points below 256. *)
Definition lower_char (c : ascii) : ascii :=
  let n := Py.code c in
  if ((65 <=? n) && (n <=? 90))
     || ((192 <=? n) && (n <=? 222) && negb (n =? 215))
  then ascii_of_N (Z.to_N (n + 32)) else c.

Fixpoint lower (s : string) : string :=
  match s with
  | EmptyString => EmptyString
  | String c s' => String (lower_char c) (lower s')
  end.

(** [s.rfind(c)]: the highest index of [c], [None] for -1. *)
Fixpoint rfind (c : ascii) (s : string) : option nat :=
  match s with
  | EmptyString => None
  | String a s' =>
      match rfind c s' with
      | Some i => Some (S i)
      | None => if Ascii.eqb a c then Some O else None
      end
  end.

(** [s[:n]] and [s[n:]] *)
Fixpoint take (n : nat) (s : string) : string :=
  match n, s with
  | S n', String a s' => String a (take n' s')
  | _, _ => EmptyString
  end.

Fixpoint drop (n : nat) (s : string) : string :=
  match n, s with
  | S n', String _ s' => drop n' s'
  | _, _ => s
  end.

(** Whether the first [k] characters of [s] are all dots: the loop of
    [splitext] that skips the leading dots of the file name. *)
Fixpoint only_dots (k : nat) (s : string) : bool :=
  match k, s with
  | S k', String a s' => Ascii.eqb a "." && only_dots k' s'
  | _, _ => true
  end.

(** [os.path.splitext] with separator "/" and extension separator ".". *)
Definition splitext (p : string) : string * string :=
  let filenameIndex := match rfind "/" p with Some i => S i | None => O end in
  match rfind "." p with
  | Some dotIndex =>
      if (filenameIndex <=? dotIndex)%nat
         && negb (only_dots (dotIndex - filenameIndex) (drop filenameIndex p))
      then (take dotIndex p, drop dotIndex p)
      else (p, EmptyString)
  | None => (p, EmptyString)
  end.

(** The longest prefix of characters satisfying [p], and what follows it:
    a greedy [[...]+] or [[...]*] of a pattern. *)
Fixpoint span (p : ascii -> bool) (s : string) : string * string :=
  match s with
  | EmptyString => (EmptyString, EmptyString)
  | String c s' =>
      if p c then let (a, r) := span p s' in (String c a, r)
      else (EmptyString, s)
  end.

(** [$]: the end of the string, or a newline that ends it. *)
Definition at_end (s : string) : bool :=
  (s =? "")%string || (s =? String "010" "")%string.

End PyStr.

(** ** courses/validators.py, and the validation of courses/models.py and
    courses/serializers.py *)

Module CourseValidation.

Record File : Type := mkFile {
  file_name : string;
  size : Z
}.

(** [str(n)] of an integer. *)
Definition str_int (n : Z) : string :=
  if n <? 0 then String "-" (Py.str (- n)) else Py.str n.

(** [validate_pdf] *)
Definition validate_pdf (value : File) (max_size_mb : Z) : result unit :=
  let ext := PyStr.lower (snd (PyStr.splitext (file_name value))) in
  if negb (ext =? ".pdf")%string then
    Err (ValidationError ["Only PDF files are allowed."])
  else
    let max_size_bytes := max_size_mb * 1024 * 1024 in
    if size value >? max_size_bytes then
      Err (ValidationError ["File size must be under " ++ str_int max_size_mb ++ "MB."])
    else Ok tt.

(** [re.match(r'^\d+\.\d+$', value)] *)
Definition version_regex (value : string) : bool :=
  let (major, rest) := PyStr.span Py.is_digit value in
  match major, rest with
  | String _ _, String c rest' =>
      Ascii.eqb c "."
      && (let (minor, tail) := PyStr.span Py.is_digit rest' in
          match minor with
          | String _ _ => PyStr.at_end tail
          | EmptyString => false
          end)
  | _, _ => false
  end.

(** [Syllabus.clean] *)
Definition Syllabus_clean (s : Courses.Syllabus.t) : result unit :=
  if negb (version_regex (Courses.Syllabus.version s)) then
    Err (ValidationError ["Version must be in format 'X.Y' (e.g., 1.0)."])
  else Ok tt.

(** [SyllabusSerializer.validate_version] *)
Definition validate_version (value : string) : result string :=
  if negb (version_regex value) then
    Err (ValidationError ["Version must be in format 'X.Y' (e.g., 1.0)."])
  else Ok value.

(** [SyllabusSerializer.validate_syllabus_file] *)
Definition validate_syllabus_file (value : File) : result File :=
  match validate_pdf value 5 with
  | Ok _ => Ok value
  | Err e => Err e
  end.

Definition version_char (c : ascii) : bool :=
  Py.is_digit c || Ascii.eqb c "V" || Ascii.eqb c "v".

(** [re.match(r'^[A-Za-z]+-\d+-[Vv\d]+$', course_code)] *)
Definition course_code_regex (course_code : string) : bool :=
  let (letters, r1) := PyStr.span Py.is_alpha course_code in
  match letters, r1 with
  | String _ _, String c1 r1' =>
      Ascii.eqb c1 "-"
      && (let (number, r2) := PyStr.span Py.is_digit r1' in
          match number, r2 with
          | String _ _, String c2 r2' =>
              Ascii.eqb c2 "-"
              && (let (version, tail) := PyStr.span version_char r2' in
                  match version with
                  | String _ _ => PyStr.at_end tail
                  | EmptyString => false
                  end)
          | _, _ => false
          end)
  | _, _ => false
  end.

(** [CourseSerializer.validate]: the code is checked only when the data
    carry one. *)
Definition CourseSerializer_validate (course_code : option string) : result (option string) :=
  match course_code with
  | Some code =>
      if negb (course_code_regex code) then
        Err (ValidationError ["Course code must be in the format CSE-101-V1."])
      else Ok course_code
  | None => Ok course_code
  end.

End CourseValidation.

(** ** courses/views.py: permissions and soft deletion *)

Module CourseViews.

Inductive Action : Type :=
| list_action
| retrieve_action
| create_action
| update_action
| partial_update_action
| destroy_action
| other_action.

Inductive Permission : Type :=
| AllowAny
| IsAuthenticated
| IsAdminUser.

Definition has_permission (p : Permission) (user : Academics.User) : bool :=
  match p with
  | AllowAny => true
  | IsAuthenticated => Academics.is_authenticated user
  | IsAdminUser => Academics.is_staff user
  end.

(** [CourseViewSet.get_permissions] and [SyllabusViewSet.get_permissions] *)
Definition get_permissions (action : Action) : list Permission :=
  match action with
  | list_action | retrieve_action => [AllowAny]
  | create_action | update_action | partial_update_action => [IsAuthenticated]
  | destroy_action => [IsAdminUser]
  | other_action => [IsAuthenticated]
  end.

(** [DepartmentViewSet.get_permissions] *)
Definition department_get_permissions (action : Action) : list Permission :=
  match action with
  | list_action | retrieve_action => [AllowAny]
  | _ => [IsAuthenticated]
  end.

Definition with_is_deleted (v : bool) (s : Courses.Syllabus.t) : Courses.Syllabus.t :=
  {| Courses.Syllabus.id := Courses.Syllabus.id s;
     Courses.Syllabus.course := Courses.Syllabus.course s;
     Courses.Syllabus.course_name := Courses.Syllabus.course_name s;
     Courses.Syllabus.syllabus_file := Courses.Syllabus.syllabus_file s;
     Courses.Syllabus.version := Courses.Syllabus.version s;
     Courses.Syllabus.description := Courses.Syllabus.description s;
     Courses.Syllabus.is_deleted := v |}.

(** [SyllabusViewSet.perform_destroy] *)
Definition perform_destroy (instance : Courses.Syllabus.t) (db : Courses.DB)
  : result Courses.Syllabus.t * Courses.DB :=
  Courses.save (with_is_deleted true instance) db.

End CourseViews.

(** ** accounts/authentication.py *)

Module Authentication.

(** The exceptions the method meets.  [InvalidToken] is a subclass of
    [AuthenticationFailed]; all of them are subclasses of [Exception]. *)
Inductive Exception : Type :=
| InvalidToken
| DoesNotExist
| AuthenticationFailed (code : string)
| OtherException (name : string).

Inductive outcome (A : Type) : Type :=
| Returns (a : A)
| Raises (e : Exception).

Arguments Returns {A} a.
Arguments Raises {A} e.

Record AuthUser : Type := mkAuthUser {
  email : string;
  is_active : bool
}.

(** What [get_header] and [get_raw_token] of the base class make of the
    Authorization header: no header, a header that is not two
    space-separated values (the base class raises), or a header whose
    token is [None] when its type is not the expected one. *)
Inductive Header : Type :=
| NoHeader
| MalformedHeader
| HeaderToken (raw : option string).

Record Request : Type := mkRequest {
  cookie : option string;
  header : Header
}.

(** The methods inherited from [JWTAuthentication]. *)
Record Backend : Type := mkBackend {
  get_validated_token : string -> outcome string;
  get_user : string -> outcome AuthUser
}.

Definition falsy (raw_token : option string) : bool :=
  match raw_token with
  | None => true
  | Some s => (s =? "")%string
  end.

(** The body of the [try] block. *)
Definition authenticate_try (b : Backend) (raw_token : string)
  : outcome (option (AuthUser * string)) :=
  match get_validated_token b raw_token with
  | Raises e => Raises e
  | Returns validated_token =>
      match get_user b validated_token with
      | Raises e => Raises e
      | Returns user =>
          if negb (is_active user) then Raises (AuthenticationFailed "user_inactive")
          else Returns (Some (user, validated_token))
      end
  end.

(** [CookieJWTAuthentication.authenticate]; [ALLOW_HEADER_AUTH] is the
    setting read with [getattr], false when it is not set. *)
Definition authenticate (ALLOW_HEADER_AUTH : bool) (b : Backend) (request : Request)
  : outcome (option (AuthUser * string)) :=
  let from_header :=
    if falsy (cookie request) && ALLOW_HEADER_AUTH then
      match header request with
      | NoHeader => Returns (cookie request)
      | MalformedHeader => Raises (AuthenticationFailed "bad_authorization_header")
      | HeaderToken raw => Returns raw
      end
    else Returns (cookie request) in
  match from_header with
  | Raises e => Raises e
  | Returns raw_token =>
      match raw_token with
      | None => Returns None
      | Some token =>
          if (token =? "")%string then Returns None
          else
            match authenticate_try b token with
            | Returns r => Returns r
            | Raises InvalidToken => Raises (AuthenticationFailed "invalid_token")
            | Raises DoesNotExist => Raises (AuthenticationFailed "user_not_found")
            | Raises _ => Raises (AuthenticationFailed "authentication_failed")
            end
      end
  end.

End Authentication.

(** ** accounts/views.py: [TokenRefreshView] *)

Module TokenViews.

Import Accounts.

Record Reply : Type := mkReply {
  key : string;
  text : string;
  status_code : Z;
  cookies_set : list string
}.

(** [SIMPLE_JWT['ROTATE_REFRESH_TOKENS']] of settings.py. *)
Definition ROTATE_REFRESH_TOKENS : bool := true.

(** What [except TokenError] makes of an exception of the [try] block. *)
Definition except_TokenError (e : string) (w : World) : exc Reply * World :=
  if (e =? "TokenError")%string then
    (Return {| key := "error"; text := "Invalid or expired refresh token";
               status_code := 401; cookies_set := [] |}, w)
  else (Raise e, w).

(** The response once the cookies are set: the log line reads
    [request.user.email], which an anonymous user does not have. *)
Definition respond (user : option string) (cookies : list string) (w : World)
  : exc Reply * World :=
  match user with
  | None => except_TokenError "AttributeError" w
  | Some _ =>
      (Return {| key := "message"; text := "Token refreshed successfully";
                 status_code := 200; cookies_set := cookies |},
       logger "Token refreshed" w)
  end.

(** [TokenRefreshView.post]: [refresh_token] is the cookie, [user] the
    email of [request.user], [None] for an anonymous one, and
    [for_user] what [RefreshToken.for_user(request.user)] does. *)
Definition post (refresh_token : option string) (user : option string)
  (for_user : exc string) (w : World) : exc Reply * World :=
  match refresh_token with
  | None =>
      (Return {| key := "error"; text := "Refresh token is required";
                 status_code := 400; cookies_set := [] |}, w)
  | Some cookie =>
      if (cookie =? "")%string then
        (Return {| key := "error"; text := "Refresh token is required";
                   status_code := 400; cookies_set := [] |}, w)
      else
        match RefreshToken (PyStr cookie) w with
        | Raise e => except_TokenError e w
        | Return token =>
            if ROTATE_REFRESH_TOKENS then
              match blacklist token w with
              | (Raise e, w1) => except_TokenError e w1
              | (Return _, w1) =>
                  match for_user with
                  | Raise e => except_TokenError e w1
                  | Return _ => respond user ["access_token"; "refresh_token"] w1
                  end
              end
            else respond user ["access_token"] w
        end
  end.

End TokenViews.

(** ** academics/admin.py: [DepartmentResource] *)

Module Admin.

(** A cell of an import row, as [row.get] returns it: [None], also for
    a column the row does not have, a string, or a value of another
    type with its truth value and its [str]. *)
Inductive Cell : Type :=
| CellNone
| CellStr (s : string)
| CellOther (truthy : bool) (text : string).

Definition cell_truthy (c : Cell) : bool :=
  match c with
  | CellNone => false
  | CellStr s => negb (s =? "")%string
  | CellOther b _ => b
  end.

Definition cell_str (c : Cell) : string :=
  match c with
  | CellNone => "None"
  | CellStr s => s
  | CellOther _ text => text
  end.

(** [str.isdigit] on the code points below 256: the decimal digits and
    the superscripts two, three and one. *)
Definition isdigit_char (c : ascii) : bool :=
  Py.is_digit c || (Py.code c =? 178) || (Py.code c =? 179) || (Py.code c =? 185).

Definition isdigit (s : string) : bool :=
  negb (s =? "")%string && Py.all_chars isdigit_char s.

(** [[f.value for f in Faculty]] *)
Definition Faculty_values : list string := map Faculty_value Faculty_members.

Fixpoint join (sep : string) (l : list string) : string :=
  match l with
  | [] => EmptyString
  | [x] => x
  | x :: l' => x ++ sep ++ join sep l'
  end.

(** The text of a list of plain strings in an f-string. *)
Definition repr_list (l : list string) : string :=
  "[" ++ join ", " (map (fun v => "'" ++ v ++ "'") l) ++ "]".

(** [DepartmentResource.before_import_row] *)
Definition before_import_row (faculty_value dept_id : Cell) : result unit :=
  if negb (match faculty_value with
           | CellStr f => existsb (String.eqb f) Faculty_values
           | _ => false
           end)
  then Err (ValueError ("Invalid faculty value '" ++ cell_str faculty_value
                        ++ "'. Must be one of: " ++ repr_list Faculty_values))
  else if cell_truthy dept_id
          && match dept_id with
             | CellStr s => negb (isdigit s) || negb (Py.len s =? 4)
             | _ => true
             end
  then Err (ValueError ("ID '" ++ cell_str dept_id
                        ++ "' must be a four-digit string (e.g., '1000')"))
  else Ok tt.


End Admin.

(** ** Vocabulary of the further statements *)

(** No two active rows hold the same (name, faculty) pair. *)
Definition active_pairs_unique (t : Table) : Prop :=
  forall d e, In d t -> In e t ->
    is_deleted d = false -> is_deleted e = false ->
    name d = name e -> faculty d = faculty e -> id d = id e.

Definition by_number (a b : Department) : Prop := number a <= number b.

Definition physics : Department :=
  {| id := "1001"; name := "Physics"; faculty := "SC"; is_deleted := false |}.

(** Every stored syllabus has a key, keys are distinct, and two stored
    syllabi of the same course and version are the same row. *)
Definition syllabi_consistent (rows : list Courses.Syllabus.t) : Prop :=
  Forall (fun r => Courses.Syllabus.id r <> None) rows
  /\ NoDup (map Courses.Syllabus.id rows)
  /\ forall r1 r2, In r1 rows -> In r2 rows ->
       Courses.Syllabus.course r1 = Courses.Syllabus.course r2 ->
       Courses.Syllabus.version r1 = Courses.Syllabus.version r2 -> r1 = r2.

(** The instances saved one after the other. *)
Definition save_all (instances : list Courses.Syllabus.t) (db : Courses.DB) : Courses.DB :=
  fold_left (fun db s => snd (Courses.save s db)) instances db.

Definition digits_only (s : string) : Prop :=
  s <> "" /\ Py.all_chars Py.is_digit s = true.

Definition second_syllabus : Courses.Syllabus.t :=
  {| Courses.Syllabus.id := None;
     Courses.Syllabus.course := "CSE-101-V1";
     Courses.Syllabus.course_name := "";
     Courses.Syllabus.syllabus_file := "syllabi/2025/06/01/cse101.pdf";
     Courses.Syllabus.version := "draft";
     Courses.Syllabus.description := None;
     Courses.Syllabus.is_deleted := false |}.

Definition made_of (p : ascii -> bool) (s : string) : Prop :=
  s <> "" /\ Py.all_chars p s = true.

Definition no_hyphen (c : ascii) : bool := negb (Ascii.eqb c "-").

Definition refused : TokenViews.Reply :=
  {| TokenViews.key := "error"; TokenViews.text := "Invalid or expired refresh token";
     TokenViews.status_code := 401; TokenViews.cookies_set := [] |}.

Definition fresh_world : Accounts.World :=
  {| Accounts.verifies := fun _ => true; Accounts.blacklist_writable := true;
     Accounts.blacklisted := []; Accounts.log := [] |}.

(** The view's [check_permissions]: every permission of the action's
    list must grant the request. *)
Definition check_permissions (perms : list CourseViews.Permission) (user : User) : bool :=
  forallb (fun p => CourseViews.has_permission p user) perms.

(** A logged-in user who is not staff. *)
Definition member : User := {| is_authenticated := true; is_staff := false |}.

(** The digits 1 and 2, the superscript two and the digit 4. *)
Definition superscript_id : string :=
  String "1" (String "2" (String "178" (String "4" EmptyString))).



(** * Properties *)

(** ** Runs of the models on small inputs *)

Example format_04d_1000 : Py.format_04d 1000 = "1000".
Proof. reflexivity. Qed.
Example format_04d_7 : Py.format_04d 7 = "0007".
Proof. reflexivity. Qed.
Example format_04d_10000 : Py.format_04d 10000 = "10000".
Proof. reflexivity. Qed.
Example format_04d_neg : Py.format_04d (-5) = "-005".
Proof. reflexivity. Qed.
Example int_0042 : Py.int "0042" = Some 42.
Proof. reflexivity. Qed.
Example int_abcd : Py.int "abcd" = None.
Proof. reflexivity. Qed.

Example ex_create_first :
  create_department "Computer Science" "I&C" None [] = (Ok cs, [cs]).
Proof. vm_compute. reflexivity. Qed.

Example ex_create_dup :
  fst (create_department "Computer Science" "I&C" None [cs])
  = Err (ValidationError ["unique_active_name_faculty"]).
Proof. vm_compute. reflexivity. Qed.

Example ex_scenario :
  run [OpCreate "Computer Science" "I&C"; OpCreate "Computer Science" "I&C";
       OpDestroy "1000"; OpCreate "Physics" "SC"] []
  = (["1000"], [set_is_deleted true cs]).
Proof. vm_compute. reflexivity. Qed.

(** ** Four-digit ids: parsing, formatting and order *)

Lemma digit_In (a : Z) : digit a -> In a digits10.
Proof.
  unfold digit, digits10. intros H.
  assert (a = 0 \/ a = 1 \/ a = 2 \/ a = 3 \/ a = 4 \/ a = 5 \/ a = 6
          \/ a = 7 \/ a = 8 \/ a = 9) as D by lia.
  simpl. intuition.
Qed.

Lemma forallb_digit (p : Z -> bool) (a : Z) :
  forallb p digits10 = true -> digit a -> p a = true.
Proof.
  intros H Ha. rewrite forallb_forall in H. apply H, digit_In, Ha.
Qed.

Lemma is_digit_char (c : ascii) :
  Py.is_digit c = true -> exists a, digit a /\ c = Py.digit_char a.
Proof.
  intros H. exists (Py.code c - 48). unfold Py.is_digit in H.
  apply andb_true_iff in H. destruct H as [H1 H2].
  apply Z.leb_le in H1. apply Z.leb_le in H2.
  split; [unfold digit; lia|].
  unfold Py.digit_char, Py.code.
  replace (48 + (Z.of_N (N_of_ascii c) - 48)) with (Z.of_N (N_of_ascii c)) by lia.
  rewrite N2Z.id, ascii_N_embedding. reflexivity.
Qed.

Lemma digit_char_code (a : Z) : digit a -> Py.code (Py.digit_char a) = 48 + a.
Proof.
  intros H. apply Z.eqb_eq.
  apply (forallb_digit (fun a => Py.code (Py.digit_char a) =? 48 + a));
    [reflexivity | exact H].
Qed.

Lemma digit_char_is_digit (a : Z) : digit a -> Py.is_digit (Py.digit_char a) = true.
Proof.
  intros H. unfold Py.is_digit. rewrite (digit_char_code a H).
  unfold digit in H. apply andb_true_iff. split; apply Z.leb_le; lia.
Qed.

Lemma compare_digit_char (a b : Z) :
  digit a -> digit b ->
  Ascii.compare (Py.digit_char a) (Py.digit_char b) = (a ?= b).
Proof.
  intros Ha Hb. unfold Ascii.compare.
  pose proof (digit_char_code a Ha) as Ca. pose proof (digit_char_code b Hb) as Cb.
  unfold Py.code in Ca, Cb.
  rewrite <- N2Z.inj_compare, Ca, Cb.
  apply Z.add_compare_mono_l.
Qed.

Lemma four_digits_four (s : string) :
  four_digits s = true ->
  exists a b c d, digit a /\ digit b /\ digit c /\ digit d /\ s = four a b c d.
Proof.
  unfold four_digits, id_regex. intros H.
  destruct s as [|c1 [|c2 [|c3 [|c4 rest]]]]; try discriminate H.
  apply andb_true_iff in H. destruct H as [H L].
  apply andb_true_iff in H. destruct H as [H _].
  apply andb_true_iff in H. destruct H as [H D4].
  apply andb_true_iff in H. destruct H as [H D3].
  apply andb_true_iff in H. destruct H as [D1 D2].
  destruct rest as [|c5 rest].
  - destruct (is_digit_char c1 D1) as [a [Ha ->]].
    destruct (is_digit_char c2 D2) as [b [Hb ->]].
    destruct (is_digit_char c3 D3) as [c [Hc ->]].
    destruct (is_digit_char c4 D4) as [d [Hd ->]].
    exists a, b, c, d. repeat split; try assumption;
      apply Ha || apply Hb || apply Hc || apply Hd.
  - exfalso. unfold Py.len in L. simpl String.length in L.
    apply Z.leb_le in L. lia.
Qed.

Lemma four_is_four_digits (a b c d : Z) :
  digit a -> digit b -> digit c -> digit d -> four_digits (four a b c d) = true.
Proof.
  intros Ha Hb Hc Hd. unfold four_digits, four, id_regex.
  rewrite !digit_char_is_digit by assumption. reflexivity.
Qed.

Lemma int_four (a b c d : Z) :
  digit a -> digit b -> digit c -> digit d ->
  Py.int (four a b c d) = Some (num4 a b c d).
Proof.
  intros Ha Hb Hc Hd. unfold four, Py.int, Py.parse_digits.
  rewrite !digit_char_is_digit by assumption.
  rewrite !digit_char_code by assumption.
  f_equal. unfold num4. lia.
Qed.

Lemma format_four_all :
  forallb (fun a => forallb (fun b => forallb (fun c => forallb (fun d =>
    (Py.format_04d (num4 a b c d) =? four a b c d)%string)
    digits10) digits10) digits10) digits10 = true.
Proof. vm_compute. reflexivity. Qed.

Lemma format_four (a b c d : Z) :
  digit a -> digit b -> digit c -> digit d ->
  Py.format_04d (num4 a b c d) = four a b c d.
Proof.
  intros Ha Hb Hc Hd. apply String.eqb_eq.
  pose proof format_four_all as H.
  apply (forallb_digit _ a) in H; [|assumption].
  apply (forallb_digit _ b) in H; [|assumption].
  apply (forallb_digit _ c) in H; [|assumption].
  apply (forallb_digit _ d) in H; [|assumption].
  exact H.
Qed.

Lemma num4_bounds (a b c d : Z) :
  digit a -> digit b -> digit c -> digit d -> 0 <= num4 a b c d <= 9999.
Proof. unfold digit, num4. lia. Qed.

Lemma num4_decompose (n : Z) :
  0 <= n <= 9999 ->
  exists a b c d, digit a /\ digit b /\ digit c /\ digit d /\ n = num4 a b c d.
Proof.
  intros H.
  exists (n / 1000), (n / 100 mod 10), (n / 10 mod 10), (n mod 10).
  unfold digit, num4.
  pose proof (Z.div_mod n 10 ltac:(lia)).
  pose proof (Z.mod_pos_bound n 10 ltac:(lia)).
  pose proof (Z.div_mod (n / 10) 10 ltac:(lia)).
  pose proof (Z.mod_pos_bound (n / 10) 10 ltac:(lia)).
  pose proof (Z.div_mod (n / 100) 10 ltac:(lia)).
  pose proof (Z.mod_pos_bound (n / 100) 10 ltac:(lia)).
  assert (n / 100 = n / 10 / 10) by (rewrite Z.div_div by lia; reflexivity).
  assert (n / 1000 = n / 100 / 10) by (rewrite Z.div_div by lia; reflexivity).
  assert (0 <= n / 1000) by (apply Z.div_pos; lia).
  assert (n / 1000 < 10) by (apply Z.div_lt_upper_bound; lia).
  lia.
Qed.

Lemma compare_four (a b c d a' b' c' d' : Z) :
  digit a -> digit b -> digit c -> digit d ->
  digit a' -> digit b' -> digit c' -> digit d' ->
  (four a b c d ?= four a' b' c' d')%string = (num4 a b c d ?= num4 a' b' c' d').
Proof.
  intros Ha Hb Hc Hd Ha' Hb' Hc' Hd'. unfold four. simpl String.compare.
  rewrite !compare_digit_char by assumption.
  unfold digit, num4 in *. symmetry.
  destruct (Z.compare_spec a a') as [E|L|G];
    [ subst a' | apply Z.compare_lt_iff; lia | apply Z.compare_gt_iff; lia ].
  destruct (Z.compare_spec b b') as [E|L|G];
    [ subst b' | apply Z.compare_lt_iff; lia | apply Z.compare_gt_iff; lia ].
  destruct (Z.compare_spec c c') as [E|L|G];
    [ subst c' | apply Z.compare_lt_iff; lia | apply Z.compare_gt_iff; lia ].
  destruct (Z.compare_spec d d') as [E|L|G];
    [ subst d' | apply Z.compare_lt_iff; lia | apply Z.compare_gt_iff; lia ].
  apply Z.compare_refl.
Qed.

(** A four-digit id parses to a number below 10000 whose padded form is
    the id again. *)
Lemma four_digits_number (s : string) :
  four_digits s = true ->
  exists n, 0 <= n <= 9999 /\ Py.int s = Some n /\ Py.format_04d n = s.
Proof.
  intros H. destruct (four_digits_four s H) as (a & b & c & d & Ha & Hb & Hc & Hd & ->).
  exists (num4 a b c d). split; [apply num4_bounds; assumption|].
  split; [apply int_four | apply format_four]; assumption.
Qed.

Lemma format_04d_four_digits (n : Z) :
  0 <= n <= 9999 ->
  four_digits (Py.format_04d n) = true /\ Py.int (Py.format_04d n) = Some n.
Proof.
  intros H. destruct (num4_decompose n H) as (a & b & c & d & Ha & Hb & Hc & Hd & ->).
  rewrite format_four by assumption.
  split; [apply four_is_four_digits | apply int_four]; assumption.
Qed.

(** On four-digit ids the order of the column is the order of the numbers. *)
Lemma compare_four_digits (s s' : string) (n n' : Z) :
  four_digits s = true -> four_digits s' = true ->
  Py.int s = Some n -> Py.int s' = Some n' ->
  (s ?= s')%string = (n ?= n').
Proof.
  intros H H' E E'.
  destruct (four_digits_four s H) as (a & b & c & d & Ha & Hb & Hc & Hd & ->).
  destruct (four_digits_four s' H') as (a' & b' & c' & d' & Ha' & Hb' & Hc' & Hd' & ->).
  rewrite int_four in E, E' by assumption.
  injection E as <-. injection E' as <-.
  apply compare_four; assumption.
Qed.

(** ** The row the manager reads *)

Lemma number_four_digits (d : Department) :
  four_digits (id d) = true ->
  Py.int (id d) = Some (number d) /\ 0 <= number d <= 9999
  /\ Py.format_04d (number d) = id d.
Proof.
  intros H. destruct (four_digits_number _ H) as (n & Hn & E & F).
  unfold number. rewrite E. auto.
Qed.

Lemma ltb_four_digits (d e : Department) :
  four_digits (id d) = true -> four_digits (id e) = true ->
  (id d <? id e)%string = (number d <? number e).
Proof.
  intros Hd He.
  destruct (number_four_digits d Hd) as (Ed & _ & _).
  destruct (number_four_digits e He) as (Ee & _ & _).
  unfold String.ltb, Z.ltb.
  rewrite (compare_four_digits _ _ _ _ Hd He Ed Ee). reflexivity.
Qed.

Lemma numeric_max_In (t : Table) (m : Department) :
  numeric_max t = Some m -> In m t.
Proof.
  revert m. induction t as [|d t IH]; simpl; intros m H; [discriminate|].
  destruct (numeric_max t) as [m'|].
  - destruct (number d <? number m'); injection H as <-; auto.
  - injection H as <-. auto.
Qed.

Lemma numeric_max_upper (t : Table) (m : Department) :
  numeric_max t = Some m -> forall e, In e t -> number e <= number m.
Proof.
  revert m. induction t as [|d t IH]; simpl; intros m H e He; [contradiction|].
  destruct (numeric_max t) as [m'|] eqn:E.
  - specialize (IH m' eq_refl).
    destruct (Z.ltb_spec (number d) (number m')); injection H as <-;
      destruct He as [<- | He]; try lia; try (specialize (IH e He); lia).
  - destruct t; [|simpl in E; destruct (numeric_max t); try destruct (_ <? _); discriminate].
    injection H as <-. destruct He as [<- | []]. lia.
Qed.

Lemma numeric_max_None (t : Table) : numeric_max t = None -> t = [].
Proof.
  destruct t as [|d t]; [reflexivity|]. simpl.
  destruct (numeric_max t); [destruct (_ <? _)|]; discriminate.
Qed.

(** On a table of four-digit ids, ordering by the id column downwards
    selects the row a numeric maximum selects. *)
Lemma first_by_id_desc_numeric (t : Table) :
  ids_valid t -> first_by_id_desc t = numeric_max t.
Proof.
  induction 1 as [|d t Hd Ht IH]; [reflexivity|].
  simpl. rewrite IH. destruct (numeric_max t) as [m|] eqn:E; [|reflexivity].
  assert (four_digits (id m) = true) as Hm.
  { apply numeric_max_In in E. unfold ids_valid in Ht.
    rewrite Forall_forall in Ht. apply (Ht m E). }
  rewrite (ltb_four_digits d m Hd Hm). reflexivity.
Qed.

Lemma ids_valid_filter (v : bool) (t : Table) :
  ids_valid t -> ids_valid (filter_is_deleted v t).
Proof.
  unfold ids_valid, filter_is_deleted. rewrite !Forall_forall.
  intros H d Hd. apply filter_In in Hd. apply H, Hd.
Qed.

Lemma active_numbers_map (t : Table) :
  ids_valid t -> active_numbers t = map number (filter_is_deleted false t).
Proof.
  intros H. apply (ids_valid_filter false) in H. unfold active_numbers.
  induction H as [|d l Hd Hl IH]; [reflexivity|].
  simpl. destruct (number_four_digits d Hd) as (E & _). rewrite E, IH. reflexivity.
Qed.

Lemma max_list_numeric_max (l : Table) :
  max_list (map number l) = option_map number (numeric_max l).
Proof.
  induction l as [|d l IH]; [reflexivity|].
  simpl. rewrite IH. destruct (numeric_max l) as [m|]; simpl; [|reflexivity].
  destruct (Z.ltb_spec (number d) (number m)); simpl; f_equal; lia.
Qed.

(** The id the manager computes is 1000 on a table without active rows
    and one more than the greatest active number otherwise. *)
Lemma next_id_max_active (t : Table) :
  ids_valid t ->
  next_id t = Ok (match max_active_id t with
                  | None => INITIAL_ID
                  | Some m => m + 1
                  end).
Proof.
  intros H. unfold next_id, max_active_id.
  rewrite (active_numbers_map t H), max_list_numeric_max.
  rewrite (first_by_id_desc_numeric _ (ids_valid_filter false t H)).
  destruct (numeric_max (filter_is_deleted false t)) as [m|] eqn:E; [|reflexivity].
  simpl. assert (four_digits (id m) = true) as Hm.
  { apply numeric_max_In in E. pose proof (ids_valid_filter false t H) as V.
    unfold ids_valid in V. rewrite Forall_forall in V. apply (V m E). }
  destruct (number_four_digits m Hm) as (Em & _). rewrite Em. reflexivity.
Qed.

Lemma max_active_id_None (t : Table) :
  ids_valid t -> (max_active_id t = None <-> filter_is_deleted false t = []).
Proof.
  intros H. unfold max_active_id. rewrite (active_numbers_map t H).
  destruct (filter_is_deleted false t) as [|d l]; [tauto|].
  simpl. destruct (max_list (map number l)); split; discriminate.
Qed.

Lemma max_active_id_bounds (t : Table) (m : Z) :
  ids_valid t -> max_active_id t = Some m ->
  0 <= m <= 9999
  /\ (exists d, In d t /\ is_deleted d = false /\ Py.int (id d) = Some m)
  /\ (forall e, In e t -> is_deleted e = false -> number e <= m).
Proof.
  intros H E. unfold max_active_id in E.
  rewrite (active_numbers_map t H), max_list_numeric_max in E.
  destruct (numeric_max (filter_is_deleted false t)) as [d|] eqn:N; [|discriminate].
  simpl in E. injection E as <-.
  pose proof (numeric_max_In _ _ N) as Hin.
  pose proof (numeric_max_upper _ _ N) as Hup.
  unfold filter_is_deleted in Hin. apply filter_In in Hin. destruct Hin as [Hin Hact].
  assert (four_digits (id d) = true) as Hd.
  { unfold ids_valid in H. rewrite Forall_forall in H. apply (H d Hin). }
  destruct (number_four_digits d Hd) as (Ed & Bd & _).
  split; [exact Bd|]. split.
  - exists d. repeat split; try assumption.
    destruct (is_deleted d); [discriminate Hact | reflexivity].
  - intros e He Hact'. apply Hup. unfold filter_is_deleted. apply filter_In.
    split; [assumption|]. rewrite Hact'. reflexivity.
Qed.

(** ** [Department.save] *)

Lemma pre_save_row (i : Instance) : row (department_pre_save i) = row i.
Proof. unfold department_pre_save. destruct (negb (pk_truthy (row i))); reflexivity. Qed.

Lemma clean_fields_nil (d : Department) :
  clean_fields d = [] <->
  clean_id (id d) = true /\ clean_name (name d) = true /\ clean_faculty (faculty d) = true.
Proof.
  unfold clean_fields.
  destruct (clean_id (id d)), (clean_name (name d)), (clean_faculty (faculty d));
    simpl; split; intros H; try discriminate; auto;
    destruct H as (? & ? & ?); discriminate.
Qed.

Lemma four_digits_pk_truthy (d : Department) :
  four_digits (id d) = true -> pk_truthy d = true.
Proof.
  intros H. destruct (four_digits_four _ H) as (a & b & c & e & _ & _ & _ & _ & E).
  unfold pk_truthy. rewrite E. reflexivity.
Qed.

Lemma four_digits_clean_id (s : string) : four_digits s = true -> clean_id s = true.
Proof. intros H. unfold clean_id. fold (four_digits s). rewrite H. apply orb_true_r. Qed.

Lemma clean_four_digits (d : Department) :
  four_digits (id d) = true -> clean d = Ok [].
Proof.
  intros H. unfold clean. rewrite (four_digits_pk_truthy d H).
  destruct (number_four_digits d H) as (E & _ & F).
  rewrite E, F, String.eqb_refl. reflexivity.
Qed.

Lemma row_valid_iff (d : Department) :
  row_valid d = true <->
  four_digits (id d) = true /\ clean_name (name d) = true
  /\ clean_faculty (faculty d) = true.
Proof.
  unfold row_valid. rewrite !andb_true_iff. tauto.
Qed.

Lemma full_clean_Ok (i : Instance) (t : Table) :
  full_clean i t = Ok tt <->
  clean_fields (row i) = [] /\ clean (row i) = Ok []
  /\ validate_unique i t = [] /\ validate_constraints i t = [].
Proof.
  unfold full_clean. split.
  - intros H. destruct (clean (row i)) as [ce|e]; [|discriminate].
    destruct (clean_fields (row i)) as [|x fe]; [|discriminate].
    simpl in H. destruct ce as [|y ce]; [|discriminate].
    simpl in H. destruct (validate_unique i t) as [|z ue]; [|discriminate].
    simpl in H. destruct (validate_constraints i t); [|discriminate].
    auto.
  - intros (-> & -> & U & C). simpl. rewrite U, C. reflexivity.
Qed.


(** A successful save wrote the validated columns either over the rows
    with this key or as a new row with a key not stored before. *)
Lemma save_Ok (fi : bool) (i i' : Instance) (t t' : Table) :
  save fi i t = (Ok i', t') ->
  full_clean i t = Ok tt /\ row i' = row i
  /\ ((exists_pk (id (row i)) t = true /\ t' = replace_row (row i) t)
      \/ (exists_pk (id (row i)) t = false /\ t' = (t ++ [row i])%list)).
Proof.
  unfold save. destruct (negb (pk_truthy (row i)) && negb (id_set_by_manager i));
    [discriminate|].
  destruct (full_clean i t) as [[]|e] eqn:F; [|discriminate].
  unfold save_base. rewrite pre_save_row.
  intros H. split; [reflexivity|].
  destruct (negb fi && exists_pk (id (row i)) t) eqn:B.
  - apply andb_true_iff in B. destruct B as [_ B].
    unfold update in H.
    destruct (negb (is_deleted (row i)) && pair_taken true (row i) t);
      [discriminate|].
    injection H as <- <-. simpl. split; [reflexivity|]. left. split; [exact B | reflexivity].
  - unfold insert in H. destruct (exists_pk (id (row i)) t) eqn:P; [discriminate|].
    destruct (negb (is_deleted (row i)) && pair_taken false (row i) t);
      [discriminate|].
    injection H as <- <-. simpl. split; [reflexivity|]. right. split; reflexivity.
Qed.

Lemma save_Err (fi : bool) (i : Instance) (t t' : Table) (e : Error) :
  save fi i t = (Err e, t') -> t' = t.
Proof.
  unfold save. destruct (negb (pk_truthy (row i)) && negb (id_set_by_manager i)).
  - intros H. injection H as _ <-. reflexivity.
  - destruct (full_clean i t); [|intros H; injection H as _ <-; reflexivity].
    unfold save_base.
    destruct (if negb fi && exists_pk (id (row (department_pre_save i))) t
              then update (row (department_pre_save i)) t
              else insert (row (department_pre_save i)) t) as [[u|e'] t''];
      intros H; [discriminate|]. injection H as _ <-. reflexivity.
Qed.

(** A valid row under a key that is not stored, whose pair no active row
    holds, is inserted. *)
Lemma save_new (d : Department) (t : Table) :
  row_valid d = true -> exists_pk (id d) t = false ->
  negb (is_deleted d) && pair_taken false d t = false ->
  save true (construct d) t
  = (Ok {| row := d; adding := false; id_set_by_manager := false |}, (t ++ [d])%list).
Proof.
  intros V P C. apply row_valid_iff in V. destruct V as (V1 & V2 & V3).
  unfold save. simpl row. simpl id_set_by_manager.
  rewrite (four_digits_pk_truthy d V1). simpl.
  assert (full_clean (construct d) t = Ok tt) as F.
  { apply full_clean_Ok. simpl. repeat split.
    - apply clean_fields_nil. auto using four_digits_clean_id.
    - apply clean_four_digits, V1.
    - unfold validate_unique. simpl. rewrite P. reflexivity.
    - unfold validate_constraints. simpl. rewrite C. reflexivity. }
  rewrite F. unfold save_base, department_pre_save. simpl row.
  rewrite (four_digits_pk_truthy d V1). simpl.
  unfold insert. rewrite P, C. reflexivity.
Qed.

(** A valid row loaded from the table and changed is written over the
    stored one unless it is active and its pair belongs to another
    active row. *)
Lemma save_existing (d : Department) (t : Table) :
  row_valid d = true -> exists_pk (id d) t = true ->
  negb (is_deleted d) && pair_taken true d t = false ->
  save false (from_db d) t = (Ok (from_db d), replace_row d t).
Proof.
  intros V P C. apply row_valid_iff in V. destruct V as (V1 & V2 & V3).
  unfold save. simpl row. simpl id_set_by_manager.
  rewrite (four_digits_pk_truthy d V1). simpl.
  assert (full_clean (from_db d) t = Ok tt) as F.
  { apply full_clean_Ok. simpl. repeat split.
    - apply clean_fields_nil. auto using four_digits_clean_id.
    - apply clean_four_digits, V1.
    - unfold validate_constraints. simpl. rewrite C. reflexivity. }
  rewrite F. unfold save_base, department_pre_save. simpl row.
  rewrite (four_digits_pk_truthy d V1). simpl.
  rewrite P. unfold update. rewrite C. reflexivity.
Qed.

(** ** [DepartmentManager.create_department] *)

Lemma create_Ok (d d' : Department) (t t' : Table) :
  create d t = (Ok d', t') ->
  d' = d /\ full_clean (construct d) t = Ok tt
  /\ exists_pk (id d) t = false /\ t' = (t ++ [d])%list.
Proof.
  unfold create. destruct (save true (construct d) t) as [[i|e] t''] eqn:S;
    [|discriminate].
  intros H. injection H as <- <-.
  apply save_Ok in S. destruct S as (F & R & W). simpl in R, W.
  pose proof F as F'. apply full_clean_Ok in F'. destruct F' as (_ & _ & U & _).
  unfold validate_unique in U. simpl in U.
  destruct (exists_pk (id d) t) eqn:P; [discriminate|].
  destruct W as [[W _] | [_ W]]; [discriminate|]. auto.
Qed.

Lemma create_Err (d : Department) (t t' : Table) (e : Error) :
  create d t = (Err e, t') -> t' = t.
Proof.
  unfold create. destruct (save true (construct d) t) as [[i|e'] t''] eqn:S;
    [discriminate|].
  intros H. injection H as _ <-. apply (save_Err _ _ _ _ _ S).
Qed.

Lemma create_department_Ok (n f : string) (x : option bool) (d : Department)
  (t t' : Table) :
  create_department n f x t = (Ok d, t') ->
  exists k, next_id t = Ok k /\ k <= MAX_ID
    /\ d = {| id := Py.format_04d k; name := n; faculty := f;
              is_deleted := extra_is_deleted x |}
    /\ full_clean (construct d) t = Ok tt
    /\ exists_pk (id d) t = false /\ t' = (t ++ [d])%list.
Proof.
  unfold create_department. destruct (next_id t) as [k|e]; [|discriminate].
  destruct (Z.gtb_spec k MAX_ID) as [G|L]; [discriminate|].
  intros H. apply create_Ok in H. destruct H as (-> & F & P & ->).
  exists k. repeat split; auto.
Qed.

(** The transaction leaves the table alone when the manager raises. *)
Lemma create_department_Err (n f : string) (x : option bool) (e : Error)
  (t t' : Table) :
  create_department n f x t = (Err e, t') -> t' = t.
Proof.
  unfold create_department. destruct (next_id t) as [k|e'].
  - destruct (k >? MAX_ID).
    + intros H. injection H as _ <-. reflexivity.
    + apply create_Err.
  - intros H. injection H as _ <-. reflexivity.
Qed.

(** When the manager succeeds: the id it computed is free and within
    the bound, the fields are valid and no active row holds the pair. *)
Lemma create_department_succeeds (n f : string) (x : option bool) (t : Table) (k : Z) :
  let d := {| id := Py.format_04d k; name := n; faculty := f;
              is_deleted := extra_is_deleted x |} in
  next_id t = Ok k -> 0 <= k <= MAX_ID ->
  clean_name n = true -> clean_faculty f = true ->
  exists_pk (Py.format_04d k) t = false ->
  negb (is_deleted d) && pair_taken false d t = false ->
  create_department n f x t = (Ok d, (t ++ [d])%list).
Proof.
  intros d N B Hn Hf P C. unfold create_department. rewrite N.
  destruct (Z.gtb_spec k MAX_ID) as [G|L]; [lia|].
  unfold create. fold d. rewrite save_new; [reflexivity| | exact P | exact C].
  apply row_valid_iff. simpl. repeat split; try assumption.
  apply format_04d_four_digits. unfold MAX_ID in B. lia.
Qed.

Lemma create_department_id (n f : string) (x : option bool) (d : Department)
  (t t' : Table) :
  ids_valid t -> create_department n f x t = (Ok d, t') ->
  id d = Py.format_04d (match max_active_id t with
                        | None => INITIAL_ID
                        | Some m => m + 1
                        end)
  /\ four_digits (id d) = true.
Proof.
  intros V H. apply create_department_Ok in H.
  destruct H as (k & N & L & -> & _). simpl.
  rewrite (next_id_max_active t V) in N. injection N as N. rewrite N.
  split; [reflexivity|]. apply format_04d_four_digits.
  split; [|exact L]. subst k. destruct (max_active_id t) as [m|] eqn:M.
  - destruct (max_active_id_bounds t m V M) as (B & _). lia.
  - unfold INITIAL_ID. lia.
Qed.

(** ** Creations on an empty table *)

Lemma max_list_from (a k : nat) :
  max_list (map (fun j => INITIAL_ID + Z.of_nat j) (seq a (S k)))
  = Some (INITIAL_ID + Z.of_nat (a + k)).
Proof.
  revert a. induction k as [|k IH]; intros a.
  - simpl. rewrite Nat.add_0_r. reflexivity.
  - change (seq a (S (S k))) with (a :: seq (S a) (S k)).
    cbn [map max_list]. rewrite IH. f_equal. lia.
Qed.

Lemma nth_id_number (j : nat) :
  (Z.of_nat j < 9000) ->
  four_digits (nth_id j) = true /\ Py.int (nth_id j) = Some (INITIAL_ID + Z.of_nat j).
Proof.
  intros H. apply format_04d_four_digits. unfold INITIAL_ID. lia.
Qed.

Lemma filter_all_active (t : Table) :
  Forall (fun d => is_deleted d = false) t -> filter_is_deleted false t = t.
Proof.
  unfold filter_is_deleted. induction 1 as [|d l Hd Hl IH]; [reflexivity|].
  simpl. rewrite Hd. simpl. f_equal. exact IH.
Qed.

Section Enumerated.

(** A table holding the first [k] ids, every row active. *)
Variable k : nat.
Variable t : Table.
Hypothesis Hk : (Z.of_nat k <= 9000).
Hypothesis Hids : map id t = map nth_id (seq 0 k).
Hypothesis Hactive : Forall (fun d => is_deleted d = false) t.

Lemma enumerated_ids_valid : ids_valid t.
Proof.
  unfold ids_valid. rewrite Forall_forall. intros d Hd.
  assert (In (id d) (map nth_id (seq 0 k))) as I
    by (rewrite <- Hids; apply in_map, Hd).
  apply in_map_iff in I. destruct I as (j & <- & Hj). apply in_seq in Hj.
  apply nth_id_number. lia.
Qed.

Lemma enumerated_active : filter_is_deleted false t = t.
Proof. apply filter_all_active, Hactive. Qed.

Lemma enumerated_numbers :
  map number t = map (fun j => INITIAL_ID + Z.of_nat j) (seq 0 k).
Proof.
  transitivity (map (fun s => match Py.int s with Some n => n | None => 0 end)
                    (map id t)).
  - rewrite map_map. reflexivity.
  - rewrite Hids, map_map. apply map_ext_in. intros j Hj. apply in_seq in Hj.
    destruct (nth_id_number j) as (_ & E); [lia|]. rewrite E. reflexivity.
Qed.

Lemma enumerated_next_id : next_id t = Ok (INITIAL_ID + Z.of_nat k).
Proof.
  rewrite (next_id_max_active t enumerated_ids_valid). f_equal.
  unfold max_active_id.
  rewrite (active_numbers_map t enumerated_ids_valid), enumerated_active,
    enumerated_numbers.
  destruct k as [|k']; [reflexivity|].
  rewrite max_list_from. rewrite Nat2Z.inj_succ. simpl Nat.add. lia.
Qed.

(** A creation on such a table either fails and changes nothing or
    allocates the next id and leaves a table of the same shape. *)
Lemma enumerated_create (n f : string) (r : result Department) (t' : Table) :
  create_department n f None t = (r, t') ->
  (exists e, r = Err e /\ t' = t)
  \/ (exists d, r = Ok d /\ id d = nth_id k /\ (Z.of_nat (S k) <= 9000)
      /\ map id t' = map nth_id (seq 0 (S k))
      /\ Forall (fun d => is_deleted d = false) t').
Proof.
  intros H. destruct r as [d|e].
  - right. exists d. split; [reflexivity|].
    apply create_department_Ok in H.
    destruct H as (j & N & L & -> & _ & _ & ->).
    assert (j = INITIAL_ID + Z.of_nat k) as ->
      by (pose proof enumerated_next_id; congruence).
    unfold MAX_ID, INITIAL_ID in L.
    split; [reflexivity|]. split; [lia|]. split.
    + rewrite map_app, Hids, seq_S, map_app. reflexivity.
    + apply Forall_app. split; [exact Hactive|]. constructor; [reflexivity|constructor].
  - left. exists e. split; [reflexivity|].
    apply (create_department_Err _ _ _ _ _ _ H).
Qed.

End Enumerated.

Lemma creations_allocate (requests : list (string * string)) :
  forall (k : nat) (t : Table),
    (Z.of_nat k <= 9000) -> map id t = map nth_id (seq 0 k) ->
    Forall (fun d => is_deleted d = false) t ->
    exists j, (Z.of_nat (k + j) <= 9000)
      /\ fst (run (creations requests) t) = map nth_id (seq k j).
Proof.
  induction requests as [|[n f] requests IH]; intros k t Hk Hids Hact.
  - exists 0%nat. split; [lia | reflexivity].
  - simpl. destruct (create_department n f None t) as [r t1] eqn:C.
    destruct (enumerated_create k t Hk Hids Hact n f r t1 C)
      as [(e & -> & ->) | (d & -> & E & Hk' & Hids' & Hact')].
    + destruct (IH k t Hk Hids Hact) as (j & Hj & R).
      destruct (run (creations requests) t) as [ids t2]. simpl in *.
      exists j. auto.
    + destruct (IH (S k) t1 Hk' Hids' Hact') as (j & Hj & R).
      destruct (run (creations requests) t1) as [ids t2]. simpl in *.
      exists (S j). split; [lia|]. rewrite E, R. reflexivity.
Qed.

Lemma nth_id_lt (i j : nat) :
  (i < j)%nat -> (Z.of_nat j < 9000) -> string_lt (nth_id i) (nth_id j).
Proof.
  intros Hij Hj. unfold string_lt.
  destruct (nth_id_number i) as (Fi & Ei); [lia|].
  destruct (nth_id_number j) as (Fj & Ej); [lia|].
  rewrite (compare_four_digits _ _ _ _ Fi Fj Ei Ej).
  apply Z.compare_lt_iff. lia.
Qed.

Lemma nth_ids_sorted (k j : nat) :
  (Z.of_nat (k + j) <= 9000) -> StronglySorted string_lt (map nth_id (seq k j)).
Proof.
  revert k. induction j as [|j IH]; intros k H; [constructor|].
  simpl. constructor; [apply IH; lia|].
  rewrite Forall_forall. intros s Hs. apply in_map_iff in Hs.
  destruct Hs as (i & <- & Hi). apply in_seq in Hi. apply nth_id_lt; lia.
Qed.

Lemma nth_ids_four_digits (k j : nat) :
  (Z.of_nat (k + j) <= 9000) ->
  Forall (fun s => id_in_range s = true) (map nth_id (seq k j)).
Proof.
  intros H. rewrite Forall_forall. intros s Hs. apply in_map_iff in Hs.
  destruct Hs as (i & <- & Hi). apply in_seq in Hi.
  destruct (nth_id_number i) as (F & E); [lia|].
  unfold id_in_range. rewrite F, E. unfold INITIAL_ID, MAX_ID.
  rewrite andb_true_l. apply andb_true_iff. split; apply Z.leb_le; lia.
Qed.

(** ** The id allocator *)

(** C1. A successful [create_department] gives the new department the
    id "1000" when no active department is stored and otherwise the
    greatest id among the active departments plus one, written as four
    zero-padded digits.  Consequently the ids allocated by any sequence
    of creations on an empty table, with no deletion in between, are
    "1000", "1001", ... in this order: four-digit strings that strictly
    increase and start at "1000". *)
Theorem create_department_next_id
  (t t' : Table) (n f : string) (x : option bool) (d : Department)
  (requests : list (string * string))
  (V : ids_valid t) (H : create_department n f x t = (Ok d, t')) :
  ((filter_is_deleted false t = [] -> id d = "1000")
   /\ (forall m, max_active_id t = Some m -> id d = Py.format_04d (m + 1))
   /\ four_digits (id d) = true)
  /\ (exists j,
        fst (run (creations requests) []) = map nth_id (seq 0 j)
        /\ StronglySorted string_lt (fst (run (creations requests) []))
        /\ Forall (fun s => id_in_range s = true) (fst (run (creations requests) []))
        /\ (forall s, hd_error (fst (run (creations requests) [])) = Some s -> s = "1000")).
Proof.
  split.
  - destruct (create_department_id n f x d t t' V H) as (E & F).
    repeat split; [| |exact F].
    + intros A. apply (max_active_id_None t V) in A. rewrite A in E. exact E.
    + intros m M. rewrite M in E. exact E.
  - destruct (creations_allocate requests 0 [] ltac:(simpl; lia) eq_refl (Forall_nil _))
      as (j & Hj & R).
    exists j. rewrite R. repeat split.
    + apply nth_ids_sorted, Hj.
    + apply nth_ids_four_digits, Hj.
    + destruct j as [|j]; simpl; intros s E; [discriminate|].
      injection E as <-. reflexivity.
Qed.

Lemma create_department_next_id_witness :
  ids_valid [cs]
  /\ create_department "Physics" "SC" None [cs]
     = (Ok {| id := "1001"; name := "Physics"; faculty := "SC"; is_deleted := false |},
        [cs; {| id := "1001"; name := "Physics"; faculty := "SC"; is_deleted := false |}])
  /\ max_active_id [cs] = Some 1000
  /\ fst (run (creations [("Computer Science", "I&C"); ("Physics", "SC");
                          ("Physics", "SC"); ("Chemistry", "SC")]) [])
     = ["1000"; "1001"; "1002"]
  /\ StronglySorted string_lt
       (fst (run (creations [("Computer Science", "I&C"); ("Physics", "SC");
                             ("Physics", "SC"); ("Chemistry", "SC")]) [])).
Proof.
  assert (ids_valid [cs]) as V by (repeat constructor).
  assert (create_department "Physics" "SC" None [cs]
          = (Ok {| id := "1001"; name := "Physics"; faculty := "SC"; is_deleted := false |},
             [cs; {| id := "1001"; name := "Physics"; faculty := "SC";
                     is_deleted := false |}])) as H by (vm_compute; reflexivity).
  split; [exact V|]. split; [exact H|]. split; [reflexivity|].
  split; [vm_compute; reflexivity|].
  destruct (create_department_next_id [cs] _ "Physics" "SC" None _
              [("Computer Science", "I&C"); ("Physics", "SC");
               ("Physics", "SC"); ("Chemistry", "SC")] V H)
    as (_ & j & _ & S & _).
  exact S.
Defined.

(** C2. When the greatest id among the active departments is 9999,
    [create_department] fails with the capacity error and the table is
    left as it was: no row is created. *)
Theorem create_department_capacity
  (t : Table) (n f : string) (x : option bool)
  (V : ids_valid t) (M : max_active_id t = Some MAX_ID) :
  create_department n f x t
  = (Err (ValueError "Department ID cannot exceed 9999"), t).
Proof.
  unfold create_department. rewrite (next_id_max_active t V), M.
  reflexivity.
Qed.

Lemma create_department_capacity_witness :
  ids_valid [{| id := "9999"; name := "Music"; faculty := "LAMS"; is_deleted := false |}]
  /\ max_active_id
       [{| id := "9999"; name := "Music"; faculty := "LAMS"; is_deleted := false |}]
     = Some MAX_ID
  /\ create_department "Physics" "SC" None
       [{| id := "9999"; name := "Music"; faculty := "LAMS"; is_deleted := false |}]
     = (Err (ValueError "Department ID cannot exceed 9999"),
        [{| id := "9999"; name := "Music"; faculty := "LAMS"; is_deleted := false |}]).
Proof.
  assert (ids_valid [{| id := "9999"; name := "Music"; faculty := "LAMS";
                        is_deleted := false |}]) as V by (repeat constructor).
  split; [exact V|]. split; [reflexivity|].
  apply (create_department_capacity _ "Physics" "SC" None V). reflexivity.
Defined.

(** ** What the stored rows look like *)

Lemma stored_ok_iff (d : Department) :
  stored_ok d = true <->
  id_in_range (id d) = true /\ clean_name (name d) = true
  /\ clean_faculty (faculty d) = true.
Proof. unfold stored_ok. rewrite !andb_true_iff. tauto. Qed.

Lemma id_in_range_four_digits (s : string) :
  id_in_range s = true -> four_digits s = true.
Proof. unfold id_in_range. intros H. apply andb_true_iff in H. apply H. Qed.

Lemma id_in_range_number (s : string) :
  id_in_range s = true ->
  exists n, Py.int s = Some n /\ INITIAL_ID <= n <= MAX_ID /\ Py.format_04d n = s.
Proof.
  unfold id_in_range. intros H. apply andb_true_iff in H. destruct H as [F H].
  destruct (four_digits_number s F) as (n & _ & E & G). rewrite E in H.
  apply andb_true_iff in H. destruct H as [H1 H2].
  apply Z.leb_le in H1. apply Z.leb_le in H2. exists n. auto.
Qed.

Lemma format_04d_in_range (n : Z) :
  INITIAL_ID <= n <= MAX_ID -> id_in_range (Py.format_04d n) = true.
Proof.
  unfold INITIAL_ID, MAX_ID. intros H.
  destruct (format_04d_four_digits n) as (F & E); [lia|].
  unfold id_in_range. rewrite F, E. unfold INITIAL_ID, MAX_ID.
  rewrite andb_true_l. apply andb_true_iff. split; apply Z.leb_le; lia.
Qed.

Lemma stored_ok_row_valid (d : Department) : stored_ok d = true -> row_valid d = true.
Proof.
  intros H. apply stored_ok_iff in H. destruct H as (H1 & H2 & H3).
  apply row_valid_iff. auto using id_in_range_four_digits.
Qed.

Lemma table_ok_ids_valid (t : Table) : table_ok t -> ids_valid t.
Proof.
  unfold table_ok, ids_valid. apply Forall_impl. intros d H.
  apply stored_ok_iff in H. apply id_in_range_four_digits, H.
Qed.

Lemma exists_pk_In (s : string) (t : Table) :
  exists_pk s t = true <-> In s (map id t).
Proof.
  unfold exists_pk, has_pk. rewrite existsb_exists, in_map_iff.
  split; intros (d & H1 & H2).
  - apply String.eqb_eq in H2. exists d. auto.
  - exists d. split; [assumption|]. apply String.eqb_eq. assumption.
Qed.

Lemma get_Some (pk : string) (t : Table) (d : Department) :
  get pk t = Some d -> In d t /\ id d = pk /\ exists_pk (id d) t = true.
Proof.
  unfold get. intros H. apply find_some in H. destruct H as [H1 H2].
  unfold has_pk in H2. apply String.eqb_eq in H2.
  repeat split; [assumption | assumption |].
  apply exists_pk_In, in_map, H1.
Qed.

Lemma map_id_replace_row (d : Department) (t : Table) :
  map id (replace_row d t) = map id t.
Proof.
  unfold replace_row. rewrite map_map. apply map_ext. intros e.
  unfold has_pk. destruct (String.eqb_spec (id e) (id d)) as [E|E]; congruence.
Qed.

Lemma Forall_replace_row (P : Department -> Prop) (d : Department) (t : Table) :
  P d -> Forall P t -> Forall P (replace_row d t).
Proof.
  intros Hd H. unfold replace_row. induction H as [|e l He Hl IH]; simpl;
    constructor; try assumption.
  destruct (has_pk (id d) e); assumption.
Qed.

(** A save keeps every stored id and keeps the table well-formed when
    the id of the instance is in range. *)
Lemma save_ids (fi : bool) (i : Instance) (t t' : Table) (r : result Instance) :
  save fi i t = (r, t') -> incl (map id t) (map id t').
Proof.
  intros H. destruct r as [i'|e].
  - apply save_Ok in H. destruct H as (_ & _ & [[_ ->] | [_ ->]]).
    + rewrite map_id_replace_row. apply incl_refl.
    + rewrite map_app. apply incl_appl, incl_refl.
  - apply save_Err in H. subst t'. apply incl_refl.
Qed.

Lemma save_table_ok (fi : bool) (i : Instance) (t t' : Table) (r : result Instance) :
  table_ok t -> id_in_range (id (row i)) = true ->
  save fi i t = (r, t') -> table_ok t'.
Proof.
  intros T I H. destruct r as [i'|e].
  - apply save_Ok in H. destruct H as (F & _ & W).
    apply full_clean_Ok in F. destruct F as (F & _).
    apply clean_fields_nil in F. destruct F as (_ & F2 & F3).
    assert (stored_ok (row i) = true) as S by (apply stored_ok_iff; auto).
    destruct W as [[_ ->] | [_ ->]].
    + apply Forall_replace_row; assumption.
    + apply Forall_app. split; [assumption|]. constructor; [assumption|constructor].
  - apply save_Err in H. subst t'. assumption.
Qed.

Lemma next_id_in_range (t : Table) (k : Z) :
  table_ok t -> next_id t = Ok k -> INITIAL_ID <= k.
Proof.
  intros T N. pose proof (table_ok_ids_valid t T) as V.
  rewrite (next_id_max_active t V) in N.
  assert (k = match max_active_id t with
              | Some m => m + 1
              | None => INITIAL_ID
              end) as -> by congruence.
  destruct (max_active_id t) as [m|] eqn:M; [|lia].
  destruct (max_active_id_bounds t m V M) as (_ & (d & Hd & _ & E) & _).
  unfold table_ok in T. rewrite Forall_forall in T. specialize (T d Hd).
  apply stored_ok_iff in T. destruct T as (T & _).
  destruct (id_in_range_number _ T) as (n & E' & B & _).
  assert (n = m) by congruence. lia.
Qed.

Lemma create_department_table_ok (n f : string) (x : option bool) (t t' : Table)
  (r : result Department) :
  table_ok t -> create_department n f x t = (r, t') ->
  table_ok t'
  /\ (forall d, r = Ok d -> id_in_range (id d) = true /\ ~ In (id d) (map id t))
  /\ incl (map id t) (map id t').
Proof.
  intros T H. destruct r as [d|e].
  - apply create_department_Ok in H.
    destruct H as (k & N & L & E & F & P & ->).
    pose proof (next_id_in_range t k T N) as G.
    assert (id_in_range (id d) = true) as I
      by (rewrite E; simpl; apply format_04d_in_range; lia).
    apply full_clean_Ok in F. destruct F as (F & _).
    apply clean_fields_nil in F. simpl in F. destruct F as (_ & F2 & F3).
    split; [|split].
    + apply Forall_app. split; [assumption|].
      constructor; [apply stored_ok_iff; auto | constructor].
    + intros d' D. injection D as <-. split; [assumption|].
      intros C. apply exists_pk_In in C. congruence.
    + rewrite map_app. apply incl_appl, incl_refl.
  - apply create_department_Err in H. subst t'.
    split; [assumption|]. split; [discriminate | apply incl_refl].
Qed.

(** ** Runs of the application's writes *)

Lemma serializer_update_save (d : Department) (n f : string) (t : Table) :
  snd (serializer_update d n f t)
  = snd (save false (from_db (set_name_faculty n f d)) t).
Proof.
  unfold serializer_update.
  destruct (save false (from_db (set_name_faculty n f d)) t) as [[i|e] t']; reflexivity.
Qed.

Lemma delete_soft_save (i : Instance) (t : Table) :
  snd (delete true i t)
  = snd (save false {| row := set_is_deleted true (row i); adding := adding i;
                       id_set_by_manager := id_set_by_manager i |} t).
Proof.
  unfold delete.
  destruct (save false _ t) as [[i'|e] t']; reflexivity.
Qed.

Lemma save_snd_inv (fi : bool) (i : Instance) (t : Table) :
  table_ok t -> id_in_range (id (row i)) = true ->
  table_ok (snd (save fi i t)) /\ incl (map id t) (map id (snd (save fi i t))).
Proof.
  intros T I. destruct (save fi i t) as [r t'] eqn:S. simpl.
  split; [apply (save_table_ok _ _ _ _ _ T I S) | apply (save_ids _ _ _ _ _ S)].
Qed.

Lemma stored_id_in_range (t : Table) (d : Department) :
  table_ok t -> In d t -> id_in_range (id d) = true.
Proof.
  unfold table_ok. rewrite Forall_forall. intros T Hd.
  specialize (T d Hd). apply stored_ok_iff in T. apply T.
Qed.

Lemma run_op_inv (o : Op) (t : Table) :
  table_ok t ->
  table_ok (snd (run_op o t))
  /\ incl (map id t) (map id (snd (run_op o t)))
  /\ (forall s, fst (run_op o t) = Some s ->
        id_in_range s = true /\ ~ In s (map id t)).
Proof.
  intros T. destruct o as [n f | pk n f | pk n f del | pk]; simpl.
  - destruct (create_department n f None t) as [r t'] eqn:C.
    destruct (create_department_table_ok n f None t t' r T C) as (T' & A & I).
    destruct r as [d|e]; simpl; (split; [assumption|]); (split; [assumption|]);
      [|discriminate].
    intros s E. injection E as <-. apply (A d eq_refl).
  - destruct (get pk t) as [d|] eqn:G; simpl.
    + apply get_Some in G. destruct G as (Hd & _ & _).
      rewrite serializer_update_save.
      destruct (save_snd_inv false (from_db (set_name_faculty n f d)) t T) as (A & B).
      { simpl. apply (stored_id_in_range t d T Hd). }
      split; [assumption|]. split; [assumption|]. discriminate.
    + split; [assumption|]. split; [apply incl_refl|]. discriminate.
  - destruct (get pk t) as [d|] eqn:G; simpl.
    + apply get_Some in G. destruct G as (Hd & _ & _).
      destruct (save_snd_inv false
                  (from_db (set_is_deleted del (set_name_faculty n f d))) t T) as (A & B).
      { simpl. apply (stored_id_in_range t d T Hd). }
      split; [assumption|]. split; [assumption|]. discriminate.
    + split; [assumption|]. split; [apply incl_refl|]. discriminate.
  - destruct (get pk t) as [d|] eqn:G; simpl.
    + apply get_Some in G. destruct G as (Hd & _ & _).
      unfold perform_destroy. rewrite delete_soft_save.
      destruct (save_snd_inv false
                  {| row := set_is_deleted true (row (from_db d));
                     adding := adding (from_db d);
                     id_set_by_manager := id_set_by_manager (from_db d) |} t T) as (A & B).
      { simpl. apply (stored_id_in_range t d T Hd). }
      split; [assumption|]. split; [assumption|]. discriminate.
    + split; [assumption|]. split; [apply incl_refl|]. discriminate.
Qed.

Lemma run_cons (o : Op) (ops : list Op) (t : Table) :
  run (o :: ops) t
  = (match fst (run_op o t) with
     | Some i => i :: fst (run ops (snd (run_op o t)))
     | None => fst (run ops (snd (run_op o t)))
     end,
     snd (run ops (snd (run_op o t)))).
Proof.
  simpl. destruct (run_op o t) as [a t1]. simpl.
  destruct (run ops t1) as [ids t2]. reflexivity.
Qed.

Lemma run_app (ops1 ops2 : list Op) (t : Table) :
  run (ops1 ++ ops2) t
  = ((fst (run ops1 t) ++ fst (run ops2 (snd (run ops1 t))))%list,
     snd (run ops2 (snd (run ops1 t)))).
Proof.
  revert t. induction ops1 as [|o ops1 IH]; intros t.
  - simpl. destruct (run ops2 t). reflexivity.
  - rewrite <- app_comm_cons, !run_cons, IH. simpl.
    destruct (fst (run_op o t)); reflexivity.
Qed.

(** Along a run the table stays well-formed, no stored id disappears,
    and every allocated id is in range and was not stored before. *)
Lemma run_inv (ops : list Op) :
  forall t, table_ok t ->
    table_ok (snd (run ops t))
    /\ incl (map id t) (map id (snd (run ops t)))
    /\ Forall (fun s => id_in_range s = true /\ ~ In s (map id t)) (fst (run ops t)).
Proof.
  induction ops as [|o ops IH]; intros t T.
  - simpl. split; [assumption|]. split; [apply incl_refl | constructor].
  - rewrite run_cons. simpl.
    destruct (run_op_inv o t T) as (T1 & I1 & A1).
    destruct (IH _ T1) as (T2 & I2 & A2).
    split; [assumption|]. split; [eapply incl_tran; eassumption|].
    assert (Forall (fun s => id_in_range s = true /\ ~ In s (map id t))
                   (fst (run ops (snd (run_op o t))))) as A3.
    { eapply Forall_impl; [|exact A2]. simpl. intros s [R N].
      split; [assumption|]. intros C. apply N, I1, C. }
    destruct (fst (run_op o t)) as [s|]; [|assumption].
    constructor; [apply A1; reflexivity | assumption].
Qed.

Lemma reachable_table_ok (t : Table) : reachable t -> table_ok t.
Proof.
  intros [ops <-]. apply run_inv. constructor.
Qed.

(** ** Soft deletion *)

Lemma In_replace_row (d e : Department) (t : Table) :
  In e t -> id e = id d -> In d (replace_row d t).
Proof.
  intros H E. unfold replace_row. apply in_map_iff. exists e. split; [|assumption].
  unfold has_pk. rewrite E, String.eqb_refl. reflexivity.
Qed.

Lemma replace_row_In (d e : Department) (t : Table) :
  In e (replace_row d t) -> e = d \/ (In e t /\ id e <> id d).
Proof.
  unfold replace_row. intros H. apply in_map_iff in H. destruct H as (x & H & Hx).
  unfold has_pk in H. destruct (String.eqb_spec (id x) (id d)) as [E|E].
  - left. auto.
  - right. subst x. auto.
Qed.

Lemma filter_replace_deleted (d : Department) (t : Table) :
  filter_is_deleted false (replace_row (set_is_deleted true d) t)
  = filter (fun x => negb (has_pk (id d) x)) (filter_is_deleted false t).
Proof.
  unfold filter_is_deleted, replace_row. induction t as [|e t IH]; [reflexivity|].
  cbn [map filter]. rewrite IH.
  change (has_pk (id (set_is_deleted true d)) e) with (has_pk (id d) e).
  destruct (has_pk (id d) e) eqn:P.
  - simpl. destruct (is_deleted e); simpl; [reflexivity|]. rewrite P. reflexivity.
  - destruct (is_deleted e); simpl; [reflexivity|]. rewrite P. reflexivity.
Qed.

(** The default delete of a stored department whose fields are valid
    succeeds and writes the flag over the row. *)
Lemma perform_destroy_succeeds (t : Table) (d : Department) :
  row_valid d = true -> In d t ->
  perform_destroy d t = (Ok tt, replace_row (set_is_deleted true d) t).
Proof.
  intros V Hd. unfold perform_destroy, delete.
  change {| row := set_is_deleted true (row (from_db d));
            adding := adding (from_db d);
            id_set_by_manager := id_set_by_manager (from_db d) |}
    with (from_db (set_is_deleted true d)).
  rewrite save_existing; [reflexivity | | |reflexivity].
  - apply row_valid_iff in V. apply row_valid_iff. exact V.
  - apply exists_pk_In. simpl. apply in_map, Hd.
Qed.

Lemma insert_by_id_In (d e : Department) (t : Table) :
  In e (insert_by_id d t) <-> e = d \/ In e t.
Proof.
  induction t as [|x t IH]; simpl.
  - intuition.
  - destruct (id d <=? id x)%string; simpl; [intuition|].
    rewrite IH. intuition.
Qed.

Lemma order_by_id_In (e : Department) (t : Table) :
  In e (order_by_id t) <-> In e t.
Proof.
  unfold order_by_id. induction t as [|x t IH]; simpl; [tauto|].
  rewrite insert_by_id_In, IH. intuition.
Qed.

Lemma table_ok_row_valid (t : Table) (d : Department) :
  table_ok t -> In d t -> row_valid d = true.
Proof.
  unfold table_ok. rewrite Forall_forall. intros T Hd.
  apply stored_ok_row_valid, T, Hd.
Qed.

(** C5. The default delete of a stored department, its fields being
    valid as every saved row's are, sets [is_deleted] and saves: the
    call succeeds, the row stays in the table under its id with the flag
    set and no row is removed; afterwards a staff caller's queryset
    holds the row and the queryset of every other caller, the default
    listing, holds no row with its id. *)
Theorem delete_is_soft
  (t : Table) (d : Department) (user : User)
  (V : row_valid d = true) (Hin : In d t) :
  fst (delete true (from_db d) t) = Ok tt
  /\ In (set_is_deleted true d) (snd (delete true (from_db d) t))
  /\ map id (snd (delete true (from_db d) t)) = map id t
  /\ (forall e, In e (snd (delete true (from_db d) t)) -> id e = id d ->
        is_deleted e = true)
  /\ (is_authenticated user && is_staff user = true ->
        In (set_is_deleted true d) (get_queryset user (snd (delete true (from_db d) t))))
  /\ (is_authenticated user && is_staff user = false ->
        forall e, In e (get_queryset user (snd (delete true (from_db d) t))) ->
                  id e <> id d).
Proof.
  pose proof (perform_destroy_succeeds t d V Hin) as S.
  unfold perform_destroy in S. rewrite S. simpl fst. simpl snd.
  assert (In (set_is_deleted true d) (replace_row (set_is_deleted true d) t)) as I
    by (apply (In_replace_row _ d); [assumption | reflexivity]).
  split; [reflexivity|]. split; [exact I|]. split; [apply map_id_replace_row|].
  split; [|split].
  - intros e He E. apply replace_row_In in He. destruct He as [-> | [_ N]];
      [reflexivity | contradiction].
  - intros P. unfold get_queryset, queryset. rewrite P. apply order_by_id_In, I.
  - intros P e He. unfold get_queryset, queryset in He. rewrite P in He.
    unfold filter_is_deleted in He. apply filter_In in He. destruct He as [He A].
    apply (proj1 (order_by_id_In _ _)) in He. apply replace_row_In in He.
    destruct He as [-> | [_ N]]; [discriminate A | exact N].
Qed.

Lemma delete_is_soft_witness :
  row_valid cs = true /\ In cs [cs]
  /\ delete true (from_db cs) [cs] = (Ok tt, [set_is_deleted true cs])
  /\ In (set_is_deleted true cs) (get_queryset staff [set_is_deleted true cs])
  /\ get_queryset anonymous [set_is_deleted true cs] = []
  /\ fst (delete true (from_db cs) [cs]) = Ok tt.
Proof.
  assert (row_valid cs = true) as R by (vm_compute; reflexivity).
  split; [exact R|]. split; [left; reflexivity|].
  split; [vm_compute; reflexivity|]. split; [left; reflexivity|].
  split; [reflexivity|].
  destruct (delete_is_soft [cs] cs staff R (or_introl eq_refl)) as (A & _).
  exact A.
Defined.

(** ** Soft-deleted ids and the allocator *)

Lemma run_never_allocates_stored (ops : list Op) (t : Table) (s : string) :
  table_ok t -> In s (map id t) -> ~ In s (fst (run ops t)).
Proof.
  intros T Hs C. destruct (run_inv ops t T) as (_ & _ & A).
  rewrite Forall_forall in A. destruct (A s C) as [_ N]. apply N, Hs.
Qed.

(** C3. In a reachable table, the id of a soft-deleted department is
    never given to a department created later, whatever the application
    goes on to do; soft-deleting any stored department leaves as active
    rows exactly the other active rows, and the next id is still 1000
    when none is left and their greatest id plus one otherwise; with
    1000 soft-deleted and 1001 to 1005 active the next allocation is
    "1006". *)
Theorem soft_deleted_id_not_reassigned
  (t : Table) (d e : Department) (ops : list Op)
  (R : reachable t) (Hd : In d t) (Hdel : is_deleted d = true) (He : In e t) :
  ~ In (id d) (fst (run ops t))
  /\ (filter_is_deleted false (snd (perform_destroy e t))
      = filter (fun x => negb (has_pk (id e) x)) (filter_is_deleted false t)
      /\ next_id (snd (perform_destroy e t))
         = Ok (match max_active_id (snd (perform_destroy e t)) with
               | None => INITIAL_ID
               | Some m => m + 1
               end))
  /\ (map (fun x => (id x, is_deleted x)) gap_table
      = [("1000", true); ("1001", false); ("1002", false); ("1003", false);
         ("1004", false); ("1005", false)]
      /\ next_id gap_table = Ok 1006
      /\ fst (create_department "Zoology" "LS" None gap_table)
         = Ok {| id := "1006"; name := "Zoology"; faculty := "LS"; is_deleted := false |}).
Proof.
  pose proof (reachable_table_ok t R) as T.
  split; [|split].
  - apply run_never_allocates_stored; [exact T | apply in_map, Hd].
  - rewrite (perform_destroy_succeeds t e (table_ok_row_valid t e T He) He). simpl snd.
    split; [apply filter_replace_deleted|].
    apply next_id_max_active, table_ok_ids_valid.
    apply Forall_replace_row; [|exact T].
    unfold table_ok in T. rewrite Forall_forall in T. specialize (T e He).
    apply stored_ok_iff in T. apply stored_ok_iff. exact T.
  - vm_compute. repeat split.
Qed.

Lemma soft_deleted_id_not_reassigned_witness :
  reachable gap_table
  /\ In (set_is_deleted true cs) gap_table
  /\ is_deleted (set_is_deleted true cs) = true
  /\ fst (run [OpCreate "Zoology" "LS"; OpCreate "Geology" "SC"] gap_table)
     = ["1006"; "1007"]
  /\ ~ In "1000" (fst (run [OpCreate "Zoology" "LS"; OpCreate "Geology" "SC"] gap_table)).
Proof.
  assert (reachable gap_table) as R
    by (exists (six_requests ++ [OpDestroy "1000"])%list; reflexivity).
  assert (In (set_is_deleted true cs) gap_table) as I
    by (vm_compute; left; reflexivity).
  split; [exact R|]. split; [exact I|]. split; [reflexivity|].
  split; [vm_compute; reflexivity|].
  destruct (soft_deleted_id_not_reassigned gap_table (set_is_deleted true cs)
              (set_is_deleted true cs)
              [OpCreate "Zoology" "LS"; OpCreate "Geology" "SC"] R I eq_refl I)
    as (A & _).
  exact A.
Defined.

(** C4, at the failing input.  "Computer Science" of faculty "I&C" is
    created as 1000 and soft-deleted; creating the same pair again
    computes the id 1000 once more, because no active row is left, and
    the insert is refused on the primary key the deleted row still
    holds.  A second creation while the first is active is refused on
    the pair. *)
Theorem recreate_after_soft_delete_collides :
  create_department "Computer Science" "I&C" None [] = (Ok cs, [cs])
  /\ fst (create_department "Computer Science" "I&C" None [cs])
     = Err (ValidationError ["unique_active_name_faculty"])
  /\ perform_destroy cs [cs] = (Ok tt, [set_is_deleted true cs])
  /\ next_id [set_is_deleted true cs] = Ok 1000
  /\ create_department "Computer Science" "I&C" None [set_is_deleted true cs]
     = (Err (ValidationError ["id"]), [set_is_deleted true cs]).
Proof. vm_compute. repeat split. Qed.

(** Creating a department whose pair an active department holds fails
    and leaves the table as it was. *)
Lemma create_department_duplicate (n f : string) (x : option bool) (t : Table)
  (e : Department) :
  extra_is_deleted x = false ->
  In e t -> is_deleted e = false -> name e = n -> faculty e = f ->
  exists err, create_department n f x t = (Err err, t).
Proof.
  intros X He A Hn Hf.
  destruct (create_department n f x t) as [[d|err] t'] eqn:C.
  - exfalso. apply create_department_Ok in C.
    destruct C as (k & _ & _ & -> & F & _ & _).
    apply full_clean_Ok in F. destruct F as (_ & _ & _ & F).
    unfold validate_constraints in F. simpl in F. rewrite X in F.
    assert (pair_taken false
              {| id := Py.format_04d k; name := n; faculty := f; is_deleted := false |} t
            = true) as P.
    { unfold pair_taken. apply existsb_exists. exists e. split; [assumption|].
      unfold same_pair. simpl. rewrite Hn, Hf, A, !String.eqb_refl. reflexivity. }
    rewrite P in F. discriminate.
  - exists err. apply create_department_Err in C. subst t'. reflexivity.
Qed.

(** C6, at the failing input.  An instance built directly with an id of
    its own choosing passes the guard of [save], which looks at
    instances without a key only, and is stored under an id the
    allocator never produces; the guard stops an instance without a key,
    and the signal that would set the flag runs after the guard. *)
Theorem save_accepts_direct_construction :
  save false (construct direct) []
  = (Ok {| row := direct; adding := false; id_set_by_manager := false |}, [direct])
  /\ id_in_range (id direct) = false
  /\ fst (save false (construct {| id := ""; name := "Physics"; faculty := "SC";
                                   is_deleted := false |}) [])
     = Err (ValueError "Use Department.objects.create_department() to create departments")
  /\ fst (create_department "Chemistry" "SC" None [direct])
     = Ok {| id := "0002"; name := "Chemistry"; faculty := "SC"; is_deleted := false |}.
Proof. vm_compute. repeat split. Qed.

(** [save] refuses every instance that has neither a key nor the flag. *)
Lemma save_without_pk (fi : bool) (i : Instance) (t : Table) :
  id (row i) = "" -> id_set_by_manager i = false ->
  save fi i t
  = (Err (ValueError "Use Department.objects.create_department() to create departments"), t).
Proof.
  intros E F. unfold save, pk_truthy. rewrite E, F. reflexivity.
Qed.

(** ** The shape of the allocated ids *)

Lemma ids_in_range_valid (t : Table) :
  Forall (fun d => id_in_range (id d) = true) t -> ids_valid t.
Proof. apply Forall_impl. intros d. apply id_in_range_four_digits. Qed.

Lemma table_ok_ids_in_range (t : Table) :
  table_ok t -> Forall (fun d => id_in_range (id d) = true) t.
Proof.
  apply Forall_impl. intros d H. apply stored_ok_iff in H. apply H.
Qed.

Lemma ids_in_range_next_id (t : Table) (k : Z) :
  Forall (fun d => id_in_range (id d) = true) t -> next_id t = Ok k ->
  INITIAL_ID <= k.
Proof.
  intros I N. pose proof (ids_in_range_valid t I) as V.
  rewrite (next_id_max_active t V) in N.
  assert (k = match max_active_id t with
              | Some m => m + 1
              | None => INITIAL_ID
              end) as -> by congruence.
  destruct (max_active_id t) as [m|] eqn:M; [|lia].
  destruct (max_active_id_bounds t m V M) as (_ & (d & Hd & _ & E) & _).
  rewrite Forall_forall in I. specialize (I d Hd).
  destruct (id_in_range_number _ I) as (n & E' & B & _).
  assert (n = m) by congruence. lia.
Qed.

Lemma four_digits_shape (s : string) :
  four_digits s = true ->
  String.length s = 4%nat /\ Py.all_chars Py.is_digit s = true.
Proof.
  intros H. destruct (four_digits_four s H) as (a & b & c & d & Ha & Hb & Hc & Hd & ->).
  split; [reflexivity|]. unfold four. cbn [Py.all_chars].
  rewrite !digit_char_is_digit by assumption. reflexivity.
Qed.

(** C10. Every id the allocator produces along a run of the application
    from the empty table, and so every stored id, is a string of exactly
    four digits whose number lies between 1000 and 9999.  On any table
    whose ids have this shape a creation that succeeds produces such an
    id again; the row that ordering by id downwards puts first is the
    row a numeric maximum over the active rows selects, no active row
    having a greater number; and parsing an id and formatting the number
    on four zero-padded digits gives the id back. *)
Theorem allocated_ids_shape
  (ops : list Op) (t : Table)
  (I : Forall (fun d => id_in_range (id d) = true) t) :
  (Forall (fun s => id_in_range s = true) (fst (run ops []))
   /\ Forall (fun d => id_in_range (id d) = true) (snd (run ops [])))
  /\ (forall n f x d t', create_department n f x t = (Ok d, t') ->
        id_in_range (id d) = true)
  /\ (first_by_id_desc (filter_is_deleted false t)
      = numeric_max (filter_is_deleted false t)
      /\ forall m, first_by_id_desc (filter_is_deleted false t) = Some m ->
           In m t /\ is_deleted m = false
           /\ forall e, In e t -> is_deleted e = false -> number e <= number m)
  /\ Forall (fun d => String.length (id d) = 4%nat
                      /\ Py.all_chars Py.is_digit (id d) = true
                      /\ exists n, Py.int (id d) = Some n
                                   /\ INITIAL_ID <= n <= MAX_ID
                                   /\ Py.format_04d n = id d) t.
Proof.
  pose proof (ids_in_range_valid t I) as V.
  pose proof (ids_valid_filter false t V) as VA.
  split; [|split; [|split]].
  - destruct (run_inv ops [] (Forall_nil _)) as (T & _ & A). split.
    + eapply Forall_impl; [|exact A]. simpl. intros s H. apply H.
    + apply table_ok_ids_in_range, T.
  - intros n f x d t' C. apply create_department_Ok in C.
    destruct C as (k & N & L & -> & _). simpl.
    apply format_04d_in_range. split; [|exact L].
    apply (ids_in_range_next_id t k I N).
  - split; [apply first_by_id_desc_numeric, VA|].
    intros m E. rewrite (first_by_id_desc_numeric _ VA) in E.
    pose proof (numeric_max_In _ _ E) as Hin.
    unfold filter_is_deleted in Hin. apply filter_In in Hin. destruct Hin as [Hin A].
    split; [exact Hin|]. split; [destruct (is_deleted m); [discriminate A | reflexivity]|].
    intros e He Ae. apply (numeric_max_upper _ _ E). unfold filter_is_deleted.
    apply filter_In. split; [exact He|]. rewrite Ae. reflexivity.
  - eapply Forall_impl; [|exact I]. simpl. intros d H.
    destruct (four_digits_shape _ (id_in_range_four_digits _ H)) as (S1 & S2).
    split; [exact S1|]. split; [exact S2|]. apply id_in_range_number, H.
Qed.

Lemma allocated_ids_shape_witness :
  Forall (fun d => id_in_range (id d) = true) gap_table
  /\ first_by_id_desc (filter_is_deleted false gap_table)
     = Some {| id := "1005"; name := "Finance"; faculty := "MS"; is_deleted := false |}
  /\ Forall (fun s => id_in_range s = true)
            (fst (run (six_requests ++ [OpDestroy "1000"])%list [])).
Proof.
  assert (Forall (fun d => id_in_range (id d) = true) gap_table) as I
    by (rewrite Forall_forall; apply forallb_forall; vm_compute; reflexivity).
  split; [exact I|]. split; [vm_compute; reflexivity|].
  destruct (allocated_ids_shape (six_requests ++ [OpDestroy "1000"])%list gap_table I)
    as ((A & _) & _).
  exact A.
Defined.

(** ** Syllabi: the stored course name *)

Section SyllabusFacts.

Import Courses.

Lemma find_app_new {A : Type} (p : A -> bool) (l : list A) (x : A) :
  existsb p l = false -> p x = true -> find p (l ++ [x]) = Some x.
Proof.
  intros E P. induction l as [|y l IH]; simpl in *.
  - rewrite P. reflexivity.
  - apply orb_false_iff in E. destruct E as [E1 E2]. rewrite E1. apply IH, E2.
Qed.

Lemma find_map_replace {A : Type} (p : A -> bool) (l : list A) (x : A) :
  existsb p l = true -> p x = true ->
  find p (map (fun r => if p r then x else r) l) = Some x.
Proof.
  intros E P. induction l as [|y l IH]; simpl in *; [discriminate|].
  destruct (p y) eqn:Y.
  - rewrite P. reflexivity.
  - rewrite Y. apply IH. exact E.
Qed.

Lemma find_filter {A : Type} (p q : A -> bool) (l : list A) (x : A) :
  find p l = Some x -> q x = true -> find p (filter q l) = Some x.
Proof.
  intros F Q. induction l as [|y l IH]; simpl in *; [discriminate|].
  destruct (p y) eqn:Y.
  - injection F as ->. rewrite Q. simpl. rewrite Y. reflexivity.
  - destruct (q y); simpl; [rewrite Y|]; apply IH, F.
Qed.

Lemma insert_Ok (s s' : Syllabus.t) (k : Z) (db db' : DB) :
  Syllabus.id s = Some k -> insert s db = (Ok s', db') ->
  s' = s /\ get_syllabus k db' = Some s /\ courses db' = courses db.
Proof.
  intros K. unfold insert. rewrite K.
  destruct (existsb (Syllabus.has_id k) (syllabi db)) eqn:E; [discriminate|].
  destruct (pair_taken s (syllabi db)); [discriminate|].
  intros H. injection H as <- <-. split; [reflexivity|]. split; [|reflexivity].
  unfold get_syllabus, with_syllabi. simpl. apply find_app_new; [exact E|].
  unfold Syllabus.has_id. rewrite K. apply Z.eqb_refl.
Qed.

Lemma save_base_Ok (s s' : Syllabus.t) (db db' : DB) :
  save_base s db = (Ok s', db') ->
  Syllabus.course_name s' = Syllabus.course_name s
  /\ Syllabus.course s' = Syllabus.course s
  /\ courses db' = courses db
  /\ exists k, Syllabus.id s' = Some k /\ get_syllabus k db' = Some s'.
Proof.
  unfold save_base. destruct (Syllabus.id s) as [k|] eqn:K.
  - destruct (existsb (Syllabus.has_id k) (syllabi db)) eqn:E.
    + destruct (pair_taken s (syllabi db)); [discriminate|].
      intros H. injection H as <- <-. repeat split.
      exists k. split; [exact K|]. unfold get_syllabus, with_syllabi. simpl.
      apply find_map_replace; [exact E|].
      unfold Syllabus.has_id. rewrite K. apply Z.eqb_refl.
    + intros H. destruct (insert_Ok s s' k db db' K H) as (-> & G & C).
      repeat split; [exact C|]. exists k. auto.
  - intros H.
    destruct (insert_Ok (Syllabus.with_id (next_syllabus_id db) s) s'
                (next_syllabus_id db) (advance db) db' eq_refl H) as (-> & G & C).
    repeat split; [exact C|]. exists (next_syllabus_id db). auto.
Qed.

(** What a successful [Syllabus.save] leaves behind. *)
Lemma save_stores (s s' : Syllabus.t) (c : Course.t) (db db' : DB) :
  get_course (Syllabus.course s) db = Some c ->
  save s db = (Ok s', db') ->
  Syllabus.course_name s' = Course.course_name c
  /\ Syllabus.course s' = Syllabus.course s
  /\ courses db' = courses db
  /\ exists k, Syllabus.id s' = Some k /\ get_syllabus k db' = Some s'.
Proof.
  intros C. unfold save. rewrite C. intros H. apply save_base_Ok in H.
  exact H.
Qed.

Lemma get_course_rename (code new_name : string) (c : Course.t) (db : DB) :
  get_course code db = Some c ->
  option_map Course.course_name (get_course code (rename_course code new_name db))
  = Some new_name.
Proof.
  unfold get_course, rename_course. simpl.
  induction (courses db) as [|x l IH]; simpl; [discriminate|].
  destruct (Course.course_code x =? code)%string eqn:E.
  - intros _. simpl. rewrite E. reflexivity.
  - rewrite E. exact IH.
Qed.

Lemma retrieve_visible (user : User) (k : Z) (s : Syllabus.t) (db : DB) :
  get_syllabus k db = Some s ->
  Syllabus.is_deleted s = false \/ is_authenticated user && is_staff user = true ->
  retrieve user k db = Some (to_representation s).
Proof.
  intros G V. unfold retrieve, get_queryset. unfold get_syllabus in G.
  destruct (is_authenticated user && is_staff user).
  - rewrite G. reflexivity.
  - destruct V as [V|V]; [|discriminate].
    rewrite (find_filter _ _ _ _ G); [reflexivity|]. rewrite V. reflexivity.
Qed.

End SyllabusFacts.

(** C7. A syllabus created for a course is stored with the name the
    course has at that moment: retrieving it returns that name, and
    still returns it after the course has been renamed. *)
Theorem syllabus_course_name_snapshot
  (db db' : Courses.DB) (s s' : Courses.Syllabus.t) (c : Courses.Course.t)
  (new_name : string) (user : User)
  (Hnew : Courses.Syllabus.id s = None)
  (Hc : Courses.get_course (Courses.Syllabus.course s) db = Some c)
  (Hs : Courses.save s db = (Ok s', db'))
  (Hv : Courses.Syllabus.is_deleted s' = false
        \/ is_authenticated user && is_staff user = true) :
  exists k,
    Courses.Syllabus.id s' = Some k
    /\ option_map Courses.r_course_name (Courses.retrieve user k db')
       = Some (Courses.Course.course_name c)
    /\ option_map Courses.r_course_name
         (Courses.retrieve user k
            (Courses.rename_course (Courses.Syllabus.course s) new_name db'))
       = Some (Courses.Course.course_name c).
Proof.
  destruct (save_stores s s' c db db' Hc Hs) as (N & _ & _ & k & K & G).
  exists k. split; [exact K|]. split.
  - rewrite (retrieve_visible user k s' db' G Hv). simpl. f_equal. exact N.
  - rewrite (retrieve_visible user k s'); [simpl; f_equal; exact N | exact G | exact Hv].
Qed.

Lemma syllabus_course_name_snapshot_witness :
  Courses.save first_syllabus one_course = (Ok stored_syllabus, one_syllabus)
  /\ exists k,
       Courses.Syllabus.id stored_syllabus = Some k
       /\ option_map Courses.r_course_name (Courses.retrieve anonymous k one_syllabus)
          = Some "Introduction to Programming"
       /\ option_map Courses.r_course_name (Courses.retrieve anonymous k renamed)
          = Some "Introduction to Programming".
Proof.
  assert (Courses.save first_syllabus one_course = (Ok stored_syllabus, one_syllabus))
    as S by (vm_compute; reflexivity).
  split; [exact S|].
  exact (syllabus_course_name_snapshot one_course one_syllabus first_syllabus
           stored_syllabus intro_course "Programming I" anonymous eq_refl eq_refl S
           (or_introl eq_refl)).
Defined.

(** C9. Every successful save of a syllabus, the first or a later one,
    stores the name its course has at that moment, whatever name the
    instance carried; so a syllabus saved again after its course was
    renamed is stored, and retrieved, with the new name. *)
Theorem syllabus_save_refreshes_course_name
  (db db' db'' : Courses.DB) (s s' u u' : Courses.Syllabus.t)
  (c : Courses.Course.t) (new_name : string)
  (Hc : Courses.get_course (Courses.Syllabus.course s) db = Some c)
  (Hs : Courses.save s db = (Ok s', db'))
  (Hu : Courses.Syllabus.course u = Courses.Syllabus.course s)
  (Hs' : Courses.save u
           (Courses.rename_course (Courses.Syllabus.course s) new_name db')
         = (Ok u', db'')) :
  (Courses.Syllabus.course_name s' = Courses.Course.course_name c
   /\ exists k, Courses.Syllabus.id s' = Some k
        /\ option_map Courses.Syllabus.course_name (Courses.get_syllabus k db')
           = Some (Courses.Course.course_name c))
  /\ (Courses.Syllabus.course_name u' = new_name
      /\ exists k, Courses.Syllabus.id u' = Some k
           /\ option_map Courses.Syllabus.course_name (Courses.get_syllabus k db'')
              = Some new_name).
Proof.
  destruct (save_stores s s' c db db' Hc Hs) as (N & _ & C & k & K & G).
  split.
  - split; [exact N|]. exists k. split; [exact K|]. rewrite G. simpl. f_equal. exact N.
  - assert (Courses.get_course (Courses.Syllabus.course s) db' = Some c) as Hc'
      by (unfold Courses.get_course in *; rewrite C; exact Hc).
    pose proof (get_course_rename _ new_name c db' Hc') as R.
    destruct (Courses.get_course (Courses.Syllabus.course s)
                (Courses.rename_course (Courses.Syllabus.course s) new_name db'))
      as [c'|] eqn:E; [|discriminate R].
    simpl in R. injection R as R. rewrite <- Hu in E, Hs'.
    destruct (save_stores u u' c' _ db'' E Hs') as (N' & _ & _ & k' & K' & G').
    rewrite R in N'.
    split; [exact N'|]. exists k'. split; [exact K'|]. rewrite G'. simpl. f_equal. exact N'.
Qed.

Lemma syllabus_save_refreshes_course_name_witness :
  Courses.save first_syllabus one_course = (Ok stored_syllabus, one_syllabus)
  /\ Courses.save stored_syllabus renamed
     = (Ok (Courses.Syllabus.with_course_name "Programming I" stored_syllabus),
        Courses.with_syllabi
          [Courses.Syllabus.with_course_name "Programming I" stored_syllabus] renamed)
  /\ exists k,
       Courses.Syllabus.id
         (Courses.Syllabus.with_course_name "Programming I" stored_syllabus) = Some k
       /\ option_map Courses.Syllabus.course_name
            (Courses.get_syllabus k
               (Courses.with_syllabi
                  [Courses.Syllabus.with_course_name "Programming I" stored_syllabus]
                  renamed))
          = Some "Programming I".
Proof.
  assert (Courses.save first_syllabus one_course = (Ok stored_syllabus, one_syllabus))
    as S by (vm_compute; reflexivity).
  assert (Courses.save stored_syllabus renamed
          = (Ok (Courses.Syllabus.with_course_name "Programming I" stored_syllabus),
             Courses.with_syllabi
               [Courses.Syllabus.with_course_name "Programming I" stored_syllabus]
               renamed)) as S' by (vm_compute; reflexivity).
  split; [exact S|]. split; [exact S'|].
  destruct (syllabus_save_refreshes_course_name one_course one_syllabus _ first_syllabus
              stored_syllabus stored_syllabus _ intro_course "Programming I"
              eq_refl S eq_refl S') as (_ & _ & E).
  exact E.
Defined.

(** ** Logout *)

(** C8. [LogoutView.post] answers every request with status 200 and the
    message "Logged out successfully": when the refresh token does not
    verify, when blacklisting it raises, when no refresh token is
    supplied and when the request body cannot even be read. *)
Theorem logout_always_succeeds (request : Accounts.Request) (w : Accounts.World) :
  fst (Accounts.post request w) = logged_out.
Proof.
  unfold Accounts.post, Accounts.post_try.
  destruct (Accounts.data request) as [e | | | v]; try reflexivity.
  destruct (Accounts.truthy v); [|reflexivity].
  destruct (Accounts.RefreshToken v w) as [token|e]; [|reflexivity].
  unfold Accounts.blacklist. destruct (Accounts.blacklist_writable w); reflexivity.
Qed.

Example logout_invalid_token :
  Accounts.post
    {| Accounts.data := Accounts.DataMapping (Accounts.PyStr "expired");
       Accounts.REMOTE_ADDR := "10.0.0.1" |}
    {| Accounts.verifies := fun _ => false; Accounts.blacklist_writable := true;
       Accounts.blacklisted := []; Accounts.log := [] |}
  = (logged_out,
     {| Accounts.verifies := fun _ => false; Accounts.blacklist_writable := true;
        Accounts.blacklisted := []; Accounts.log := ["Logout error"] |}).
Proof. reflexivity. Qed.

Example logout_blacklists :
  Accounts.blacklisted
    (snd (Accounts.post
            {| Accounts.data := Accounts.DataMapping (Accounts.PyStr "token");
               Accounts.REMOTE_ADDR := "10.0.0.1" |}
            {| Accounts.verifies := fun _ => true; Accounts.blacklist_writable := true;
               Accounts.blacklisted := []; Accounts.log := [] |}))
  = ["token"].
Proof. reflexivity. Qed.


(** * Further properties of the code *)

(** ** Departments: keys, pairs and validation *)

Lemma save_existing_key (fi : bool) (i i' : Instance) (t t' : Table) :
  exists_pk (id (row i)) t = true -> save fi i t = (Ok i', t') ->
  t' = replace_row (row i) t /\ adding i = false.
Proof.
  intros P S. pose proof (save_Ok _ _ _ _ _ S) as (F & _ & W).
  destruct W as [[_ W] | [W _]]; [|congruence]. split; [exact W|].
  apply full_clean_Ok in F. destruct F as (_ & _ & U & _).
  unfold validate_unique in U. rewrite P in U.
  destruct (adding i); [discriminate U | reflexivity].
Qed.

Lemma save_map_id (fi : bool) (i : Instance) (t : Table) :
  map id (snd (save fi i t)) = map id t
  \/ (exists_pk (id (row i)) t = false
      /\ map id (snd (save fi i t)) = (map id t ++ [id (row i)])%list).
Proof.
  destruct (save fi i t) as [[i'|e] t'] eqn:S; simpl.
  - apply save_Ok in S. destruct S as (_ & _ & [[_ ->] | [P ->]]).
    + left. apply map_id_replace_row.
    + right. split; [exact P|]. rewrite map_app. reflexivity.
  - left. apply save_Err in S. subst t'. reflexivity.
Qed.

Lemma NoDup_snoc {A : Type} (l : list A) (x : A) :
  NoDup l -> ~ In x l -> NoDup (l ++ [x]).
Proof.
  intros N H. induction N as [|y l Hy N IH]; simpl.
  - constructor; [intros []|constructor].
  - constructor.
    + intros C. apply in_app_or in C. destruct C as [C | [C | []]].
      * apply Hy, C.
      * apply H. left. symmetry. exact C.
    + apply IH. intros C. apply H. right. exact C.
Qed.

Lemma save_keys_distinct (fi : bool) (i : Instance) (t : Table) :
  NoDup (map id t) -> NoDup (map id (snd (save fi i t))).
Proof.
  intros N. destruct (save_map_id fi i t) as [-> | [P ->]]; [exact N|].
  apply NoDup_snoc; [exact N|]. intros C. apply exists_pk_In in C. congruence.
Qed.

Lemma create_department_map_id (n f : string) (x : option bool) (t : Table) :
  (exists d, fst (create_department n f x t) = Ok d
             /\ ~ In (id d) (map id t)
             /\ map id (snd (create_department n f x t)) = (map id t ++ [id d])%list)
  \/ ((exists e, fst (create_department n f x t) = Err e)
      /\ snd (create_department n f x t) = t).
Proof.
  destruct (create_department n f x t) as [[d|e] t'] eqn:C; simpl.
  - left. exists d. apply create_department_Ok in C.
    destruct C as (k & _ & _ & _ & _ & P & ->).
    split; [reflexivity|]. split.
    + intros I. apply exists_pk_In in I. congruence.
    + rewrite map_app. reflexivity.
  - right. split; [exists e; reflexivity|]. apply (create_department_Err _ _ _ _ _ _ C).
Qed.

Lemma loaded_save_map_id (pk : string) (d d' : Department) (t : Table) :
  get pk t = Some d -> id d' = id d ->
  map id (snd (save false (from_db d') t)) = map id t.
Proof.
  intros G E. apply get_Some in G. destruct G as (_ & _ & P).
  destruct (save_map_id false (from_db d') t) as [M | [Q _]]; [exact M|].
  simpl in Q. rewrite E in Q. congruence.
Qed.

Lemma run_op_map_id (o : Op) (t : Table) :
  map id (snd (run_op o t))
  = (map id t ++ match fst (run_op o t) with Some s => [s] | None => [] end)%list.
Proof.
  destruct o as [n f | pk n f | pk n f del | pk]; simpl.
  - destruct (create_department_map_id n f None t) as [(d & E & _ & M) | ((e & E) & M)];
      destruct (create_department n f None t) as [[d'|e'] t']; simpl in *;
      try discriminate.
    + injection E as ->. exact M.
    + subst t'. rewrite app_nil_r. reflexivity.
  - destruct (get pk t) as [d|] eqn:G; simpl; rewrite app_nil_r; [|reflexivity].
    rewrite serializer_update_save. apply (loaded_save_map_id pk d _ t G). reflexivity.
  - destruct (get pk t) as [d|] eqn:G; simpl; rewrite app_nil_r; [|reflexivity].
    apply (loaded_save_map_id pk d _ t G). reflexivity.
  - destruct (get pk t) as [d|] eqn:G; simpl; rewrite app_nil_r; [|reflexivity].
    unfold perform_destroy. rewrite delete_soft_save.
    apply (loaded_save_map_id pk d _ t G). reflexivity.
Qed.

(** X1. Whatever the application writes, the ids stored afterwards are
    the ids stored before, in the same order, followed by the ids the
    run allocated: no write changes or removes the id of a stored
    department, and every allocated id is stored. *)
Theorem run_appends_allocated_ids (ops : list Op) (t : Table) :
  map id (snd (run ops t)) = (map id t ++ fst (run ops t))%list.
Proof.
  revert t. induction ops as [|o ops IH]; intros t.
  - simpl. rewrite app_nil_r. reflexivity.
  - rewrite run_cons. simpl. rewrite IH, run_op_map_id, <- app_assoc.
    destruct (fst (run_op o t)); reflexivity.
Qed.

Lemma run_op_keys_distinct (o : Op) (t : Table) :
  NoDup (map id t) -> NoDup (map id (snd (run_op o t))).
Proof.
  intros N. destruct o as [n f | pk n f | pk n f del | pk]; simpl.
  - destruct (create_department_map_id n f None t) as [(d & E & F & M) | ((e & E) & M)];
      destruct (create_department n f None t) as [[d'|e'] t']; simpl in *;
      try discriminate.
    + rewrite M. apply NoDup_snoc; assumption.
    + subst t'. exact N.
  - destruct (get pk t) as [d|]; simpl; [|exact N].
    rewrite serializer_update_save. apply save_keys_distinct, N.
  - destruct (get pk t) as [d|]; simpl; [|exact N]. apply save_keys_distinct, N.
  - destruct (get pk t) as [d|]; simpl; [|exact N].
    unfold perform_destroy. rewrite delete_soft_save. apply save_keys_distinct, N.
Qed.

Lemma run_keys_distinct (ops : list Op) :
  forall t, NoDup (map id t) -> NoDup (map id (snd (run ops t))).
Proof.
  induction ops as [|o ops IH]; intros t K; [exact K|].
  rewrite run_cons. simpl. apply IH, run_op_keys_distinct, K.
Qed.

(** X2. Primary keys stay distinct: on a table whose ids are pairwise
    distinct, [save] of any instance, [create_department] and every run
    of the application's writes leave a table whose ids are pairwise
    distinct. *)
Theorem keys_stay_distinct
  (t : Table) (fi : bool) (i : Instance) (n f : string) (x : option bool)
  (ops : list Op) (K : NoDup (map id t)) :
  NoDup (map id (snd (save fi i t)))
  /\ NoDup (map id (snd (create_department n f x t)))
  /\ NoDup (map id (snd (run ops t))).
Proof.
  split; [apply save_keys_distinct, K|]. split.
  - destruct (create_department_map_id n f x t) as [(d & _ & F & M) | (_ & M)];
      rewrite M; [apply NoDup_snoc; assumption | exact K].
  - apply run_keys_distinct, K.
Qed.

Lemma keys_stay_distinct_witness :
  NoDup (map id [cs; physics])
  /\ NoDup (map id (snd (run [OpCreate "Chemistry" "SC"; OpDestroy "1000";
                              OpUpdate "1001" "Applied Physics" "E&T"] [cs; physics]))).
Proof.
  assert (NoDup (map id [cs; physics])) as K.
  { simpl. constructor; [intros [C | []]; discriminate C|].
    constructor; [intros []|constructor]. }
  split; [exact K|].
  destruct (keys_stay_distinct [cs; physics] false (from_db cs) "Chemistry" "SC" None
              [OpCreate "Chemistry" "SC"; OpDestroy "1000";
               OpUpdate "1001" "Applied Physics" "E&T"] K) as (_ & _ & R).
  exact R.
Defined.

Lemma pair_taken_true (skip : bool) (d : Department) (t : Table) :
  pair_taken skip d t = true <->
  exists e, In e t /\ name e = name d /\ faculty e = faculty d
            /\ is_deleted e = false /\ (skip = true -> id e <> id d).
Proof.
  unfold pair_taken, same_pair, has_pk. rewrite existsb_exists. split.
  - intros (e & He & H). exists e. split; [exact He|].
    apply andb_true_iff in H. destruct H as [H S].
    apply andb_true_iff in H. destruct H as [H A].
    apply andb_true_iff in H. destruct H as [Hn Hf].
    apply String.eqb_eq in Hn. apply String.eqb_eq in Hf.
    apply negb_true_iff in A. apply negb_true_iff in S.
    repeat split; try assumption. intros -> E. simpl in S.
    rewrite E, String.eqb_refl in S. discriminate.
  - intros (e & He & Hn & Hf & A & S). exists e. split; [exact He|].
    rewrite Hn, Hf, A, !String.eqb_refl. simpl.
    destruct skip; [|reflexivity]. simpl. apply negb_true_iff.
    apply String.eqb_neq. apply S. reflexivity.
Qed.

Lemma save_pairs (fi : bool) (i : Instance) (t : Table) :
  active_pairs_unique t -> active_pairs_unique (snd (save fi i t)).
Proof.
  intros U. destruct (save fi i t) as [[i'|err] t'] eqn:S; simpl;
    [|apply save_Err in S; subst t'; exact U].
  pose proof (save_Ok _ _ _ _ _ S) as (F & _ & W).
  apply full_clean_Ok in F. destruct F as (_ & _ & _ & C).
  unfold validate_constraints in C.
  destruct (negb (is_deleted (row i)) && pair_taken (negb (adding i)) (row i) t) eqn:B;
    [discriminate C|]. clear C.
  assert (forall e, In e t -> is_deleted e = false -> is_deleted (row i) = false ->
                    name e = name (row i) -> faculty e = faculty (row i) ->
                    id e <> id (row i) -> False) as Free.
  { intros e He Ae Ad Hn Hf Hid. rewrite Ad in B. simpl in B.
    assert (pair_taken (negb (adding i)) (row i) t = true) as T; [|congruence].
    apply pair_taken_true. exists e.
    split; [exact He|]. split; [exact Hn|]. split; [exact Hf|].
    split; [exact Ae|]. intros _. exact Hid. }
  destruct W as [[P ->] | [P ->]].
  - intros d e Hd He Ad Ae Hn Hf.
    apply replace_row_In in Hd. apply replace_row_In in He.
    destruct Hd as [-> | [Hd Nd]]; destruct He as [-> | [He Ne]].
    + reflexivity.
    + exfalso. apply (Free e He Ae Ad); [congruence | congruence | exact Ne].
    + exfalso. apply (Free d Hd Ad Ae); [congruence | congruence | exact Nd].
    + apply (U d e); assumption.
  - assert (forall e, In e t -> id e <> id (row i)) as Fresh.
    { intros e He E. assert (exists_pk (id (row i)) t = true); [|congruence].
      apply exists_pk_In. rewrite <- E. apply in_map, He. }
    intros d e Hd He Ad Ae Hn Hf.
    apply in_app_or in Hd. apply in_app_or in He.
    destruct Hd as [Hd | [<- | []]]; destruct He as [He | [<- | []]].
    + apply (U d e); assumption.
    + exfalso. apply (Free d Hd Ad Ae); [congruence | congruence | apply Fresh, Hd].
    + exfalso. apply (Free e He Ae Ad); [congruence | congruence | apply Fresh, He].
    + reflexivity.
Qed.

Lemma create_department_pairs (n f : string) (x : option bool) (t : Table) :
  active_pairs_unique t -> active_pairs_unique (snd (create_department n f x t)).
Proof.
  intros U. unfold create_department. destruct (next_id t) as [k|e]; [|exact U].
  destruct (k >? MAX_ID); [exact U|]. unfold create.
  pose proof (save_pairs true
                (construct {| id := Py.format_04d k; name := n; faculty := f;
                              is_deleted := extra_is_deleted x |}) t U) as S.
  destruct (save true _ t) as [[i'|err] t']; exact S.
Qed.

Lemma run_op_pairs (o : Op) (t : Table) :
  active_pairs_unique t -> active_pairs_unique (snd (run_op o t)).
Proof.
  intros U. destruct o as [n f | pk n f | pk n f del | pk]; simpl.
  - pose proof (create_department_pairs n f None t U) as S.
    destruct (create_department n f None t) as [[d|e] t']; exact S.
  - destruct (get pk t) as [d|]; simpl; [|exact U].
    rewrite serializer_update_save. apply save_pairs, U.
  - destruct (get pk t) as [d|]; simpl; [|exact U]. apply save_pairs, U.
  - destruct (get pk t) as [d|]; simpl; [|exact U].
    unfold perform_destroy. rewrite delete_soft_save. apply save_pairs, U.
Qed.

Lemma same_key_same_row (t : Table) (d e : Department) :
  NoDup (map id t) -> In d t -> In e t -> id d = id e -> d = e.
Proof.
  induction t as [|x t IH]; simpl; intros N Hd He E; [contradiction|].
  inversion N as [|? ? Hx N']. subst.
  destruct Hd as [-> | Hd]; destruct He as [-> | He].
  - reflexivity.
  - exfalso. apply Hx. rewrite E. apply in_map, He.
  - exfalso. apply Hx. rewrite <- E. apply in_map, Hd.
  - apply IH; assumption.
Qed.

(** X3. Among the departments that are not deleted, (name, faculty)
    pairs are unique and stay so: [save] of any instance,
    [create_department] and every run of the application's writes
    (creations, updates, soft deletions, restorations through the admin
    form) keep the property, and with distinct keys two active rows with
    the same pair are the same row. *)
Theorem active_pairs_stay_unique
  (t : Table) (fi : bool) (i : Instance) (n f : string) (x : option bool)
  (ops : list Op)
  (K : NoDup (map id t)) (U : active_pairs_unique t) :
  active_pairs_unique (snd (save fi i t))
  /\ active_pairs_unique (snd (create_department n f x t))
  /\ (forall d e, In d (snd (run ops t)) -> In e (snd (run ops t)) ->
        is_deleted d = false -> is_deleted e = false ->
        name d = name e -> faculty d = faculty e -> d = e).
Proof.
  split; [apply save_pairs, U|]. split; [apply create_department_pairs, U|].
  assert (active_pairs_unique (snd (run ops t))) as R.
  { clear K. revert t U. induction ops as [|o ops IH]; intros t U; [exact U|].
    rewrite run_cons. simpl. apply IH, run_op_pairs, U. }
  pose proof (run_keys_distinct ops t K) as N.
  intros d e Hd He Ad Ae Hn Hf.
  apply (same_key_same_row _ d e N Hd He). apply (R d e); assumption.
Qed.

Lemma active_pairs_stay_unique_witness :
  NoDup (map id ([] : Table)) /\ active_pairs_unique []
  /\ (forall d e,
        In d (snd (run (six_requests ++ [OpUpdate "1001" "Computer Science" "I&C"]) []))
        -> In e (snd (run (six_requests ++ [OpUpdate "1001" "Computer Science" "I&C"]) []))
        -> is_deleted d = false -> is_deleted e = false ->
        name d = name e -> faculty d = faculty e -> d = e)
  /\ get "1001" (snd (run (six_requests ++ [OpUpdate "1001" "Computer Science" "I&C"]) []))
     = Some physics.
Proof.
  assert (active_pairs_unique []) as U by (intros d e []).
  split; [constructor|]. split; [exact U|].
  destruct (active_pairs_stay_unique [] false (from_db cs) "Physics" "SC" None
              (six_requests ++ [OpUpdate "1001" "Computer Science" "I&C"])
              (NoDup_nil _) U) as (_ & _ & R).
  split; [exact R | vm_compute; reflexivity].
Defined.

(** X4. A second active department with the pair of an active one is
    refused: on a table of valid rows the manager fails and writes
    nothing, either because the next id would exceed 9999 or on
    validation, where the errors name the constraint
    [unique_active_name_faculty]. *)
Theorem duplicate_department_refused (t : Table) (e : Department)
  (T : table_ok t) (He : In e t) (A : is_deleted e = false) :
  exists err,
    create_department (name e) (faculty e) None t = (Err err, t)
    /\ (err = ValueError "Department ID cannot exceed 9999"
        \/ exists errors, err = ValidationError errors
                          /\ In "unique_active_name_faculty" errors).
Proof.
  pose proof (table_ok_ids_valid t T) as V.
  pose proof (next_id_max_active t V) as N.
  destruct (max_active_id t) as [m|] eqn:M.
  - destruct (max_active_id_bounds t m V M) as (B & _ & _).
    unfold create_department. rewrite N.
    destruct (Z.gtb_spec (m + 1) MAX_ID) as [G|L].
    + eexists. split; [reflexivity | left; reflexivity].
    + set (d := {| id := Py.format_04d (m + 1); name := name e; faculty := faculty e;
                   is_deleted := extra_is_deleted None |}).
      destruct (format_04d_four_digits (m + 1)) as (D & _);
        [unfold MAX_ID in L; lia|].
      assert (four_digits (id d) = true) as D' by exact D.
      unfold table_ok in T. rewrite Forall_forall in T.
      pose proof (proj1 (stored_ok_iff e) (T e He)) as (_ & Cn & Cf).
      unfold create, save. cbn [row construct id_set_by_manager].
      rewrite (four_digits_pk_truthy d D'). cbn [negb andb].
      unfold full_clean. cbn [row construct]. rewrite (clean_four_digits d D').
      assert (clean_fields d = []) as F
        by (apply clean_fields_nil; auto using four_digits_clean_id).
      rewrite F. cbn [mentions existsb orb app].
      assert (validate_constraints (construct d) t = ["unique_active_name_faculty"]) as K.
      { unfold validate_constraints. cbn [row construct adding negb is_deleted d].
        assert (pair_taken false d t = true) as P.
        { apply pair_taken_true. exists e. repeat split; try assumption. discriminate. }
        change (extra_is_deleted None) with false. cbn [negb andb].
        rewrite P. reflexivity. }
      rewrite K.
      set (errors := (validate_unique (construct d) t
                      ++ ["unique_active_name_faculty"])%list).
      assert (In "unique_active_name_faculty" errors) as I
        by (apply in_or_app; right; left; reflexivity).
      destruct errors as [|x l]; [destruct I|].
      eexists. split; [reflexivity|]. right. exists (x :: l). split; [reflexivity|exact I].
  - exfalso. apply (max_active_id_None t V) in M.
    assert (In e (filter_is_deleted false t)) as I.
    { apply filter_In. split; [exact He|]. rewrite A. reflexivity. }
    rewrite M in I. destruct I.
Qed.

Lemma duplicate_department_refused_witness :
  table_ok [cs; physics] /\ In cs [cs; physics] /\ is_deleted cs = false
  /\ exists err,
       create_department "Computer Science" "I&C" None [cs; physics]
       = (Err err, [cs; physics])
       /\ (err = ValueError "Department ID cannot exceed 9999"
           \/ exists errors, err = ValidationError errors
                             /\ In "unique_active_name_faculty" errors).
Proof.
  assert (table_ok [cs; physics]) as T.
  { unfold table_ok. rewrite Forall_forall. apply forallb_forall.
    vm_compute. reflexivity. }
  split; [exact T|]. split; [left; reflexivity|]. split; [reflexivity|].
  exact (duplicate_department_refused [cs; physics] cs T (or_introl eq_refl) eq_refl).
Defined.

(** X5. [save] stores validated rows only: when it succeeds for an
    instance that does not carry the manager flag, the row is stored
    as given, its id is four digits, its name is non-empty, made of
    letters, spaces and '&' and at most 50 long, and its faculty is one
    of the choices; so a table of valid rows stays one. *)
Theorem save_stores_valid_rows
  (fi : bool) (i i' : Instance) (t t' : Table)
  (Hflag : id_set_by_manager i = false)
  (S : save fi i t = (Ok i', t')) :
  row i' = row i /\ In (row i) t' /\ row_valid (row i) = true
  /\ (Forall (fun d => row_valid d = true) t ->
      Forall (fun d => row_valid d = true) t').
Proof.
  pose proof (save_Ok _ _ _ _ _ S) as (F & R & W).
  apply full_clean_Ok in F. destruct F as (F & _).
  apply clean_fields_nil in F. destruct F as (F1 & F2 & F3).
  assert (row_valid (row i) = true) as V.
  { apply row_valid_iff. split; [|auto]. unfold save in S.
    rewrite Hflag in S. unfold pk_truthy in S.
    destruct (id (row i) =? "")%string eqn:E; [discriminate S|].
    unfold clean_id in F1. rewrite E in F1. exact F1. }
  split; [exact R|]. split; [|split; [exact V|]].
  - destruct W as [[P ->] | [_ ->]].
    + apply exists_pk_In in P. apply in_map_iff in P. destruct P as (e & E & He).
      apply (In_replace_row _ e); assumption.
    + apply in_or_app. right. left. reflexivity.
  - intros A. destruct W as [[_ ->] | [_ ->]].
    + apply Forall_replace_row; assumption.
    + apply Forall_app. split; [exact A|]. constructor; [exact V|constructor].
Qed.

Lemma save_stores_valid_rows_witness :
  id_set_by_manager (from_db (set_name_faculty "Applied Physics" "E&T" physics)) = false
  /\ save false (from_db (set_name_faculty "Applied Physics" "E&T" physics)) [cs; physics]
     = (Ok (from_db (set_name_faculty "Applied Physics" "E&T" physics)),
        [cs; set_name_faculty "Applied Physics" "E&T" physics])
  /\ row_valid (set_name_faculty "Applied Physics" "E&T" physics) = true.
Proof.
  assert (save false (from_db (set_name_faculty "Applied Physics" "E&T" physics))
            [cs; physics]
          = (Ok (from_db (set_name_faculty "Applied Physics" "E&T" physics)),
             [cs; set_name_faculty "Applied Physics" "E&T" physics])) as S
    by (vm_compute; reflexivity).
  split; [reflexivity|]. split; [exact S|].
  destruct (save_stores_valid_rows false
              (from_db (set_name_faculty "Applied Physics" "E&T" physics)) _
              [cs; physics] _ eq_refl S) as (_ & _ & V & _).
  exact V.
Defined.

(** ** Departments: deleting twice, the serializer and the listing *)

Lemma replace_row_twice (d : Department) (t : Table) :
  replace_row d (replace_row d t) = replace_row d t.
Proof.
  unfold replace_row. rewrite map_map. apply map_ext. intros e.
  destruct (has_pk (id d) e) eqn:P; [|rewrite P; reflexivity].
  unfold has_pk. rewrite String.eqb_refl. reflexivity.
Qed.

(** X6. Soft deletion is idempotent: deleting a stored, valid
    department a second time succeeds again and leaves the table exactly
    as the first deletion left it. *)
Theorem soft_delete_twice
  (t : Table) (d : Department)
  (V : row_valid d = true) (Hin : In d t) :
  perform_destroy d t = (Ok tt, snd (perform_destroy d t))
  /\ perform_destroy (set_is_deleted true d) (snd (perform_destroy d t))
     = (Ok tt, snd (perform_destroy d t)).
Proof.
  rewrite (perform_destroy_succeeds t d V Hin). simpl snd. split; [reflexivity|].
  rewrite perform_destroy_succeeds.
  - change (set_is_deleted true (set_is_deleted true d)) with (set_is_deleted true d).
    rewrite replace_row_twice. reflexivity.
  - apply row_valid_iff in V. apply row_valid_iff. exact V.
  - apply (In_replace_row _ d); [exact Hin | reflexivity].
Qed.

Lemma soft_delete_twice_witness :
  row_valid cs = true /\ In cs [cs; physics]
  /\ perform_destroy (set_is_deleted true cs) (snd (perform_destroy cs [cs; physics]))
     = (Ok tt, [set_is_deleted true cs; physics]).
Proof.
  assert (row_valid cs = true) as V by (vm_compute; reflexivity).
  split; [exact V|]. split; [left; reflexivity|].
  destruct (soft_delete_twice [cs; physics] cs V (or_introl eq_refl)) as (_ & E).
  exact E.
Defined.

(** X7. [DepartmentSerializer.create] answers as the manager does,
    except that a manager [ValueError] reaches the caller as a
    validation error with the same message: it never raises
    [ValueError], it returns a department exactly when the manager
    does and leaves the table the manager leaves; at capacity the
    answer is the validation error "Department ID cannot exceed 9999"
    and nothing is stored. *)
Theorem serializer_create_maps_value_error (n f : string) (t : Table) :
  (forall msg, fst (serializer_create n f t) <> Err (ValueError msg))
  /\ snd (serializer_create n f t) = snd (create_department n f None t)
  /\ (forall d, fst (serializer_create n f t) = Ok d
                <-> fst (create_department n f None t) = Ok d)
  /\ (ids_valid t -> max_active_id t = Some MAX_ID ->
      serializer_create n f t
      = (Err (ValidationError ["Department ID cannot exceed 9999"]), t)).
Proof.
  unfold serializer_create. split; [|split; [|split]].
  - intros msg. destruct (create_department n f None t) as [[d|[m|l|c|]] t'];
      simpl; discriminate.
  - destruct (create_department n f None t) as [[d|[m|l|c|]] t']; reflexivity.
  - intros d. destruct (create_department n f None t) as [[d'|[m|l|c|]] t'];
      simpl; split; intros H; try discriminate H; exact H.
  - intros V M. unfold create_department.
    rewrite (next_id_max_active t V), M. reflexivity.
Qed.

Lemma serializer_create_maps_value_error_witness :
  ids_valid [{| id := "9999"; name := "Music"; faculty := "LAMS"; is_deleted := false |}]
  /\ serializer_create "Physics" "SC"
       [{| id := "9999"; name := "Music"; faculty := "LAMS"; is_deleted := false |}]
     = (Err (ValidationError ["Department ID cannot exceed 9999"]),
        [{| id := "9999"; name := "Music"; faculty := "LAMS"; is_deleted := false |}]).
Proof.
  assert (ids_valid [{| id := "9999"; name := "Music"; faculty := "LAMS";
                        is_deleted := false |}]) as V by (repeat constructor).
  split; [exact V|].
  destruct (serializer_create_maps_value_error "Physics" "SC"
              [{| id := "9999"; name := "Music"; faculty := "LAMS";
                  is_deleted := false |}]) as (_ & _ & _ & C).
  exact (C V eq_refl).
Defined.

Lemma leb_four_digits (d e : Department) :
  four_digits (id d) = true -> four_digits (id e) = true ->
  (id d <=? id e)%string = (number d <=? number e).
Proof.
  intros Hd He.
  destruct (number_four_digits d Hd) as (Ed & _ & _).
  destruct (number_four_digits e He) as (Ee & _ & _).
  unfold String.leb, Z.leb.
  rewrite (compare_four_digits _ _ _ _ Hd He Ed Ee). reflexivity.
Qed.

Lemma insert_by_id_perm (d : Department) (t : Table) :
  Permutation (insert_by_id d t) (d :: t).
Proof.
  induction t as [|e t IH]; simpl; [apply Permutation_refl|].
  destruct (id d <=? id e)%string; [apply Permutation_refl|].
  eapply Permutation_trans; [apply perm_skip, IH | apply perm_swap].
Qed.

Lemma order_by_id_perm (t : Table) : Permutation (order_by_id t) t.
Proof.
  unfold order_by_id. induction t as [|d t IH]; simpl; [constructor|].
  eapply Permutation_trans; [apply insert_by_id_perm | apply perm_skip, IH].
Qed.

Lemma insert_by_id_sorted (d : Department) (t : Table) :
  four_digits (id d) = true -> ids_valid t ->
  StronglySorted by_number t -> StronglySorted by_number (insert_by_id d t).
Proof.
  intros Hd V S. induction S as [|e t S IH F]; simpl.
  - constructor; constructor.
  - inversion V as [|? ? He V']. subst.
    rewrite (leb_four_digits d e Hd He).
    destruct (Z.leb_spec (number d) (number e)) as [L|L].
    + constructor; [constructor; assumption|].
      constructor; [exact L|].
      eapply Forall_impl; [|exact F]. unfold by_number. intros x Hx. lia.
    + constructor; [apply IH, V'|].
      rewrite Forall_forall. intros x Hx. apply insert_by_id_In in Hx.
      destruct Hx as [-> | Hx]; [unfold by_number; lia|].
      rewrite Forall_forall in F. apply F, Hx.
Qed.

Lemma ids_valid_insert (d : Department) (t : Table) :
  four_digits (id d) = true -> ids_valid t -> ids_valid (insert_by_id d t).
Proof.
  unfold ids_valid. rewrite !Forall_forall. intros Hd V x Hx.
  apply insert_by_id_In in Hx. destruct Hx as [-> | Hx]; auto.
Qed.

Lemma order_by_id_sorted (t : Table) :
  ids_valid t -> ids_valid (order_by_id t) /\ StronglySorted by_number (order_by_id t).
Proof.
  unfold order_by_id. induction 1 as [|d t Hd V IH]; simpl.
  - split; constructor.
  - destruct IH as [V' S]. split.
    + apply ids_valid_insert; assumption.
    + apply insert_by_id_sorted; assumption.
Qed.

Lemma StronglySorted_filter {A : Type} (R : A -> A -> Prop) (p : A -> bool) (l : list A) :
  StronglySorted R l -> StronglySorted R (filter p l).
Proof.
  induction 1 as [|x l S IH F]; simpl; [constructor|].
  destruct (p x); [|exact IH]. constructor; [exact IH|].
  rewrite Forall_forall in *. intros y Hy. apply filter_In in Hy. apply F, Hy.
Qed.

Lemma Permutation_filter {A : Type} (p : A -> bool) (l l' : list A) :
  Permutation l l' -> Permutation (filter p l) (filter p l').
Proof.
  induction 1 as [|x l l' P IH|x y l|l l' l'' P1 IH1 P2 IH2]; simpl.
  - constructor.
  - destruct (p x); [apply perm_skip|]; exact IH.
  - destruct (p x), (p y); try apply Permutation_refl. apply perm_swap.
  - eapply Permutation_trans; eassumption.
Qed.

(** X8. [DepartmentViewSet.get_queryset] returns to a staff caller
    every stored department and to any other caller exactly the
    departments that are not deleted, each as often as it is stored,
    and in both cases in ascending order of id. *)
Theorem get_queryset_listing (user : User) (t : Table) (V : ids_valid t) :
  (forall e, In e (get_queryset user t)
             <-> In e t /\ (is_authenticated user && is_staff user = true
                            \/ is_deleted e = false))
  /\ Permutation (get_queryset user t)
       (if is_authenticated user && is_staff user then t
        else filter_is_deleted false t)
  /\ StronglySorted by_number (get_queryset user t).
Proof.
  destruct (order_by_id_sorted t V) as [_ S].
  unfold get_queryset, queryset.
  destruct (is_authenticated user && is_staff user).
  - split; [|split; [apply order_by_id_perm | exact S]].
    intros e. rewrite order_by_id_In. intuition.
  - split; [|split].
    + intros e. unfold filter_is_deleted. rewrite filter_In, order_by_id_In.
      destruct (is_deleted e); simpl; intuition discriminate.
    + apply Permutation_filter, order_by_id_perm.
    + apply StronglySorted_filter, S.
Qed.

Lemma get_queryset_listing_witness :
  ids_valid gap_table
  /\ map id (get_queryset anonymous gap_table) = ["1001"; "1002"; "1003"; "1004"; "1005"]
  /\ StronglySorted by_number (get_queryset anonymous gap_table).
Proof.
  assert (ids_valid gap_table) as V
    by (unfold ids_valid; rewrite Forall_forall; apply forallb_forall;
        vm_compute; reflexivity).
  split; [exact V|]. split; [vm_compute; reflexivity|].
  destruct (get_queryset_listing anonymous gap_table V) as (_ & _ & S).
  exact S.
Defined.

(** X9. [DepartmentSerializer.update] on a stored department with a
    valid new name and faculty changes the name and the faculty of that
    row and nothing else, id and deletion flag included, unless the
    department is active and another active department holds the new
    pair; then it fails on the constraint and the table is left as it
    was.  A deleted department is renamed without that check. *)
Theorem serializer_update_outcome
  (t : Table) (d : Department) (n f : string)
  (Hin : In d t) (Hid : four_digits (id d) = true)
  (Hn : clean_name n = true) (Hf : clean_faculty f = true) :
  serializer_update d n f t
  = if negb (is_deleted d) && pair_taken true (set_name_faculty n f d) t
    then (Err (ValidationError ["unique_active_name_faculty"]), t)
    else (Ok {| id := id d; name := n; faculty := f; is_deleted := is_deleted d |},
          replace_row (set_name_faculty n f d) t).
Proof.
  assert (exists_pk (id d) t = true) as P by (apply exists_pk_In, in_map, Hin).
  destruct (negb (is_deleted d) && pair_taken true (set_name_faculty n f d) t) eqn:B.
  - assert (four_digits (id (set_name_faculty n f d)) = true) as Hid' by exact Hid.
    assert (clean_fields (set_name_faculty n f d) = []) as CF
      by (apply clean_fields_nil; simpl; auto using four_digits_clean_id).
    unfold serializer_update, save.
    cbn [row id_set_by_manager from_db].
    rewrite (four_digits_pk_truthy _ Hid'). cbn [negb andb].
    unfold full_clean. cbn [row from_db].
    rewrite CF, (clean_four_digits _ Hid').
    unfold validate_constraints, validate_unique, mentions.
    cbn [row adding from_db existsb orb negb andb app].
    change (is_deleted (set_name_faculty n f d)) with (is_deleted d).
    rewrite B. reflexivity.
  - unfold serializer_update. rewrite save_existing; [reflexivity| |exact P|exact B].
    apply row_valid_iff. simpl. auto.
Qed.

Lemma serializer_update_outcome_witness :
  In physics [cs; physics] /\ four_digits (id physics) = true
  /\ clean_name "Computer Science" = true /\ clean_faculty "I&C" = true
  /\ serializer_update physics "Computer Science" "I&C" [cs; physics]
     = (Err (ValidationError ["unique_active_name_faculty"]), [cs; physics])
  /\ serializer_update (set_is_deleted true physics) "Computer Science" "I&C"
       [cs; set_is_deleted true physics]
     = (Ok {| id := "1001"; name := "Computer Science"; faculty := "I&C";
              is_deleted := true |},
        [cs; {| id := "1001"; name := "Computer Science"; faculty := "I&C";
                is_deleted := true |}]).
Proof.
  split; [right; left; reflexivity|]. split; [reflexivity|].
  split; [reflexivity|]. split; [reflexivity|]. split.
  - exact (serializer_update_outcome [cs; physics] physics "Computer Science" "I&C"
             (or_intror (or_introl eq_refl)) eq_refl eq_refl eq_refl).
  - exact (serializer_update_outcome [cs; set_is_deleted true physics]
             (set_is_deleted true physics) "Computer Science" "I&C"
             (or_intror (or_introl eq_refl)) eq_refl eq_refl eq_refl).
Defined.

(** X10. The faculty column accepts exactly the values of the [Faculty]
    enumeration: a string passes the field's validation if and only if
    it is the value of a member, and the members' values are pairwise
    distinct. *)
Theorem faculty_column_accepts_enum (s : string) :
  (clean_faculty s = true <-> exists m, Faculty_value m = s)
  /\ NoDup Faculty_choices.
Proof.
  split.
  - split.
    + unfold clean_faculty. intros H.
      apply andb_true_iff in H. destruct H as [H _].
      apply andb_true_iff in H. destruct H as [_ H].
      apply existsb_exists in H. destruct H as (v & Hv & E).
      apply String.eqb_eq in E. subst v. unfold Faculty_choices in Hv.
      apply in_map_iff in Hv. destruct Hv as (m & E & _). exists m. exact E.
    + intros (m & <-). destruct m; reflexivity.
  - unfold Faculty_choices, Faculty_members. simpl.
    repeat (constructor; [simpl; intuition discriminate|]). constructor.
Qed.

(** ** Syllabi: keys, versions and soft deletion *)

Section SyllabusInvariant.

Import Courses.

Lemma has_id_Some (k : Z) (r : Syllabus.t) :
  Syllabus.has_id k r = true <-> Syllabus.id r = Some k.
Proof.
  unfold Syllabus.has_id. destruct (Syllabus.id r) as [j|]; split; intros H;
    try discriminate.
  - apply Z.eqb_eq in H. congruence.
  - injection H as ->. apply Z.eqb_refl.
Qed.

Lemma no_id_not_In (k : Z) (rows : list Syllabus.t) :
  existsb (Syllabus.has_id k) rows = false <-> ~ In (Some k) (map Syllabus.id rows).
Proof.
  split.
  - intros E C. apply in_map_iff in C. destruct C as (r & Hr & Hin).
    assert (existsb (Syllabus.has_id k) rows = true); [|congruence].
    apply existsb_exists. exists r. split; [exact Hin | apply has_id_Some, Hr].
  - intros N. destruct (existsb (Syllabus.has_id k) rows) eqn:E; [|reflexivity].
    exfalso. apply N. apply existsb_exists in E. destruct E as (r & Hin & Hr).
    apply has_id_Some in Hr. rewrite <- Hr. apply in_map, Hin.
Qed.

Lemma pair_taken_false (s : Syllabus.t) (k : Z) (rows : list Syllabus.t) (r : Syllabus.t) :
  Syllabus.id s = Some k -> pair_taken s rows = false -> In r rows ->
  Syllabus.course r = Syllabus.course s -> Syllabus.version r = Syllabus.version s ->
  Syllabus.id r = Some k.
Proof.
  intros K P Hr Hc Hv. unfold pair_taken in P. rewrite K in P.
  destruct (Syllabus.has_id k r) eqn:H; [apply has_id_Some, H|].
  assert (existsb (fun r0 => (Syllabus.course r0 =? Syllabus.course s)%string
                             && (Syllabus.version r0 =? Syllabus.version s)%string
                             && negb (Syllabus.has_id k r0)) rows = true); [|congruence].
  apply existsb_exists. exists r. split; [exact Hr|].
  rewrite Hc, Hv, H, !String.eqb_refl. reflexivity.
Qed.

Lemma insert_consistent (s s' : Syllabus.t) (k : Z) (db db' : DB) :
  Syllabus.id s = Some k -> syllabi_consistent (syllabi db) ->
  insert s db = (Ok s', db') -> syllabi_consistent (syllabi db').
Proof.
  intros K (A & N & U). unfold insert. rewrite K.
  destruct (existsb (Syllabus.has_id k) (syllabi db)) eqn:E; [discriminate|].
  destruct (pair_taken s (syllabi db)) eqn:P; [discriminate|].
  intros H. injection H as _ <-. simpl.
  apply no_id_not_In in E. split; [|split].
  - apply Forall_app. split; [exact A|]. constructor; [congruence|constructor].
  - rewrite map_app. simpl. rewrite K. apply NoDup_snoc; assumption.
  - intros r1 r2 H1 H2 Hc Hv.
    apply in_app_or in H1. apply in_app_or in H2.
    destruct H1 as [H1 | [<- | []]]; destruct H2 as [H2 | [<- | []]].
    + apply U; assumption.
    + exfalso. apply E. rewrite <- (pair_taken_false s k _ r1 K P H1 Hc Hv).
      apply in_map, H1.
    + exfalso. apply E.
      rewrite <- (pair_taken_false s k _ r2 K P H2 (eq_sym Hc) (eq_sym Hv)).
      apply in_map, H2.
    + reflexivity.
Qed.

Lemma save_base_consistent (s : Syllabus.t) (db : DB) :
  syllabi_consistent (syllabi db) -> syllabi_consistent (syllabi (snd (save_base s db))).
Proof.
  intros C. unfold save_base. destruct (Syllabus.id s) as [k|] eqn:K.
  - destruct (existsb (Syllabus.has_id k) (syllabi db)) eqn:E.
    + destruct (pair_taken s (syllabi db)) eqn:P; [exact C|]. simpl.
      destruct C as (A & N & U). split; [|split].
      * rewrite Forall_forall in *. intros r Hr. apply in_map_iff in Hr.
        destruct Hr as (r0 & <- & H0).
        destruct (Syllabus.has_id k r0); [congruence | apply A, H0].
      * rewrite map_map.
        replace (map (fun x => Syllabus.id (if Syllabus.has_id k x then s else x))
                     (syllabi db)) with (map Syllabus.id (syllabi db)); [exact N|].
        apply map_ext. intros r. destruct (Syllabus.has_id k r) eqn:H; [|reflexivity].
        apply has_id_Some in H. congruence.
      * intros r1 r2 H1 H2 Hc Hv.
        apply in_map_iff in H1. destruct H1 as (x1 & <- & H1).
        apply in_map_iff in H2. destruct H2 as (x2 & <- & H2).
        destruct (Syllabus.has_id k x1) eqn:I1; destruct (Syllabus.has_id k x2) eqn:I2.
        -- reflexivity.
        -- pose proof (pair_taken_false s k _ x2 K P H2 (eq_sym Hc) (eq_sym Hv)) as X.
           apply has_id_Some in X. congruence.
        -- pose proof (pair_taken_false s k _ x1 K P H1 Hc Hv) as X.
           apply has_id_Some in X. congruence.
        -- apply U; assumption.
    + destruct (insert s db) as [[s'|e] db'] eqn:I; simpl.
      * apply (insert_consistent s s' k db db' K C I).
      * unfold insert in I. rewrite K, E in I.
        destruct (pair_taken s (syllabi db));
          [injection I as _ <-; exact C | discriminate I].
  - destruct (insert (Syllabus.with_id (next_syllabus_id db) s) (advance db))
      as [[s'|e] db'] eqn:I; simpl.
    + apply (insert_consistent (Syllabus.with_id (next_syllabus_id db) s) s'
               (next_syllabus_id db) (advance db) db' eq_refl C I).
    + unfold insert in I. simpl in I.
      destruct (existsb (Syllabus.has_id (next_syllabus_id db)) (syllabi db));
        [injection I as _ <-; exact C|].
      destruct (pair_taken (Syllabus.with_id (next_syllabus_id db) s) (syllabi db));
        [injection I as _ <-; exact C | discriminate I].
Qed.

Lemma save_consistent (s : Syllabus.t) (db : DB) :
  syllabi_consistent (syllabi db) -> syllabi_consistent (syllabi (snd (save s db))).
Proof.
  intros C. unfold save. destruct (get_course (Syllabus.course s) db); [|exact C].
  apply save_base_consistent, C.
Qed.

End SyllabusInvariant.

(** X11. The stored syllabi keep their shape under [Syllabus.save]:
    every stored row has a key, keys are distinct, and no two stored
    rows have the same course and version, after any sequence of saves
    (new instances and changed ones alike) on a table that was so
    before, in particular an empty one. *)
Theorem syllabus_versions_stay_unique
  (instances : list Courses.Syllabus.t) (db : Courses.DB)
  (C : syllabi_consistent (Courses.syllabi db)) :
  syllabi_consistent (Courses.syllabi (save_all instances db)).
Proof.
  unfold save_all. revert db C. induction instances as [|s l IH]; intros db C;
    [exact C|].
  simpl. apply IH, save_consistent, C.
Qed.

Lemma syllabus_versions_stay_unique_witness :
  syllabi_consistent (Courses.syllabi one_course)
  /\ Courses.syllabi (save_all [first_syllabus; first_syllabus; second_syllabus] one_course)
     = [stored_syllabus;
        Courses.Syllabus.with_course_name "Introduction to Programming"
          (Courses.Syllabus.with_id 3 second_syllabus)]
  /\ syllabi_consistent
       (Courses.syllabi
          (save_all [first_syllabus; first_syllabus; second_syllabus] one_course)).
Proof.
  assert (syllabi_consistent (Courses.syllabi one_course)) as C.
  { split; [constructor|]. split; [constructor|]. intros r1 r2 []. }
  split; [exact C|]. split; [vm_compute; reflexivity|].
  exact (syllabus_versions_stay_unique
           [first_syllabus; first_syllabus; second_syllabus] one_course C).
Defined.

Section SyllabusWrites.

Import Courses.

Lemma find_none_all {A : Type} (p : A -> bool) (l : list A) :
  (forall x, In x l -> p x = false) -> find p l = None.
Proof.
  induction l as [|y l IH]; simpl; intros H; [reflexivity|].
  rewrite (H y (or_introl eq_refl)). apply IH. intros x Hx. apply H. right. exact Hx.
Qed.


Lemma pair_taken_own (s s' : Syllabus.t) (k : Z) (rows : list Syllabus.t) :
  syllabi_consistent rows -> In s rows -> Syllabus.id s = Some k ->
  Syllabus.id s' = Some k -> Syllabus.course s' = Syllabus.course s ->
  Syllabus.version s' = Syllabus.version s ->
  pair_taken s' rows = false.
Proof.
  intros (_ & _ & U) Hin K K' Hc Hv.
  destruct (pair_taken s' rows) eqn:P; [|reflexivity]. exfalso.
  unfold pair_taken in P. rewrite K' in P. apply existsb_exists in P.
  destruct P as (r & Hr & B).
  apply andb_true_iff in B. destruct B as [B N].
  apply andb_true_iff in B. destruct B as [Bc Bv].
  apply String.eqb_eq in Bc. apply String.eqb_eq in Bv.
  assert (r = s) as -> by (apply U; congruence).
  apply negb_true_iff in N. apply (proj2 (has_id_Some k s)) in K. congruence.
Qed.

End SyllabusWrites.



(** X13. [SyllabusViewSet.perform_destroy] goes through
    [Syllabus.save]: for a stored syllabus whose course exists it
    succeeds, sets the deletion flag and also replaces the stored
    course name by the course's current name; afterwards the syllabus
    is retrieved by staff, with the flag set, and is not found by any
    other caller. *)
Theorem syllabus_perform_destroy
  (db : Courses.DB) (s : Courses.Syllabus.t) (c : Courses.Course.t) (k : Z)
  (user : User)
  (C : syllabi_consistent (Courses.syllabi db))
  (Hin : In s (Courses.syllabi db))
  (Hk : Courses.Syllabus.id s = Some k)
  (Hc : Courses.get_course (Courses.Syllabus.course s) db = Some c) :
  let deleted :=
    Courses.Syllabus.with_course_name (Courses.Course.course_name c)
      (CourseViews.with_is_deleted true s) in
  fst (CourseViews.perform_destroy s db) = Ok deleted
  /\ Courses.get_syllabus k (snd (CourseViews.perform_destroy s db)) = Some deleted
  /\ Courses.retrieve user k (snd (CourseViews.perform_destroy s db))
     = if is_authenticated user && is_staff user
       then Some (Courses.to_representation deleted) else None.
Proof.
  intros deleted.
  assert (existsb (Courses.Syllabus.has_id k) (Courses.syllabi db) = true) as E.
  { apply existsb_exists. exists s. split; [exact Hin | apply has_id_Some, Hk]. }
  assert (Courses.pair_taken deleted (Courses.syllabi db) = false) as P
    by (apply (pair_taken_own s deleted k); auto).
  assert (CourseViews.perform_destroy s db
          = (Ok deleted,
             Courses.with_syllabi
               (map (fun r => if Courses.Syllabus.has_id k r then deleted else r)
                    (Courses.syllabi db)) db)) as R.
  { unfold CourseViews.perform_destroy, Courses.save.
    change (Courses.Syllabus.course (CourseViews.with_is_deleted true s))
      with (Courses.Syllabus.course s).
    rewrite Hc. fold deleted. unfold Courses.save_base.
    change (Courses.Syllabus.id deleted) with (Courses.Syllabus.id s).
    rewrite Hk, E, P. reflexivity. }
  rewrite R. cbn [fst snd]. split; [reflexivity|].
  assert (Courses.Syllabus.has_id k deleted = true) as D by (apply has_id_Some, Hk).
  split.
  - unfold Courses.get_syllabus. cbn [Courses.syllabi Courses.with_syllabi].
    apply find_map_replace; assumption.
  - unfold Courses.retrieve, Courses.get_queryset.
    cbn [Courses.syllabi Courses.with_syllabi].
    destruct (is_authenticated user && is_staff user).
    + rewrite (find_map_replace _ _ _ E D). reflexivity.
    + rewrite find_none_all; [reflexivity|].
      intros x Hx. apply filter_In in Hx. destruct Hx as [Hx A].
      apply in_map_iff in Hx. destruct Hx as (r & <- & _).
      destruct (Courses.Syllabus.has_id k r) eqn:I; [discriminate A | exact I].
Qed.

Lemma syllabus_perform_destroy_witness :
  syllabi_consistent (Courses.syllabi renamed)
  /\ In stored_syllabus (Courses.syllabi renamed)
  /\ Courses.retrieve anonymous 1 (snd (CourseViews.perform_destroy stored_syllabus renamed))
     = None
  /\ option_map Courses.r_course_name
       (Courses.retrieve staff 1 (snd (CourseViews.perform_destroy stored_syllabus renamed)))
     = Some "Programming I".
Proof.
  assert (syllabi_consistent (Courses.syllabi renamed)) as C.
  { split; [constructor; [discriminate|constructor]|].
    split; [constructor; [intros []|constructor]|].
    intros r1 r2 [<- | []] [<- | []] _ _. reflexivity. }
  split; [exact C|]. split; [left; reflexivity|]. split.
  - exact (proj2 (proj2 (syllabus_perform_destroy renamed stored_syllabus
                           {| Courses.Course.course_code := "CSE-101-V1";
                              Courses.Course.course_name := "Programming I";
                              Courses.Course.discipline := "1000";
                              Courses.Course.is_deleted := false |}
                           1 anonymous C (or_introl eq_refl) eq_refl eq_refl))).
  - vm_compute. reflexivity.
Defined.

(** ** Patterns: versions and course codes *)

Lemma span_spec (p : ascii -> bool) (s a r : string) :
  PyStr.span p s = (a, r) ->
  s = a ++ r /\ Py.all_chars p a = true
  /\ match r with String c _ => p c = false | EmptyString => True end.
Proof.
  revert a r. induction s as [|c s IH]; simpl; intros a r H.
  - injection H as <- <-. auto.
  - destruct (p c) eqn:P.
    + destruct (PyStr.span p s) as [a' r'] eqn:E. injection H as <- <-.
      destruct (IH a' r' eq_refl) as (-> & A & R). simpl. rewrite P. auto.
    + injection H as <- <-. simpl. rewrite P. auto.
Qed.

Lemma span_app (p : ascii -> bool) (a r : string) :
  Py.all_chars p a = true ->
  match r with String c _ => p c = false | EmptyString => True end ->
  PyStr.span p (a ++ r) = (a, r).
Proof.
  induction a as [|c a IH]; simpl; intros A R.
  - destruct r as [|c r]; [reflexivity|]. simpl. rewrite R. reflexivity.
  - apply andb_true_iff in A. destruct A as [Pc A]. rewrite Pc, (IH A R). reflexivity.
Qed.

Lemma at_end_iff (s : string) :
  PyStr.at_end s = true <-> s = "" \/ s = String "010" "".
Proof.
  unfold PyStr.at_end. rewrite orb_true_iff, !String.eqb_eq. tauto.
Qed.

Lemma str_digits_digits (fuel : nat) :
  forall n acc, Py.all_chars Py.is_digit acc = true ->
    Py.all_chars Py.is_digit (Py.str_digits fuel n acc) = true
    /\ (acc <> "" \/ fuel <> O -> Py.str_digits fuel n acc <> "").
Proof.
  induction fuel as [|fuel IH]; intros n acc A; simpl.
  - split; [exact A|]. intros [H | H]; [exact H | congruence].
  - assert (Py.all_chars Py.is_digit (String (Py.digit_char (n mod 10)) acc) = true) as A'.
    { simpl. rewrite A, digit_char_is_digit; [reflexivity|].
      unfold digit. pose proof (Z.mod_pos_bound n 10). lia. }
    destruct (n <? 10).
    + split; [exact A'|]. intros _. discriminate.
    + destruct (IH (n / 10) _ A') as (D & N). split; [exact D|].
      intros _. apply N. left. discriminate.
Qed.

Lemma str_digits_only (n : Z) : digits_only (Py.str n).
Proof.
  unfold Py.str.
  destruct (str_digits_digits (S (Z.to_nat (Z.log2 n))) n "" eq_refl) as (D & N).
  split; [apply N; right; discriminate | exact D].
Qed.

Lemma append_empty_r (a : string) : a ++ "" = a.
Proof. induction a as [|x a IH]; simpl; [reflexivity | rewrite IH; reflexivity]. Qed.

Lemma append_assoc (a b c : string) : (a ++ b) ++ c = a ++ (b ++ c).
Proof. induction a as [|x a IH]; simpl; [reflexivity | rewrite IH; reflexivity]. Qed.

(** X14. The version pattern of [Syllabus.clean] and of
    [SyllabusSerializer.validate_version] accepts exactly the strings
    made of one or more digits, a dot and one or more digits, possibly
    ended by one newline; so every "major.minor" written from two
    natural numbers is accepted and returned unchanged. *)
Theorem version_pattern (v : string) (n m : Z) (Hn : 0 <= n) (Hm : 0 <= m) :
  (CourseValidation.version_regex v = true
   <-> exists a b, digits_only a /\ digits_only b
                   /\ (v = a ++ "." ++ b \/ v = a ++ "." ++ b ++ String "010" ""))
  /\ CourseValidation.validate_version (Py.str n ++ "." ++ Py.str m)
     = Ok (Py.str n ++ "." ++ Py.str m).
Proof.
  assert (forall a b tail, digits_only a -> digits_only b ->
            tail = "" \/ tail = String "010" "" ->
            CourseValidation.version_regex (a ++ "." ++ b ++ tail) = true) as Acc.
  { intros a b tail (Na & Da) (Nb & Db) T. unfold CourseValidation.version_regex.
    rewrite (span_app Py.is_digit a ("." ++ b ++ tail) Da); [|reflexivity].
    destruct a as [|ca a]; [congruence|].
    change ("." ++ b ++ tail) with (String "." (b ++ tail)). cbv beta iota.
    rewrite (span_app Py.is_digit b tail Db); [|destruct T as [-> | ->]; [exact I|reflexivity]].
    destruct b as [|cb b]; [congruence|].
    cbv beta iota. rewrite Ascii.eqb_refl. apply at_end_iff, T. }
  split; [split|].
  - unfold CourseValidation.version_regex.
    destruct (PyStr.span Py.is_digit v) as [a r] eqn:E.
    destruct (span_spec _ _ _ _ E) as (-> & Da & _).
    destruct a as [|ca a]; [discriminate|].
    destruct r as [|c r]; [discriminate|]. intros H.
    apply andb_true_iff in H. destruct H as [Hc H].
    apply Ascii.eqb_eq in Hc. subst c.
    destruct (PyStr.span Py.is_digit r) as [b tail] eqn:E'.
    destruct (span_spec _ _ _ _ E') as (-> & Db & _).
    destruct b as [|cb b]; [discriminate|].
    apply at_end_iff in H.
    exists (String ca a), (String cb b).
    split; [split; [discriminate | exact Da]|].
    split; [split; [discriminate | exact Db]|].
    destruct H as [-> | ->]; [left; rewrite append_empty_r | right]; reflexivity.
  - intros (a & b & Ha & Hb & [-> | ->]).
    + rewrite <- (append_empty_r b). apply Acc; auto.
    + apply Acc; auto.
  - unfold CourseValidation.validate_version.
    pose proof (Acc (Py.str n) (Py.str m) "" (str_digits_only n) (str_digits_only m)
                  (or_introl eq_refl)) as A.
    rewrite append_empty_r in A. rewrite A. reflexivity.
Qed.

Lemma version_pattern_witness :
  0 <= 1 /\ 0 <= 0
  /\ CourseValidation.validate_version "1.0" = Ok "1.0"
  /\ CourseValidation.validate_version "v1.0"
     = Err (ValidationError ["Version must be in format 'X.Y' (e.g., 1.0)."])
  /\ CourseValidation.Syllabus_clean first_syllabus = Ok tt.
Proof.
  split; [lia|]. split; [lia|]. split; [|split; reflexivity].
  destruct (version_pattern "1.0" 1 0 ltac:(lia) ltac:(lia)) as (_ & A).
  exact A.
Defined.

Lemma all_chars_app (p : ascii -> bool) (a b : string) :
  Py.all_chars p (a ++ b) = Py.all_chars p a && Py.all_chars p b.
Proof.
  induction a as [|c a IH]; simpl; [reflexivity|].
  rewrite IH, andb_assoc. reflexivity.
Qed.

(** X15. [CourseSerializer.validate] checks the course code only when
    one is supplied, and then accepts exactly the codes made of one or
    more letters, a hyphen, one or more digits, a hyphen and one or more
    characters among the digits, "V" and "v", possibly ended by one
    newline; a code without a hyphen is always rejected. *)
Theorem course_code_pattern (code : string) :
  CourseValidation.CourseSerializer_validate None = Ok None
  /\ (CourseValidation.CourseSerializer_validate (Some code) = Ok (Some code)
      <-> exists l n v,
            made_of Py.is_alpha l /\ made_of Py.is_digit n
            /\ made_of CourseValidation.version_char v
            /\ (code = l ++ "-" ++ n ++ "-" ++ v
                \/ code = l ++ "-" ++ n ++ "-" ++ v ++ String "010" ""))
  /\ (Py.all_chars no_hyphen code = true ->
      CourseValidation.CourseSerializer_validate (Some code)
      = Err (ValidationError ["Course code must be in the format CSE-101-V1."])).
Proof.
  assert (forall l n v tail,
            made_of Py.is_alpha l -> made_of Py.is_digit n ->
            made_of CourseValidation.version_char v ->
            tail = "" \/ tail = String "010" "" ->
            CourseValidation.course_code_regex (l ++ "-" ++ n ++ "-" ++ v ++ tail) = true)
    as Acc.
  { intros l n v tail (Nl & Dl) (Nn & Dn) (Nv & Dv) T.
    unfold CourseValidation.course_code_regex.
    rewrite (span_app Py.is_alpha l ("-" ++ n ++ "-" ++ v ++ tail) Dl); [|reflexivity].
    destruct l as [|cl l]; [congruence|].
    change ("-" ++ n ++ "-" ++ v ++ tail) with (String "-" (n ++ "-" ++ v ++ tail)).
    cbv beta iota.
    rewrite (span_app Py.is_digit n ("-" ++ v ++ tail) Dn); [|reflexivity].
    destruct n as [|cn n]; [congruence|].
    change ("-" ++ v ++ tail) with (String "-" (v ++ tail)). cbv beta iota.
    rewrite (span_app CourseValidation.version_char v tail Dv);
      [|destruct T as [-> | ->]; [exact I|reflexivity]].
    destruct v as [|cv v]; [congruence|].
    cbv beta iota. rewrite !Ascii.eqb_refl. apply at_end_iff, T. }
  assert (CourseValidation.course_code_regex code = true ->
          exists l n v,
            made_of Py.is_alpha l /\ made_of Py.is_digit n
            /\ made_of CourseValidation.version_char v
            /\ (code = l ++ "-" ++ n ++ "-" ++ v
                \/ code = l ++ "-" ++ n ++ "-" ++ v ++ String "010" "")) as Shape.
  { unfold CourseValidation.course_code_regex.
    destruct (PyStr.span Py.is_alpha code) as [l r1] eqn:E1.
    destruct (span_spec _ _ _ _ E1) as (-> & Dl & _).
    destruct l as [|cl l]; [discriminate|].
    destruct r1 as [|c1 r1]; [discriminate|]. intros H.
    apply andb_true_iff in H. destruct H as [H1 H].
    apply Ascii.eqb_eq in H1. subst c1.
    destruct (PyStr.span Py.is_digit r1) as [n r2] eqn:E2.
    destruct (span_spec _ _ _ _ E2) as (-> & Dn & _).
    destruct n as [|cn n]; [discriminate|].
    destruct r2 as [|c2 r2]; [discriminate|].
    apply andb_true_iff in H. destruct H as [H2 H].
    apply Ascii.eqb_eq in H2. subst c2.
    destruct (PyStr.span CourseValidation.version_char r2) as [v tail] eqn:E3.
    destruct (span_spec _ _ _ _ E3) as (-> & Dv & _).
    destruct v as [|cv v]; [discriminate|].
    apply at_end_iff in H.
    exists (String cl l), (String cn n), (String cv v).
    split; [split; [discriminate | exact Dl]|].
    split; [split; [discriminate | exact Dn]|].
    split; [split; [discriminate | exact Dv]|].
    destruct H as [-> | ->]; [left; rewrite append_empty_r | right]; reflexivity. }
  split; [reflexivity|]. split; [split|].
  - unfold CourseValidation.CourseSerializer_validate.
    destruct (CourseValidation.course_code_regex code) eqn:R; [|discriminate].
    intros _. apply Shape. reflexivity.
  - intros (l & n & v & Hl & Hn & Hv & E).
    assert (CourseValidation.course_code_regex code = true) as R.
    { destruct E as [-> | ->].
      - rewrite <- (append_empty_r v). apply Acc; auto.
      - apply Acc; auto. }
    unfold CourseValidation.CourseSerializer_validate. rewrite R. reflexivity.
  - intros N. unfold CourseValidation.CourseSerializer_validate.
    destruct (CourseValidation.course_code_regex code) eqn:R; [|reflexivity].
    exfalso. destruct (Shape eq_refl) as (l & n & v & _ & _ & _ & E).
    assert (Py.all_chars no_hyphen (l ++ "-" ++ n ++ "-" ++ v) = false) as F.
    { rewrite all_chars_app. simpl. apply andb_false_r. }
    destruct E as [-> | ->]; [congruence|].
    assert (l ++ "-" ++ n ++ "-" ++ v ++ String "010" ""
            = (l ++ "-" ++ n ++ "-" ++ v) ++ String "010" "") as A.
    { symmetry. rewrite append_assoc. cbn [append]. rewrite append_assoc.
      cbn [append]. reflexivity. }
    rewrite A, all_chars_app, F in N. discriminate.
Qed.

Lemma course_code_pattern_witness :
  Py.all_chars no_hyphen "CS101" = true
  /\ CourseValidation.CourseSerializer_validate (Some "CS101")
     = Err (ValidationError ["Course code must be in the format CSE-101-V1."])
  /\ CourseValidation.CourseSerializer_validate (Some "CSE-101-V1") = Ok (Some "CSE-101-V1").
Proof.
  split; [reflexivity|]. split; [|reflexivity].
  exact (proj2 (proj2 (course_code_pattern "CS101")) eq_refl).
Defined.

(** ** Uploaded files: [validate_pdf] *)

Lemma rfind_app_last (c : ascii) (s e : string) :
  PyStr.rfind c e = None -> PyStr.rfind c (s ++ String c e) = Some (String.length s).
Proof.
  intros E. induction s as [|a s IH]; simpl.
  - rewrite E, Ascii.eqb_refl. reflexivity.
  - rewrite IH. reflexivity.
Qed.

Lemma rfind_app_none (c : ascii) (a b : string) :
  PyStr.rfind c a = None -> PyStr.rfind c b = None -> PyStr.rfind c (a ++ b) = None.
Proof.
  intros A B. induction a as [|x a IH]; simpl in *; [exact B|].
  destruct (PyStr.rfind c a) eqn:R; [discriminate|].
  rewrite (IH eq_refl). exact A.
Qed.

Lemma drop_app (s e : string) : PyStr.drop (String.length s) (s ++ e) = e.
Proof. induction s as [|a s IH]; simpl; [destruct e; reflexivity | exact IH]. Qed.

Lemma only_dots_app (s e : string) :
  PyStr.only_dots (String.length s) (s ++ e) = PyStr.only_dots (String.length s) s.
Proof.
  induction s as [|a s IH]; simpl; [destruct e; reflexivity|].
  rewrite IH. reflexivity.
Qed.

Lemma lower_pdf_plain (e : string) :
  PyStr.lower e = "pdf" -> PyStr.rfind "." e = None /\ PyStr.rfind "/" e = None.
Proof.
  destruct e as [|c1 [|c2 [|c3 [|c4 e]]]]; simpl; intros H; try discriminate H.
  injection H as H1 H2 H3.
  assert (forall c x, PyStr.lower_char c = x -> PyStr.lower_char "." <> x ->
                      Ascii.eqb c "." = false) as Dot.
  { intros c x L N. destruct (Ascii.eqb_spec c "."); [subst; contradiction | reflexivity]. }
  assert (forall c x, PyStr.lower_char c = x -> PyStr.lower_char "/" <> x ->
                      Ascii.eqb c "/" = false) as Slash.
  { intros c x L N. destruct (Ascii.eqb_spec c "/"); [subst; contradiction | reflexivity]. }
  rewrite (Dot c1 _ H1), (Dot c2 _ H2), (Dot c3 _ H3) by (vm_compute; discriminate).
  rewrite (Slash c1 _ H1), (Slash c2 _ H2), (Slash c3 _ H3) by (vm_compute; discriminate).
  auto.
Qed.

(** X16. [validate_pdf] looks at the extension [os.path.splitext] finds,
    whatever its case, and then at the size.  A file named stem.ext, the
    stem without a slash and the extension spelling "pdf" in any case,
    is accepted exactly when the stem has a character other than a dot
    and the size is at most the limit in megabytes times 1024 * 1024; a
    name whose stem is empty or all dots, such as ".pdf", and a name
    without any dot are refused as not being PDF files, whatever their
    size. *)
Theorem validate_pdf_outcome
  (stem e name : string) (sz max_size_mb : Z)
  (Hs : PyStr.rfind "/" stem = None)
  (He : PyStr.lower e = "pdf")
  (Hn : PyStr.rfind "." name = None) :
  CourseValidation.validate_pdf
    {| CourseValidation.file_name := stem ++ "." ++ e; CourseValidation.size := sz |}
    max_size_mb
  = (if PyStr.only_dots (String.length stem) stem
     then Err (ValidationError ["Only PDF files are allowed."])
     else if sz >? max_size_mb * 1024 * 1024
          then Err (ValidationError
                      ["File size must be under "
                       ++ CourseValidation.str_int max_size_mb ++ "MB."])
          else Ok tt)
  /\ CourseValidation.validate_pdf
       {| CourseValidation.file_name := name; CourseValidation.size := sz |} max_size_mb
     = Err (ValidationError ["Only PDF files are allowed."]).
Proof.
  destruct (lower_pdf_plain e He) as (Ed & Es).
  split.
  - unfold CourseValidation.validate_pdf. cbn [CourseValidation.file_name CourseValidation.size].
    assert (PyStr.splitext (stem ++ "." ++ e)
            = if PyStr.only_dots (String.length stem) stem
              then (stem ++ "." ++ e, "")
              else (PyStr.take (String.length stem) (stem ++ "." ++ e), String "." e)) as S.
    { unfold PyStr.splitext.
      change ("." ++ e) with (String "." e).
      rewrite (rfind_app_none "/" stem (String "." e) Hs)
        by (simpl; rewrite Es; reflexivity).
      rewrite (rfind_app_last "." stem e Ed).
      cbn [Nat.leb andb]. rewrite Nat.sub_0_r.
      change (PyStr.drop 0 (stem ++ String "." e)) with (stem ++ String "." e).
      rewrite only_dots_app, drop_app.
      destruct (PyStr.only_dots (String.length stem) stem); reflexivity. }
    rewrite S. destruct (PyStr.only_dots (String.length stem) stem); cbn [snd].
    + reflexivity.
    + cbn [PyStr.lower]. rewrite He. reflexivity.
  - unfold CourseValidation.validate_pdf, PyStr.splitext.
    cbn [CourseValidation.file_name]. rewrite Hn. reflexivity.
Qed.

Lemma validate_pdf_outcome_witness :
  PyStr.rfind "/" "cse.101" = None /\ PyStr.lower "PdF" = "pdf"
  /\ PyStr.rfind "." "syllabus" = None
  /\ CourseValidation.validate_pdf
       {| CourseValidation.file_name := "cse.101.PdF"; CourseValidation.size := 5242880 |} 5
     = Ok tt
  /\ CourseValidation.validate_pdf
       {| CourseValidation.file_name := "cse.101.PdF"; CourseValidation.size := 5242881 |} 5
     = Err (ValidationError ["File size must be under 5MB."])
  /\ CourseValidation.validate_pdf
       {| CourseValidation.file_name := ".pdf"; CourseValidation.size := 10 |} 5
     = Err (ValidationError ["Only PDF files are allowed."]).
Proof.
  split; [reflexivity|]. split; [reflexivity|]. split; [reflexivity|].
  split; [|split].
  - exact (proj1 (validate_pdf_outcome "cse.101" "PdF" "syllabus" 5242880 5
                    eq_refl eq_refl eq_refl)).
  - exact (proj1 (validate_pdf_outcome "cse.101" "PdF" "syllabus" 5242881 5
                    eq_refl eq_refl eq_refl)).
  - exact (proj1 (validate_pdf_outcome "" "pdf" "syllabus" 10 5
                    eq_refl eq_refl eq_refl)).
Defined.

(** ** Authentication and token refresh *)

(** X17. [CookieJWTAuthentication.authenticate] raises nothing but
    [AuthenticationFailed]; without a cookie, header authentication
    being off, it returns [None] whatever the headers are; it returns a
    user only when the token validates and the user is active; and the
    error it raises itself for an inactive user is caught by its own
    [except Exception] clause, so the caller is told
    "authentication_failed" and never "user_inactive". *)
Theorem authenticate_outcomes
  (allow : bool) (b : Authentication.Backend) (request : Authentication.Request) :
  (forall e, Authentication.authenticate allow b request = Authentication.Raises e ->
     exists code, e = Authentication.AuthenticationFailed code /\ code <> "user_inactive")
  /\ (Authentication.falsy (Authentication.cookie request) = true ->
      Authentication.authenticate false b request = Authentication.Returns None)
  /\ (forall u t,
        Authentication.authenticate allow b request = Authentication.Returns (Some (u, t)) ->
        Authentication.is_active u = true
        /\ Authentication.get_user b t = Authentication.Returns u)
  /\ (forall raw t u,
        Authentication.cookie request = Some raw -> raw <> "" ->
        Authentication.get_validated_token b raw = Authentication.Returns t ->
        Authentication.get_user b t = Authentication.Returns u ->
        Authentication.is_active u = false ->
        Authentication.authenticate allow b request
        = Authentication.Raises (Authentication.AuthenticationFailed "authentication_failed")).
Proof.
  assert (forall token r,
            match Authentication.authenticate_try b token with
            | Authentication.Returns r => Authentication.Returns r
            | Authentication.Raises Authentication.InvalidToken =>
                Authentication.Raises (Authentication.AuthenticationFailed "invalid_token")
            | Authentication.Raises Authentication.DoesNotExist =>
                Authentication.Raises (Authentication.AuthenticationFailed "user_not_found")
            | Authentication.Raises _ =>
                Authentication.Raises
                  (Authentication.AuthenticationFailed "authentication_failed")
            end = r ->
            (forall e, r = Authentication.Raises e ->
               exists code, e = Authentication.AuthenticationFailed code
                            /\ code <> "user_inactive")
            /\ (forall u t, r = Authentication.Returns (Some (u, t)) ->
                  Authentication.is_active u = true
                  /\ Authentication.get_user b t = Authentication.Returns u)) as Try.
  { intros token r <-. unfold Authentication.authenticate_try.
    destruct (Authentication.get_validated_token b token) as [t|e].
    - destruct (Authentication.get_user b t) as [u|e] eqn:G.
      + destruct (Authentication.is_active u) eqn:A; simpl.
        * split; [discriminate|]. intros u' t' H. injection H as <- <-. auto.
        * split; [|discriminate]. intros e H. injection H as <-.
          eexists. split; [reflexivity | discriminate].
      + split; [|destruct e; discriminate].
        intros e' H. destruct e; injection H as <-;
          (eexists; split; [reflexivity | discriminate]).
    - split; [|destruct e; discriminate].
      intros e' H. destruct e; injection H as <-;
        (eexists; split; [reflexivity | discriminate]). }
  split; [|split; [|split]].
  - intros e. unfold Authentication.authenticate.
    destruct (Authentication.falsy (Authentication.cookie request) && allow).
    + destruct (Authentication.header request) as [| |[raw|]].
      * destruct (Authentication.cookie request) as [raw|]; [|discriminate].
        destruct (raw =? "")%string; [discriminate|]. intros H.
        apply (proj1 (Try raw _ H)). reflexivity.
      * intros H. injection H as <-. eexists. split; [reflexivity | discriminate].
      * destruct (raw =? "")%string; [discriminate|]. intros H.
        apply (proj1 (Try raw _ H)). reflexivity.
      * discriminate.
    + destruct (Authentication.cookie request) as [raw|]; [|discriminate].
      destruct (raw =? "")%string; [discriminate|]. intros H.
      apply (proj1 (Try raw _ H)). reflexivity.
  - unfold Authentication.authenticate, Authentication.falsy. intros F.
    rewrite andb_false_r.
    destruct (Authentication.cookie request) as [raw|]; [|reflexivity].
    rewrite F. reflexivity.
  - intros u t. unfold Authentication.authenticate.
    destruct (Authentication.falsy (Authentication.cookie request) && allow).
    + destruct (Authentication.header request) as [| |[raw|]].
      * destruct (Authentication.cookie request) as [raw|]; [|discriminate].
        destruct (raw =? "")%string; [discriminate|]. intros H.
        apply (proj2 (Try raw _ H)). reflexivity.
      * discriminate.
      * destruct (raw =? "")%string; [discriminate|]. intros H.
        apply (proj2 (Try raw _ H)). reflexivity.
      * discriminate.
    + destruct (Authentication.cookie request) as [raw|]; [|discriminate].
      destruct (raw =? "")%string; [discriminate|]. intros H.
      apply (proj2 (Try raw _ H)). reflexivity.
  - intros raw t u C N V G A. unfold Authentication.authenticate, Authentication.falsy.
    rewrite C. apply String.eqb_neq in N. rewrite N. simpl.
    unfold Authentication.authenticate_try. rewrite V, G, A, ?N. reflexivity.
Qed.

Lemma authenticate_outcomes_witness :
  Authentication.authenticate false
    {| Authentication.get_validated_token := fun raw => Authentication.Returns raw;
       Authentication.get_user :=
         fun _ => Authentication.Returns
                    {| Authentication.email := "a@uni.in";
                       Authentication.is_active := false |} |}
    {| Authentication.cookie := Some "token"; Authentication.header := Authentication.NoHeader |}
  = Authentication.Raises (Authentication.AuthenticationFailed "authentication_failed").
Proof.
  exact (proj2 (proj2 (proj2
           (authenticate_outcomes false
              {| Authentication.get_validated_token := fun raw => Authentication.Returns raw;
                 Authentication.get_user :=
                   fun _ => Authentication.Returns
                              {| Authentication.email := "a@uni.in";
                                 Authentication.is_active := false |} |}
              {| Authentication.cookie := Some "token";
                 Authentication.header := Authentication.NoHeader |})))
           "token" "token"
           {| Authentication.email := "a@uni.in"; Authentication.is_active := false |}
           eq_refl ltac:(discriminate) eq_refl eq_refl eq_refl).
Defined.

Lemma blacklisted_refused (tok : string) (user : option string)
  (for_user : Accounts.exc string) (w : Accounts.World) :
  tok <> "" -> existsb (String.eqb tok) (Accounts.blacklisted w) = true ->
  TokenViews.post (Some tok) user for_user w = (Accounts.Return refused, w).
Proof.
  intros N B. unfold TokenViews.post. apply String.eqb_neq in N. rewrite N.
  unfold Accounts.RefreshToken. rewrite B, andb_false_r. reflexivity.
Qed.

(** X18. Refresh tokens are used once.  [TokenRefreshView.post] answers
    400 without a refresh cookie; when it answers 200 it has
    blacklisted the token it was given, so a second refresh with the
    same token is refused with 401; the same holds after a logout that
    could write the blacklist, while a logout that could not still
    reports success and leaves the token usable.  A request whose user
    is anonymous is never answered 200. *)
Theorem refresh_token_single_use
  (tok : string) (user user' : option string)
  (for_user for_user' : Accounts.exc string) (w : Accounts.World)
  (request : Accounts.Request)
  (Htok : tok <> "")
  (Hdata : Accounts.data request = Accounts.DataMapping (Accounts.PyStr tok)) :
  fst (TokenViews.post None user for_user w)
  = Accounts.Return {| TokenViews.key := "error";
                       TokenViews.text := "Refresh token is required";
                       TokenViews.status_code := 400; TokenViews.cookies_set := [] |}
  /\ (forall r, fst (TokenViews.post (Some tok) user for_user w) = Accounts.Return r ->
        TokenViews.status_code r = 200 ->
        user <> None
        /\ TokenViews.post (Some tok) user' for_user'
             (snd (TokenViews.post (Some tok) user for_user w))
           = (Accounts.Return refused, snd (TokenViews.post (Some tok) user for_user w)))
  /\ (Accounts.RefreshToken (Accounts.PyStr tok) w = Accounts.Return tok ->
      if Accounts.blacklist_writable w
      then TokenViews.post (Some tok) user' for_user' (snd (Accounts.post request w))
           = (Accounts.Return refused, snd (Accounts.post request w))
      else fst (Accounts.post request w) = logged_out
           /\ Accounts.RefreshToken (Accounts.PyStr tok) (snd (Accounts.post request w))
              = Accounts.Return tok).
Proof.
  split; [reflexivity|]. split.
  - intros r H S.
    assert (user <> None
            /\ existsb (String.eqb tok)
                 (Accounts.blacklisted
                    (snd (TokenViews.post (Some tok) user for_user w))) = true)
      as (U & B).
    { revert H S. unfold TokenViews.post.
      pose proof Htok as N. apply String.eqb_neq in N. rewrite N.
      destruct (Accounts.RefreshToken (Accounts.PyStr tok) w) as [token|e] eqn:R.
      + assert (token = tok) as ->.
        { unfold Accounts.RefreshToken in R.
          destruct (Accounts.verifies w tok
                    && negb (existsb (String.eqb tok) (Accounts.blacklisted w)));
            [injection R as <-; reflexivity | discriminate R]. }
        cbn [TokenViews.ROTATE_REFRESH_TOKENS]. unfold Accounts.blacklist.
        destruct (Accounts.blacklist_writable w).
        * destruct for_user as [new|e].
          -- destruct user as [mail|]; cbn [TokenViews.respond fst snd].
             ++ intros _ _. split; [discriminate|].
                cbn. rewrite String.eqb_refl. reflexivity.
             ++ unfold TokenViews.except_TokenError. cbn. discriminate.
          -- unfold TokenViews.except_TokenError.
             destruct (e =? "TokenError")%string; cbn [fst]; [|discriminate].
             intros H S. injection H as <-. discriminate S.
        * unfold TokenViews.except_TokenError. cbn. discriminate.
      + unfold TokenViews.except_TokenError.
        destruct (e =? "TokenError")%string; cbn [fst]; [|discriminate].
        intros H S. injection H as <-. discriminate S. }
    split; [exact U|]. apply blacklisted_refused; assumption.
  - intros R. unfold Accounts.post, Accounts.post_try. rewrite Hdata.
    cbn [Accounts.truthy]. pose proof Htok as N. apply String.eqb_neq in N.
    rewrite N. cbn [negb]. rewrite R. unfold Accounts.blacklist.
    destruct (Accounts.blacklist_writable w) eqn:W.
    + cbn [snd]. apply blacklisted_refused; [exact Htok|].
      cbn. rewrite String.eqb_refl. reflexivity.
    + cbn [fst snd]. split; [reflexivity|].
      unfold Accounts.RefreshToken in *. cbn. exact R.
Qed.

Lemma refresh_token_single_use_witness :
  "token" <> ""
  /\ fst (TokenViews.post (Some "token") (Some "a@uni.in") (Accounts.Return "next")
            fresh_world)
     = Accounts.Return {| TokenViews.key := "message";
                          TokenViews.text := "Token refreshed successfully";
                          TokenViews.status_code := 200;
                          TokenViews.cookies_set := ["access_token"; "refresh_token"] |}
  /\ fst (TokenViews.post (Some "token") (Some "a@uni.in") (Accounts.Return "next")
            (snd (TokenViews.post (Some "token") (Some "a@uni.in")
                    (Accounts.Return "next") fresh_world)))
     = Accounts.Return refused.
Proof.
  assert ("token" <> "") as N by discriminate.
  split; [exact N|]. split; [reflexivity|].
  destruct (refresh_token_single_use "token" (Some "a@uni.in") (Some "a@uni.in")
              (Accounts.Return "next") (Accounts.Return "next") fresh_world
              {| Accounts.data := Accounts.DataMapping (Accounts.PyStr "token");
                 Accounts.REMOTE_ADDR := "10.0.0.1" |} N eq_refl) as (_ & S & _).
  destruct (S _ eq_refl eq_refl) as (_ & E). rewrite E. reflexivity.
Defined.

(** X19. Who may destroy, and what they see afterwards.  A caller who
    passes the permissions of the destroy action of the course and
    syllabus view sets is staff, so, being logged in, their queryset is
    the whole table, soft-deleted rows included.  The department view
    set asks of the destroy action only that the caller is logged in:
    a logged-in caller who is not staff sees an active department,
    may soft-delete it, and afterwards finds no row with its id. *)
Theorem destroy_permission_and_visibility
  (user : User) (db : Courses.DB) (t : Table) (d : Department)
  (V : row_valid d = true) (Hin : In d t) (A : is_deleted d = false)
  (U : is_staff user = true -> is_authenticated user = true) :
  (check_permissions (CourseViews.get_permissions CourseViews.destroy_action) user = true ->
     Courses.get_queryset user db = Courses.syllabi db)
  /\ check_permissions
       (CourseViews.department_get_permissions CourseViews.destroy_action) user
     = is_authenticated user
  /\ (is_authenticated user = true -> is_staff user = false ->
        In d (get_queryset user t)
        /\ fst (perform_destroy d t) = Ok tt
        /\ forall e, In e (get_queryset user (snd (perform_destroy d t))) ->
             id e <> id d).
Proof.
  split; [|split].
  - unfold check_permissions. cbn [CourseViews.get_permissions forallb
      CourseViews.has_permission]. rewrite andb_true_r. intros S.
    unfold Courses.get_queryset. rewrite S, (U S). reflexivity.
  - unfold check_permissions. cbn [CourseViews.department_get_permissions forallb
      CourseViews.has_permission]. apply andb_true_r.
  - intros L S. rewrite (perform_destroy_succeeds t d V Hin). cbn [fst snd].
    unfold get_queryset, queryset. rewrite L, S. cbn [andb].
    unfold filter_is_deleted. split; [|split; [reflexivity|]].
    + apply filter_In. split; [apply order_by_id_In, Hin|].
      rewrite A. reflexivity.
    + intros e He. apply filter_In in He. destruct He as [He B].
      apply (proj1 (order_by_id_In _ _)) in He. apply replace_row_In in He.
      destruct He as [-> | [_ N]]; [discriminate B | exact N].
Qed.

Lemma destroy_permission_and_visibility_witness :
  row_valid cs = true /\ In cs [cs] /\ is_deleted cs = false
  /\ check_permissions
       (CourseViews.department_get_permissions CourseViews.destroy_action) member
     = true
  /\ get_queryset member (snd (perform_destroy cs [cs])) = [].
Proof.
  assert (row_valid cs = true) as R by (vm_compute; reflexivity).
  split; [exact R|]. split; [left; reflexivity|]. split; [reflexivity|].
  split; [|vm_compute; reflexivity].
  destruct (destroy_permission_and_visibility member
              {| Courses.courses := []; Courses.syllabi := []; Courses.next_syllabus_id := 1 |}
              [cs] cs R (or_introl eq_refl) eq_refl
              (fun S : is_staff member = true => eq_refl)) as (_ & P & _).
  exact P.
Defined.

(** ** The import of departments *)

Lemma clean_faculty_values (f : string) :
  clean_faculty f = existsb (String.eqb f) Admin.Faculty_values.
Proof.
  unfold clean_faculty, Admin.Faculty_values, Faculty_choices.
  destruct (existsb (String.eqb f) (map Faculty_value Faculty_members)) eqn:E.
  - apply existsb_exists in E. destruct E as (v & Hv & E).
    apply String.eqb_eq in E. subst v.
    cbn in Hv. repeat (destruct Hv as [<- | Hv]; [reflexivity|]). destruct Hv.
  - rewrite andb_false_r. reflexivity.
Qed.

Lemma len_four (s : string) :
  Py.len s = 4 ->
  exists a b c d, s = String a (String b (String c (String d EmptyString))).
Proof.
  unfold Py.len. intros L. apply (f_equal Z.to_nat) in L. rewrite Nat2Z.id in L.
  change (Z.to_nat 4) with 4%nat in L.
  destruct s as [|a [|b [|c [|d [|e s]]]]]; try discriminate L.
  exists a, b, c, d. reflexivity.
Qed.

(** X20. [before_import_row] against the validators of the model.  A
    row whose faculty and id the model's validators accept passes the
    check; a row that passes has a faculty the model accepts and an id
    that is empty or has four characters, and then the id validators
    accept it exactly when the four are decimal digits: the check
    uses [isdigit], which superscript digits pass as well.  A value
    that is not a string passes as id only when it is falsy. *)
Theorem before_import_row_and_validators (f s : string) (c : Admin.Cell) :
  (clean_faculty f = true -> four_digits s = true ->
     Admin.before_import_row (Admin.CellStr f) (Admin.CellStr s) = Ok tt)
  /\ (Admin.before_import_row (Admin.CellStr f) (Admin.CellStr s) = Ok tt ->
        clean_faculty f = true
        /\ (s = EmptyString
            \/ (Py.len s = 4
                /\ (four_digits s = true <-> Py.all_chars Py.is_digit s = true))))
  /\ (Admin.before_import_row (Admin.CellStr f) c = Ok tt ->
        (forall x, c <> Admin.CellStr x) -> Admin.cell_truthy c = false)
  /\ Admin.before_import_row (Admin.CellStr "SC") (Admin.CellStr superscript_id) = Ok tt
  /\ four_digits superscript_id = false.
Proof.
  split; [|split; [|split; [|split; reflexivity]]].
  - intros F D. unfold Admin.before_import_row.
    rewrite <- clean_faculty_values, F. cbn [negb].
    destruct (four_digits_four s D) as (a & b & c' & d & Ha & Hb & Hc & Hd & ->).
    assert (forall x, digit x -> Py.is_digit (Py.digit_char x) = true) as G.
    { intros x Hx. unfold digit in Hx.
      assert (x = 0 \/ x = 1 \/ x = 2 \/ x = 3 \/ x = 4 \/ x = 5 \/ x = 6
              \/ x = 7 \/ x = 8 \/ x = 9) as K by lia.
      repeat (destruct K as [-> | K]; [reflexivity|]). subst x. reflexivity. }
    unfold four, Admin.isdigit, Admin.isdigit_char.
    cbn [Admin.cell_truthy String.eqb negb Py.all_chars].
    rewrite (G a Ha), (G b Hb), (G c' Hc), (G d Hd). reflexivity.
  - unfold Admin.before_import_row. rewrite <- clean_faculty_values.
    destruct (clean_faculty f); [|discriminate]. cbn [negb Admin.cell_truthy].
    destruct (String.eqb_spec s EmptyString) as [E|E]; [auto|].
    cbn [negb andb]. intros H. split; [reflexivity|]. right.
    destruct (Admin.isdigit s); [|discriminate H].
    destruct (Z.eqb_spec (Py.len s) 4) as [L|L]; [|discriminate H].
    split; [exact L|].
    destruct (len_four s L) as (a & b & c' & d & ->).
    unfold four_digits, id_regex. cbn [Py.all_chars String.eqb].
    change (Py.len (String a (String b (String c' (String d EmptyString)))) <=? 4)
      with true.
    cbn [orb]. rewrite !andb_true_r, !andb_assoc. tauto.
  - unfold Admin.before_import_row. rewrite <- clean_faculty_values.
    destruct (clean_faculty f); [|discriminate]. cbn [negb].
    destruct c as [|x|b text]; intros H N.
    + reflexivity.
    + exfalso. apply (N x). reflexivity.
    + cbn [Admin.cell_truthy] in *. destruct b; [discriminate H | reflexivity].
Qed.

Lemma before_import_row_and_validators_witness :
  clean_faculty "I&C" = true /\ four_digits "1000" = true
  /\ Admin.before_import_row (Admin.CellStr "I&C") (Admin.CellStr "1000") = Ok tt
  /\ Admin.before_import_row (Admin.CellStr "I&C") (Admin.CellOther true "1000")
     = Err (ValueError "ID '1000' must be a four-digit string (e.g., '1000')")
  /\ Admin.before_import_row Admin.CellNone (Admin.CellStr "1000")
     = Err (ValueError
              "Invalid faculty value 'None'. Must be one of: ['I&C', 'E&T', 'I&R', 'LS', 'LAMS', 'MS', 'SC', 'CCSD']").
Proof.
  split; [reflexivity|]. split; [reflexivity|].
  split; [|split; reflexivity].
  destruct (before_import_row_and_validators "I&C" "1000" Admin.CellNone) as (P & _).
  exact (P eq_refl eq_refl).
Defined.






